(** * The balance ledger of the order bot (database.py and its callers)

    A shallow embedding of the SQLite-backed ledger: the tables touched by
    the balance-mutating functions of [database.py], the connection manager
    [get_connection] with its module-level lock, and the ledger part of the
    handlers of [handlers/admin.py], [handlers/payments.py] and
    [handlers/user_fixed.py] that call them; besides the ledger, the
    registration and blocking of users, the broadcast list, the card and
    phone number checks of the withdrawal dialogue and the text sanitizer
    of [utils/helpers.py].

    Modelling conventions.
    - A table with a unique key is a finite map from that key to the row:
      [users] by [user_id] (UNIQUE NOT NULL), [orders] and
      [withdraw_requests] by their AUTOINCREMENT [id].  [referrals] is the
      list of its rows in insertion order, with the UNIQUE
      (referrer_id, referred_id) constraint checked on insertion.
    - [created_at] columns are not modelled: the modelled code only sorts
      by them, and every row it then picks is picked by its unique key.
    - Money (the columns [balance], [amount] and [bonus], declared REAL) is
      embedded twice.
      First as a whole number of so'm, a [Z], with [status] and
      [withdraw_type] as enumerations of the literals that their CHECK
      constraints admit and ids taken to fit SQLite's 64 bits.  This is
      what the code computes as long as every balance and amount is a whole
      number of magnitude at most 2^53, where the sums, differences and
      comparisons of binary64 are exact.  The properties of guards, of
      status changes, of who is credited and of what never returns are
      stated over this embedding; a property that rests on an exact sum
      says so in its hypotheses.
      Then, in the module [binary64], as the binary64 numbers that SQLite
      stores and Python computes with, together with NULL, the NOT NULL
      and CHECK constraints of an INSERT and the 64-bit range of an id.
      The properties of what the functions that compute with money store
      are stated over this embedding.
    - Of the failures of SQLite itself (I/O errors, a busy database) only
      those that the arguments of a call decide are modelled, and only in
      [binary64]; the other exceptions modelled are the [ValueError]s the
      code raises. *)

From Stdlib Require Import ZArith Lia List Ascii String Floats.
From stdpp Require Import gmap strings list fin_maps.

Open Scope Z_scope.

(** ** Rows and tables *)

Inductive status := pending | approved | rejected.

Inductive withdraw_type := card | phone_wallet.

#[global] Instance status_eq_dec : EqDecision status.
Proof. solve_decision. Defined.

#[global] Instance withdraw_type_eq_dec : EqDecision withdraw_type.
Proof. solve_decision. Defined.

Record User := mkUser {
  username : option string;
  phone : option string;
  referred_by : option Z;
  balance : Z;
  is_blocked : bool
}.

Record Order := mkOrder {
  o_user_id : Z;
  o_product_url : string;
  o_photo_id : string;
  o_status : status
}.

Record WithdrawRequest := mkWithdrawRequest {
  w_user_id : Z;
  w_amount : Z;
  w_wallet : string;
  w_withdraw_type : withdraw_type;
  w_status : status
}.

Record Referral := mkReferral {
  referrer_id : Z;
  referred_id : Z;
  bonus : Z;
  level : Z
}.

Record DB := mkDB {
  users : gmap Z User;
  orders : gmap Z Order;
  withdraw_requests : gmap Z WithdrawRequest;
  referrals : list Referral
}.

Definition set_balance (b : Z) (u : User) : User :=
  mkUser (username u) (phone u) (referred_by u) b (is_blocked u).

Definition set_o_status (s : status) (o : Order) : Order :=
  mkOrder (o_user_id o) (o_product_url o) (o_photo_id o) s.

Definition set_w_status (s : status) (r : WithdrawRequest) : WithdrawRequest :=
  mkWithdrawRequest (w_user_id r) (w_amount r) (w_wallet r) (w_withdraw_type r) s.

Definition with_users (us : gmap Z User) (d : DB) : DB :=
  mkDB us (orders d) (withdraw_requests d) (referrals d).

Definition with_orders (os : gmap Z Order) (d : DB) : DB :=
  mkDB (users d) os (withdraw_requests d) (referrals d).

Definition with_withdraw_requests (ws : gmap Z WithdrawRequest) (d : DB) : DB :=
  mkDB (users d) (orders d) ws (referrals d).

Definition with_referrals (rs : list Referral) (d : DB) : DB :=
  mkDB (users d) (orders d) (withdraw_requests d) rs.

(** ** Outcomes of a database function

    A call either returns (with the committed database it leaves behind),
    raises (the database is what was committed before the exception left
    the function), or never returns: [_connection_lock] is a
    [threading.Lock], which is not re-entrant, and [get_connection] holds
    it from before the [yield] until the [with] block of its caller ends.
    A function that calls another database function from inside its own
    [with get_connection()] block therefore waits for a lock that its own
    thread holds. *)

Inductive exn :=
| UserNotFound (user_id : Z)
| InsufficientBalance (user_id current_balance amount : Z)
| WithdrawRequestNotFound (request_id : Z).

Inductive outcome (A : Type) :=
| Returned (d : DB) (a : A)
| Raised (e : exn) (d : DB)
| Blocked.

Arguments Returned {A} d a.
Arguments Raised {A} e d.
Arguments Blocked {A}.

Inductive lock_state := Free | Held.

(** [with get_connection() as conn: body].  The body runs with the lock
    held; the lock is released when the body is left, normally or by an
    exception. *)
Definition get_connection {A : Type} (lk : lock_state)
    (body : lock_state -> outcome A) : outcome A :=
  match lk with
  | Held => Blocked
  | Free => body Held
  end.

(** Sequencing of two calls made one after the other by a handler. *)
Definition bind {A B : Type} (m : outcome A) (k : DB -> A -> outcome B) : outcome B :=
  match m with
  | Returned d a => k d a
  | Raised e d => Raised e d
  | Blocked => Blocked
  end.

(** ** SQL statements used by the ledger *)

(** SELECT balance FROM users WHERE user_id = ? *)
Definition select_balance (user_id : Z) (d : DB) : option Z :=
  balance <$> users d !! user_id.

(** UPDATE users SET balance = ? WHERE user_id = ? *)
Definition update_balance (user_id new_balance : Z) (d : DB) : DB :=
  with_users (alter (set_balance new_balance) user_id (users d)) d.

(** UPDATE orders SET status = ? WHERE id = ? *)
Definition update_orders_status (order_id : Z) (s : status) (d : DB) : DB :=
  with_orders (alter (set_o_status s) order_id (orders d)) d.

(** UPDATE withdraw_requests SET status = ? WHERE id = ? *)
Definition update_withdraw_requests_status (request_id : Z) (s : status) (d : DB) : DB :=
  with_withdraw_requests (alter (set_w_status s) request_id (withdraw_requests d)) d.

(** The rowid an AUTOINCREMENT column gives to the next inserted row: one
    more than the largest rowid of the table (rows are never deleted, so
    this is also one more than the largest rowid ever used), 1 for an empty
    table. *)
Definition max_rowid {V : Type} (m : gmap Z V) : Z :=
  foldr Z.max 0 (map fst (map_to_list m)).

Definition next_rowid {V : Type} (m : gmap Z V) : Z := 1 + max_rowid m.

(** ** database.py: users *)

Definition get_user_balance (user_id : Z) (lk : lock_state) (d : DB) : outcome Z :=
  get_connection lk (fun _ =>
    match select_balance user_id d with
    | Some b => Returned d b
    | None => Returned d 0
    end).

Definition get_user (user_id : Z) (lk : lock_state) (d : DB) : outcome (option User) :=
  get_connection lk (fun _ => Returned d (users d !! user_id)).

Definition update_user_balance (user_id delta : Z) (lk : lock_state) (d : DB) : outcome unit :=
  get_connection lk (fun _ =>
    (* BEGIN EXCLUSIVE *)
    match select_balance user_id d with
    | None => Raised (UserNotFound user_id) d
    | Some current =>
        let new_balance := Z.max 0 (current + delta) in
        Returned (update_balance user_id new_balance d) tt
    end).

Definition add_user_balance (user_id amount : Z) (lk : lock_state) (d : DB) : outcome unit :=
  get_connection lk (fun _ =>
    Returned
      (with_users (alter (fun u => set_balance (balance u + amount) u) user_id (users d)) d)
      tt).

(** ** database.py: orders *)

Definition create_order (user_id : Z) (product_url photo_id : string)
    (lk : lock_state) (d : DB) : outcome Z :=
  get_connection lk (fun _ =>
    let order_id := next_rowid (orders d) in
    Returned
      (with_orders (<[order_id := mkOrder user_id product_url photo_id pending]> (orders d)) d)
      order_id).

(** get_all_orders() without filters: every order row with its id. *)
Definition get_all_orders (lk : lock_state) (d : DB) : outcome (list (Z * Order)) :=
  get_connection lk (fun _ => Returned d (map_to_list (orders d))).

(** UPDATE orders SET status = 'rejected' WHERE id = ? AND user_id = ? *)
Definition cancel_order (user_id order_id : Z) (lk : lock_state) (d : DB) : outcome unit :=
  get_connection lk (fun _ =>
    Returned
      (with_orders
         (alter (fun o => if decide (o_user_id o = user_id) then set_o_status rejected o else o)
                order_id (orders d)) d)
      tt).

Definition update_order_status (order_id : Z) (s : status) (lk : lock_state) (d : DB) : outcome unit :=
  get_connection lk (fun _ => Returned (update_orders_status order_id s d) tt).

(** ** database.py: withdraw requests *)

(** SELECT ... FROM withdraw_requests [wr LEFT JOIN users ...]
    WHERE status = 'pending': the pending rows with their ids. *)
Definition pending_rows (d : DB) : list (Z * WithdrawRequest) :=
  List.filter (fun r => bool_decide (w_status r.2 = pending))
              (map_to_list (withdraw_requests d)).

Definition get_pending_withdraw_requests (lk : lock_state) (d : DB)
    : outcome (list (Z * WithdrawRequest)) :=
  get_connection lk (fun _ => Returned d (pending_rows d)).

Definition get_pending_withdraws (lk : lock_state) (d : DB)
    : outcome (list (Z * WithdrawRequest)) :=
  get_connection lk (fun _ => Returned d (pending_rows d)).

Definition update_withdraw_request_status (request_id : Z) (s : status)
    (lk : lock_state) (d : DB) : outcome unit :=
  get_connection lk (fun _ => Returned (update_withdraw_requests_status request_id s d) tt).

Definition reject_withdraw_request_and_refund (request_id : Z)
    (lk : lock_state) (d : DB) : outcome unit :=
  get_connection lk (fun _ =>
    (* BEGIN EXCLUSIVE *)
    match withdraw_requests d !! request_id with
    | None => Raised (WithdrawRequestNotFound request_id) d
    | Some req_row =>
        let user_id := w_user_id req_row in
        let amount := w_amount req_row in
        let d1 := update_withdraw_requests_status request_id rejected d in
        match select_balance user_id d1 with
        | None => Raised (UserNotFound user_id) d        (* rollback *)
        | Some current_balance =>
            let new_balance := current_balance + amount in
            Returned (update_balance user_id new_balance d1) tt   (* commit *)
        end
    end).

Definition create_withdraw_request (user_id amount : Z) (wallet : string)
    (wt : withdraw_type) (lk : lock_state) (d : DB) : outcome Z :=
  get_connection lk (fun _ =>
    (* BEGIN EXCLUSIVE *)
    match select_balance user_id d with
    | None => Raised (UserNotFound user_id) d            (* rollback *)
    | Some current_balance =>
        if current_balance <? amount
        then Raised (InsufficientBalance user_id current_balance amount) d   (* rollback *)
        else
          let withdraw_id := next_rowid (withdraw_requests d) in
          let d1 :=
            with_withdraw_requests
              (<[withdraw_id := mkWithdrawRequest user_id amount wallet wt pending]>
                 (withdraw_requests d)) d in
          let new_balance := Z.max 0 (current_balance - amount) in
          Returned (update_balance user_id new_balance d1) withdraw_id   (* commit *)
    end).

(** [set_withdraw_status] opens its own connection and, for a rejection of
    an existing request, calls [update_user_balance] from inside it. *)
Definition set_withdraw_status (withdraw_id : Z) (s : status)
    (lk : lock_state) (d : DB) : outcome unit :=
  get_connection lk (fun held =>
    (* BEGIN EXCLUSIVE *)
    match withdraw_requests d !! withdraw_id with
    | Some row =>
        if decide (s = rejected) then
          match update_user_balance (w_user_id row) (w_amount row) held d with
          | Returned d' _ => Returned (update_withdraw_requests_status withdraw_id s d') tt
          | Raised e d' => Raised e d'
          | Blocked => Blocked
          end
        else Returned (update_withdraw_requests_status withdraw_id s d) tt
    | None => Returned (update_withdraw_requests_status withdraw_id s d) tt
    end).

(** ** database.py: referrals *)

Definition same_pair (a b : Referral) : bool :=
  bool_decide (referrer_id a = referrer_id b) && bool_decide (referred_id a = referred_id b).

(** INSERT OR IGNORE INTO referrals: the row is skipped when it breaks
    UNIQUE (referrer_id, referred_id) or CHECK (level >= 1). *)
Definition insert_or_ignore_referral (r : Referral) (rs : list Referral) : list Referral :=
  if existsb (same_pair r) rs || (level r <? 1) then rs else rs ++ [r].

Definition add_referral (referrer referred bonus_amount lvl : Z)
    (lk : lock_state) (d : DB) : outcome unit :=
  get_connection lk (fun held =>
    (* BEGIN EXCLUSIVE *)
    let inserted := insert_or_ignore_referral (mkReferral referrer referred bonus_amount lvl) in
    if 0 <? bonus_amount then
      match update_user_balance referrer bonus_amount held d with
      | Returned d' _ => Returned (with_referrals (inserted (referrals d')) d') tt
      | Raised e d' => Raised e d'
      | Blocked => Blocked
      end
    else Returned (with_referrals (inserted (referrals d)) d) tt).

Definition get_user_referrals (user_id : Z) (lk : lock_state) (d : DB) : outcome (list Referral) :=
  get_connection lk (fun _ =>
    Returned d (List.filter (fun r => bool_decide (referrer_id r = user_id)) (referrals d))).

(** ** database.py: registration, blocking and the read-only queries *)

Definition set_username (n : option string) (u : User) : User :=
  mkUser n (phone u) (referred_by u) (balance u) (is_blocked u).

Definition set_phone (p : option string) (u : User) : User :=
  mkUser (username u) p (referred_by u) (balance u) (is_blocked u).

Definition set_referred_by (r : option Z) (u : User) : User :=
  mkUser (username u) (phone u) r (balance u) (is_blocked u).

Definition set_is_blocked (b : bool) (u : User) : User :=
  mkUser (username u) (phone u) (referred_by u) (balance u) b.

(** The row that INSERT INTO users (user_id, username, referred_by) makes:
    phone is NULL, balance and is_blocked take their defaults 0.0 and 0. *)
Definition new_user (name : option string) (referrer : option Z) : User :=
  mkUser name None referrer 0 false.

(** referred_by IS NULL OR referred_by = 0 *)
Definition referrer_unset (u : User) : bool :=
  match referred_by u with
  | None => true
  | Some r => r =? 0
  end.

Definition upsert_user (user_id : Z) (name : option string) (referrer : option Z)
    (lk : lock_state) (d : DB) : outcome unit :=
  get_connection lk (fun _ =>
    (* BEGIN EXCLUSIVE *)
    let inserted :=
      match users d !! user_id with
      | Some u => <[user_id := set_username name u]> (users d)   (* ON CONFLICT DO UPDATE *)
      | None => <[user_id := new_user name referrer]> (users d)
      end in
    let linked :=
      match referrer with
      | Some r =>
          alter (fun u => if referrer_unset u then set_referred_by (Some r) u else u)
                user_id inserted
      | None => inserted
      end in
    Returned (with_users linked d) tt).

Definition user_exists (user_id : Z) (lk : lock_state) (d : DB) : outcome bool :=
  get_connection lk (fun _ =>
    Returned d (match users d !! user_id with Some _ => true | None => false end)).

Definition save_phone (user_id : Z) (p : string) (lk : lock_state) (d : DB) : outcome unit :=
  get_connection lk (fun _ =>
    Returned (with_users (alter (set_phone (Some p)) user_id (users d)) d) tt).

Definition block_user (user_id : Z) (lk : lock_state) (d : DB) : outcome unit :=
  get_connection lk (fun _ =>
    Returned (with_users (alter (set_is_blocked true) user_id (users d)) d) tt).

Definition unblock_user (user_id : Z) (lk : lock_state) (d : DB) : outcome unit :=
  get_connection lk (fun _ =>
    Returned (with_users (alter (set_is_blocked false) user_id (users d)) d) tt).

Definition is_user_blocked (user_id : Z) (lk : lock_state) (d : DB) : outcome bool :=
  get_connection lk (fun _ =>
    Returned d (match users d !! user_id with Some u => is_blocked u | None => false end)).

Definition get_or_create_user (user_id : Z) (name : option string) (referrer : option Z)
    (lk : lock_state) (d : DB) : outcome User :=
  get_connection lk (fun _ =>
    match users d !! user_id with
    | Some u => Returned d u
    | None =>
        let u := new_user name referrer in
        Returned (with_users (<[user_id := u]> (users d)) d) u
    end).

(** SELECT user_id FROM users WHERE is_blocked = 0 *)
Definition get_all_users (lk : lock_state) (d : DB) : outcome (list Z) :=
  get_connection lk (fun _ =>
    Returned d
      (map fst (List.filter (fun r : Z * User => negb (is_blocked r.2))
                            (map_to_list (users d))))).

(** SELECT * FROM orders WHERE user_id = ? *)
Definition get_user_orders (user_id : Z) (lk : lock_state) (d : DB)
    : outcome (list (Z * Order)) :=
  get_connection lk (fun _ =>
    Returned d
      (List.filter (fun r : Z * Order => bool_decide (o_user_id r.2 = user_id))
                   (map_to_list (orders d)))).

(** SELECT * FROM withdraw_requests WHERE user_id = ? *)
Definition get_user_withdraw_history (user_id : Z) (lk : lock_state) (d : DB)
    : outcome (list (Z * WithdrawRequest)) :=
  get_connection lk (fun _ =>
    Returned d
      (List.filter (fun r : Z * WithdrawRequest => bool_decide (w_user_id r.2 = user_id))
                   (map_to_list (withdraw_requests d)))).

(** SELECT COUNT( * ) FROM referrals WHERE referrer_id = ? *)
Definition get_referrals_count (user_id : Z) (lk : lock_state) (d : DB) : outcome Z :=
  get_connection lk (fun _ =>
    Returned d
      (Z.of_nat (length (List.filter (fun r => bool_decide (referrer_id r = user_id))
                                     (referrals d))))).

(** ** What a user has in reserve

    The amounts of a user's requests that are still pending, summed over
    the rows that the pending query returns. *)
Definition pending_amount_of (user_id : Z) (rows : list (Z * WithdrawRequest)) : Z :=
  foldr (fun (r : Z * WithdrawRequest) acc =>
           if bool_decide (w_user_id r.2 = user_id) then w_amount r.2 + acc else acc)
        0 rows.

Definition pending_total (user_id : Z) (d : DB) : Z :=
  pending_amount_of user_id (pending_rows d).

Definition balance_of (user_id : Z) (d : DB) : Z :=
  match select_balance user_id d with Some b => b | None => 0 end.

(** What one request row adds to the reserve of [user_id]. *)
Definition reserved_by (user_id : Z) (r : Z * WithdrawRequest) : Z :=
  if bool_decide (w_status r.2 = pending) && bool_decide (w_user_id r.2 = user_id)
  then w_amount r.2 else 0.

(** The constraints of the referrals table: UNIQUE (referrer_id,
    referred_id) and CHECK (level >= 1). *)
Definition referrals_valid (rs : list Referral) : Prop :=
  NoDup (map (fun r => (referrer_id r, referred_id r)) rs)
  ∧ Forall (fun r => 1 <= level r) rs.

(** ** Text

    A text is a [string] whose characters are the code points below 256.
    Among these the class [\d] of a regular expression holds exactly the
    digits 0 to 9, and the white space that [str.strip] removes is the
    characters 9 to 13, 28 to 32, 133 and 160. *)

Definition is_digit (c : ascii) : bool :=
  let n := nat_of_ascii c in ((48 <=? n) && (n <=? 57))%nat.

Definition is_space (c : ascii) : bool :=
  let n := nat_of_ascii c in
  (((9 <=? n) && (n <=? 13)) || ((28 <=? n) && (n <=? 32)) || (n =? 133) || (n =? 160))%nat.

(** s.replace(" ", "") *)
Definition remove_spaces (s : list ascii) : list ascii :=
  List.filter (fun c => negb (Ascii.eqb c " ")) s.

Fixpoint lstrip (s : list ascii) : list ascii :=
  match s with
  | [] => []
  | c :: rest => if is_space c then lstrip rest else s
  end.

(** s.strip() *)
Definition strip (s : list ascii) : list ascii :=
  rev (lstrip (rev (lstrip s))).

(** What is left to match of [^...\d{n}$] once the head of the pattern has
    matched: n digits, and then the end of the string or one last newline. *)
Definition digits_then_end (n : nat) (s : list ascii) : bool :=
  (length (firstn n s) =? n)%nat
  && forallb is_digit (firstn n s)
  && match skipn n s with
     | [] => true
     | [c] => Ascii.eqb c "010"
     | _ => false
     end.

(** s[-n:] *)
Definition last_chars (n : nat) (s : list ascii) : list ascii :=
  skipn (length s - n) s.

(** s.replace(pattern, "") for a pattern that is not empty: the occurrences
    are taken from left to right and do not overlap; [skip] counts the
    characters of an occurrence that are still to be dropped. *)
Fixpoint remove_occurrences (pattern s : list ascii) (skip : nat) : list ascii :=
  match s with
  | [] => []
  | c :: rest =>
      match skip with
      | S k => remove_occurrences pattern rest k
      | O =>
          if bool_decide (firstn (length pattern) s = pattern)
          then remove_occurrences pattern rest (length pattern - 1)
          else c :: remove_occurrences pattern rest 0
      end
  end.

(** ** The handlers: what each does to the database

    A handler is entered from the event loop, with the lock free.  What it
    sends to the chat is kept only as the [reply] that tells which branch
    was taken. *)

Inductive reply :=
| Done
| Created (withdraw_id : Z)
| Stored (amount : Z)
| NotFound
| NotEnoughBalance
| BelowMinimum
| AmountNotPositive
| Failed (e : exn).

(** next((r for r in rows if r['id'] == id), None) *)
Definition row_with_id {V : Type} (id : Z) (rows : list (Z * V)) : option (Z * V) :=
  List.find (fun r => bool_decide (r.1 = id)) rows.

(** [try: ... except Exception] around a database call. *)
Definition catching (m : outcome reply) : outcome reply :=
  match m with
  | Raised e d => Returned d (Failed e)
  | other => other
  end.

Module admin.

Definition approve_order (order_id : Z) (d : DB) : outcome unit :=
  bind (update_order_status order_id approved Free d) (fun d1 _ =>
  bind (get_all_orders Free d1) (fun d2 all_orders =>
    match row_with_id order_id all_orders with
    | Some o => add_user_balance (o_user_id o.2) 10000 Free d2
    | None => Returned d2 tt
    end)).

Definition reject_order (order_id : Z) (d : DB) : outcome unit :=
  update_order_status order_id rejected Free d.

Definition process_payment (request_id : Z) (d : DB) : outcome reply :=
  bind (get_pending_withdraw_requests Free d) (fun d1 requests =>
    match row_with_id request_id requests with
    | None => Returned d1 NotFound
    | Some _ =>
        bind (update_withdraw_request_status request_id approved Free d1)
             (fun d2 _ => Returned d2 Done)
    end).

Definition reject_withdraw_request (request_id : Z) (d : DB) : outcome reply :=
  bind (get_pending_withdraw_requests Free d) (fun d1 requests =>
    match row_with_id request_id requests with
    | None => Returned d1 NotFound
    | Some _ =>
        catching
          (bind (reject_withdraw_request_and_refund request_id Free d1)
                (fun d2 _ => Returned d2 Done))
    end).

Definition block_user_cb (user_id : Z) (d : DB) : outcome unit :=
  block_user user_id Free d.

Definition unblock_user_cb (user_id : Z) (d : DB) : outcome unit :=
  unblock_user user_id Free d.

(** [uid for uid in get_all_users() if not is_user_blocked(uid)] *)
Fixpoint keep_not_blocked (ids : list Z) (d : DB) : outcome (list Z) :=
  match ids with
  | [] => Returned d []
  | uid :: rest =>
      bind (is_user_blocked uid Free d) (fun d1 blocked =>
      bind (keep_not_blocked rest d1) (fun d2 kept =>
        Returned d2 (if blocked then kept else uid :: kept)))
  end.

(** The sending loop of [send_broadcast], with its two counters:
    [deliver uid] tells whether the message to [uid] went out without an
    exception.  [send_broadcast] is given back with the list of users it
    writes to and the two counts it reports. *)
Fixpoint count_deliveries (deliver : Z -> bool) (ids : list Z) (sent failed : Z) : Z * Z :=
  match ids with
  | [] => (sent, failed)
  | uid :: rest =>
      if deliver uid then count_deliveries deliver rest (sent + 1) failed
      else count_deliveries deliver rest sent (failed + 1)
  end.

Definition send_broadcast (deliver : Z -> bool) (d : DB) : outcome (list Z * (Z * Z)) :=
  bind (get_all_users Free d) (fun d1 ids =>
  bind (keep_not_blocked ids d1) (fun d2 recipients =>
    Returned d2 (recipients, count_deliveries deliver recipients 0 0))).

End admin.

Module payments.

(** The minimum is [Config.reward.MIN_WITHDRAW_AMOUNT]. *)
Definition process_withdraw_amount (min_withdraw_amount user_id amount : Z)
    (d : DB) : outcome reply :=
  bind (get_user_balance user_id Free d) (fun d1 user_balance =>
    if amount <? min_withdraw_amount then Returned d1 BelowMinimum
    else if amount <=? 0 then Returned d1 AmountNotPositive
    else if user_balance <? amount then Returned d1 NotEnoughBalance
    else Returned d1 (Stored amount)).

Definition accept_withdraw (wid : Z) (d : DB) : outcome reply :=
  catching
    (bind (get_pending_withdraws Free d) (fun d1 pendings =>
       match row_with_id wid pendings with
       | None => Returned d1 NotFound
       | Some withdraw =>
           let user_id := w_user_id withdraw.2 in
           let amount := w_amount withdraw.2 in
           bind (get_user_balance user_id Free d1) (fun d2 current_balance =>
             if current_balance <? amount then Returned d2 NotEnoughBalance
             else
               bind (update_user_balance user_id (current_balance - amount) Free d2) (fun d3 _ =>
               bind (set_withdraw_status wid approved Free d3) (fun d4 _ =>
                 Returned d4 Done)))
       end)).

Definition reject_withdraw (wid : Z) (d : DB) : outcome reply :=
  catching
    (bind (set_withdraw_status wid rejected Free d) (fun d1 _ =>
     bind (get_pending_withdraws Free d1) (fun d2 pendings =>
       match row_with_id wid pendings with
       | Some _ => Returned d2 Done
       | None => Returned d2 NotFound
       end))).

Definition validate_card_number (card_number : string) : bool :=
  digits_then_end 16 (remove_spaces (list_ascii_of_string card_number)).

Definition validate_phone_number (phone_number : string) : bool :=
  match remove_spaces (list_ascii_of_string phone_number) with
  | "+"%char :: "9"%char :: "9"%char :: "8"%char :: rest => digits_then_end 9 rest
  | _ => false
  end.

Definition mask_card_number (card_number : string) : string :=
  let cleaned := remove_spaces (list_ascii_of_string card_number) in
  String.append "**** **** **** " (string_of_list_ascii (last_chars 4 cleaned)).

End payments.

Module user_fixed.

Definition process_withdraw_amount (user_id amount : Z) (wallet : string)
    (wt : withdraw_type) (d : DB) : outcome reply :=
  catching
    (if amount <=? 0 then Returned d AmountNotPositive
     else
       bind (get_user user_id Free d) (fun d1 user =>
         let user_balance := match user with Some u => balance u | None => 0 end in
         if user_balance <? amount then Returned d1 NotEnoughBalance
         else
           bind (create_withdraw_request user_id amount wallet wt Free d1)
                (fun d2 request_id => Returned d2 (Created request_id)))).

Definition cancel_order_callback (from_user order_id : Z) (d : DB) : outcome reply :=
  catching (bind (cancel_order from_user order_id Free d) (fun d1 _ => Returned d1 Done)).

End user_fixed.

Module helpers.

Definition MAX_MESSAGE_LENGTH : nat := 4096.

Definition _sanitize_text (text : string) : string :=
  match text with
  | EmptyString => EmptyString
  | _ =>
      let cut := firstn MAX_MESSAGE_LENGTH (strip (list_ascii_of_string text)) in
      string_of_list_ascii
        (remove_occurrences (list_ascii_of_string "</script>")
           (remove_occurrences (list_ascii_of_string "<script>") cut 0) 0)
  end.

End helpers.

(** ** The ledger with its REAL columns in binary64

    The columns [balance] and [amount] are declared REAL: SQLite keeps
    them, and Python computes with them, as binary64 numbers.  The
    definitions above take a balance or an amount for a whole number of
    so'm, on which sums, differences and comparisons are exact as long as
    they stay below 2^53.  The module [binary64] embeds the functions that
    compute with money once more, now with what the code computes with:

    - a balance or an amount is a [float]; Python's [+], [-], [<] and [<=]
      on floats are the operations of [PrimFloat];
    - a REAL column holds a number or NULL: the sqlite3 module binds a
      float that is not a number as NULL, and SQLite gives NULL for a sum
      that is not a number; [float(None)] raises TypeError;
    - a Python int bound to a statement must fit SQLite's 64-bit INTEGER,
      or the sqlite3 module raises OverflowError;
    - the INSERT into [withdraw_requests] is checked against NOT NULL
      ([amount], [wallet], [withdraw_type]) and CHECK ([withdraw_type] is
      'card' or 'phone'), and fails with IntegrityError; an AUTOINCREMENT
      table whose largest rowid is 2^63 - 1 takes no further row
      (OperationalError);
    - [wallet] and [withdraw_type] are what the caller passes, a string or
      None.

    A whole number of so'm n is the binary64 number [of_Z n], Python's
    [float(n)]; below 2^53 the sums, differences and comparisons of such
    numbers are those of the whole numbers (lemmas [of_Z_add], [of_Z_sub],
    [of_Z_ltb] and [of_Z_leb] below). *)

Module binary64.

Definition real_or_null (x : float) : option float :=
  if is_nan x then None else Some x.

(** Python's [max(a, b)] of two floats: [b] when [b > a], else [a]. *)
Definition py_max (a b : float) : float :=
  if (a <? b)%float then b else a.

(** Python's [float(n)] of an int: the binary64 number nearest to n. *)
Definition of_Z (n : Z) : float := SF2Prim (binary_normalize prec emax n 0 false).

(** What [of_Z n] is for 0 <= n < 2^53: sign, mantissa of 53 binary digits
    and exponent. *)
Definition canon (n : Z) : spec_float :=
  match n with
  | Z.pos p =>
      S754_finite false (Z.to_pos (Z.pos p * 2 ^ (53 - Z.pos (digits2_pos p))))
        (Z.pos (digits2_pos p) - 53)
  | _ => S754_zero false
  end.

Definition fits_int64 (n : Z) : bool := (- 2 ^ 63 <=? n) && (n <? 2 ^ 63).

Record User := mkUser {
  username : option string;
  phone : option string;
  referred_by : option Z;
  balance : option float;
  is_blocked : bool
}.

Record WithdrawRequest := mkWithdrawRequest {
  w_user_id : Z;
  w_amount : float;
  w_wallet : string;
  w_withdraw_type : string;
  w_status : status
}.

Record DB := mkDB {
  users : gmap Z User;
  orders : gmap Z Order;
  withdraw_requests : gmap Z WithdrawRequest;
  referrals : list Referral
}.

Definition set_balance (b : option float) (u : User) : User :=
  mkUser (username u) (phone u) (referred_by u) b (is_blocked u).

Definition set_w_status (s : status) (r : WithdrawRequest) : WithdrawRequest :=
  mkWithdrawRequest (w_user_id r) (w_amount r) (w_wallet r) (w_withdraw_type r) s.

Definition with_users (us : gmap Z User) (d : DB) : DB :=
  mkDB us (orders d) (withdraw_requests d) (referrals d).

Definition with_orders (os : gmap Z Order) (d : DB) : DB :=
  mkDB (users d) os (withdraw_requests d) (referrals d).

Definition with_withdraw_requests (ws : gmap Z WithdrawRequest) (d : DB) : DB :=
  mkDB (users d) (orders d) ws (referrals d).

Inductive exn :=
| UserNotFound (user_id : Z)
| InsufficientBalance (user_id : Z) (current_balance amount : float)
| WithdrawRequestNotFound (request_id : Z)
| IntegrityError
| OperationalError
| OverflowError
| TypeError.

Inductive outcome (A : Type) :=
| Returned (d : DB) (a : A)
| Raised (e : exn) (d : DB)
| Blocked.

Arguments Returned {A} d a.
Arguments Raised {A} e d.
Arguments Blocked {A}.

Definition get_connection {A : Type} (lk : lock_state)
    (body : lock_state -> outcome A) : outcome A :=
  match lk with
  | Held => Blocked
  | Free => body Held
  end.

Definition bind {A B : Type} (m : outcome A) (k : DB -> A -> outcome B) : outcome B :=
  match m with
  | Returned d a => k d a
  | Raised e d => Raised e d
  | Blocked => Blocked
  end.

(** SELECT balance FROM users WHERE user_id = ?: no row, or the row's
    balance, a number or NULL. *)
Definition select_balance (user_id : Z) (d : DB) : option (option float) :=
  balance <$> users d !! user_id.

(** UPDATE users SET balance = ? WHERE user_id = ?, with a float bound. *)
Definition update_balance (user_id : Z) (new_balance : float) (d : DB) : DB :=
  with_users (alter (set_balance (real_or_null new_balance)) user_id (users d)) d.

(** [balance + ?] as SQLite evaluates it. *)
Definition sql_add (a b : option float) : option float :=
  match a, b with
  | Some x, Some y => real_or_null (x + y)
  | _, _ => None
  end.

(** UPDATE withdraw_requests SET status = ? WHERE id = ? *)
Definition update_withdraw_requests_status (request_id : Z) (s : status) (d : DB) : DB :=
  with_withdraw_requests (alter (set_w_status s) request_id (withdraw_requests d)) d.

(** INSERT INTO withdraw_requests (user_id, amount, wallet, withdraw_type):
    the new rowid and the table with the new row, or the error. *)
Definition insert_withdraw_request (user_id : Z) (amount : float)
    (wallet withdraw_type : option string) (d : DB) : exn + Z * DB :=
  let withdraw_id := next_rowid (withdraw_requests d) in
  if negb (fits_int64 withdraw_id) then inl OperationalError
  else
    match real_or_null amount, wallet, withdraw_type with
    | Some a, Some w, Some t =>
        if String.eqb t "card" || String.eqb t "phone"
        then inr (withdraw_id,
                  with_withdraw_requests
                    (<[withdraw_id := mkWithdrawRequest user_id a w t pending]>
                       (withdraw_requests d)) d)
        else inl IntegrityError
    | _, _, _ => inl IntegrityError
    end.

Definition get_user_balance (user_id : Z) (lk : lock_state) (d : DB) : outcome float :=
  get_connection lk (fun _ =>
    if negb (fits_int64 user_id) then Raised OverflowError d
    else
      match select_balance user_id d with
      | Some (Some b) => Returned d b
      | Some None => Raised TypeError d
      | None => Returned d 0%float
      end).

Definition update_user_balance (user_id : Z) (delta : float) (lk : lock_state) (d : DB)
    : outcome unit :=
  get_connection lk (fun _ =>
    (* BEGIN EXCLUSIVE *)
    if negb (fits_int64 user_id) then Raised OverflowError d
    else
      match select_balance user_id d with
      | None => Raised (UserNotFound user_id) d
      | Some None => Raised TypeError d
      | Some (Some current) =>
          let new_balance := py_max 0 (current + delta) in
          Returned (update_balance user_id new_balance d) tt
      end).

Definition add_user_balance (user_id : Z) (amount : float) (lk : lock_state) (d : DB)
    : outcome unit :=
  get_connection lk (fun _ =>
    if negb (fits_int64 user_id) then Raised OverflowError d
    else
      Returned
        (with_users
           (alter (fun u => set_balance (sql_add (balance u) (real_or_null amount)) u)
                  user_id (users d)) d)
        tt).

Definition create_order (user_id : Z) (product_url photo_id : string)
    (lk : lock_state) (d : DB) : outcome Z :=
  get_connection lk (fun _ =>
    if negb (fits_int64 user_id) then Raised OverflowError d
    else
      let order_id := next_rowid (orders d) in
      if negb (fits_int64 order_id) then Raised OperationalError d
      else
        Returned
          (with_orders
             (<[order_id := mkOrder user_id product_url photo_id pending]> (orders d)) d)
          order_id).

(** get_all_orders() without filters: every order row with its id. *)
Definition get_all_orders (lk : lock_state) (d : DB) : outcome (list (Z * Order)) :=
  get_connection lk (fun _ => Returned d (map_to_list (orders d))).

Definition update_order_status (order_id : Z) (s : status) (lk : lock_state) (d : DB)
    : outcome unit :=
  get_connection lk (fun _ =>
    if negb (fits_int64 order_id) then Raised OverflowError d
    else Returned (with_orders (alter (set_o_status s) order_id (orders d)) d) tt).

Definition reject_withdraw_request_and_refund (request_id : Z)
    (lk : lock_state) (d : DB) : outcome unit :=
  get_connection lk (fun _ =>
    (* BEGIN EXCLUSIVE *)
    if negb (fits_int64 request_id) then Raised OverflowError d
    else
      match withdraw_requests d !! request_id with
      | None => Raised (WithdrawRequestNotFound request_id) d
      | Some req_row =>
          let user_id := w_user_id req_row in
          let amount := w_amount req_row in
          let d1 := update_withdraw_requests_status request_id rejected d in
          match select_balance user_id d1 with
          | None => Raised (UserNotFound user_id) d        (* rollback *)
          | Some None => Raised TypeError d                (* closed without a commit *)
          | Some (Some current_balance) =>
              let new_balance := (current_balance + amount)%float in
              Returned (update_balance user_id new_balance d1) tt   (* commit *)
          end
      end).

Definition create_withdraw_request (user_id : Z) (amount : float)
    (wallet withdraw_type : option string) (lk : lock_state) (d : DB) : outcome Z :=
  get_connection lk (fun _ =>
    (* BEGIN EXCLUSIVE *)
    if negb (fits_int64 user_id) then Raised OverflowError d
    else
      match select_balance user_id d with
      | None => Raised (UserNotFound user_id) d            (* rollback *)
      | Some None => Raised TypeError d                    (* closed without a commit *)
      | Some (Some current_balance) =>
          if (current_balance <? amount)%float
          then Raised (InsufficientBalance user_id current_balance amount) d   (* rollback *)
          else
            match insert_withdraw_request user_id amount wallet withdraw_type d with
            | inl e => Raised e d                          (* rollback *)
            | inr (withdraw_id, d1) =>
                let new_balance := py_max 0 (current_balance - amount) in
                Returned (update_balance user_id new_balance d1) withdraw_id   (* commit *)
            end
      end).

(** A run of [update_user_balance] calls on one user, one per delta. *)
Fixpoint update_user_balance_run (user_id : Z) (deltas : list float) (d : DB) : outcome unit :=
  match deltas with
  | [] => Returned d tt
  | delta :: rest =>
      bind (update_user_balance user_id delta Free d)
           (fun d' _ => update_user_balance_run user_id rest d')
  end.

(** The withdrawal dialogue of [handlers/payments.py]. *)
Inductive reply :=
| Created (withdraw_id : Z)
| Stored (amount : float)
| NotEnoughBalance
| BelowMinimum
| AmountNotPositive
| ErrorText (e : exn)
| TryLater (e : exn).

Module admin.

Definition approve_order (order_id : Z) (d : DB) : outcome unit :=
  bind (update_order_status order_id approved Free d) (fun d1 _ =>
  bind (get_all_orders Free d1) (fun d2 all_orders =>
    match row_with_id order_id all_orders with
    | Some o => add_user_balance (o_user_id o.2) 10000 Free d2
    | None => Returned d2 tt
    end)).

End admin.

Module payments.

(** [amount] is what [float(message.text.replace(",", "."))] has returned;
    the minimum is [Config.reward.MIN_WITHDRAW_AMOUNT]. *)
Definition process_withdraw_amount (min_withdraw_amount : float) (user_id : Z)
    (amount : float) (d : DB) : outcome reply :=
  bind (get_user_balance user_id Free d) (fun d1 user_balance =>
    if (amount <? min_withdraw_amount)%float then Returned d1 BelowMinimum
    else if (amount <=? 0)%float then Returned d1 AmountNotPositive
    else if (user_balance <? amount)%float then Returned d1 NotEnoughBalance
    else Returned d1 (Stored amount)).

(** The amount, the wallet and the withdrawal type are those the dialogue
    has stored.  [except ValueError] answers a shortage with the balance
    and any other ValueError with its text; [except Exception] answers
    everything else with a request to try again later. *)
Definition save_withdraw_request (user_id : Z) (amount : float)
    (wallet withdraw_type : option string) (d : DB) : outcome reply :=
  match create_withdraw_request user_id amount wallet withdraw_type Free d with
  | Returned d1 withdraw_id => Returned d1 (Created withdraw_id)
  | Raised (InsufficientBalance u c a) d1 =>
      bind (get_user_balance user_id Free d1) (fun d2 _ => Returned d2 NotEnoughBalance)
  | Raised (UserNotFound u) d1 => Returned d1 (ErrorText (UserNotFound u))
  | Raised (WithdrawRequestNotFound r) d1 => Returned d1 (ErrorText (WithdrawRequestNotFound r))
  | Raised e d1 => Returned d1 (TryLater e)
  | Blocked => Blocked
  end.

(** What [process_card_number] and [process_phone_number] answer: the text
    was refused, or it was kept as the wallet and the request was saved. *)
Inductive wallet_reply :=
| InvalidWallet
| Saved (wallet : string) (r : reply).

Definition process_card_number (text : string) (user_id : Z) (amount : float)
    (withdraw_type : option string) (d : DB) : outcome wallet_reply :=
  let card_number := string_of_list_ascii (strip (list_ascii_of_string text)) in
  if payments.validate_card_number card_number
  then bind (save_withdraw_request user_id amount (Some card_number) withdraw_type d)
            (fun d1 r => Returned d1 (Saved card_number r))
  else Returned d InvalidWallet.

Definition process_phone_number (text : string) (user_id : Z) (amount : float)
    (withdraw_type : option string) (d : DB) : outcome wallet_reply :=
  let phone_number := string_of_list_ascii (strip (list_ascii_of_string text)) in
  if payments.validate_phone_number phone_number
  then bind (save_withdraw_request user_id amount (Some phone_number) withdraw_type d)
            (fun d1 r => Returned d1 (Saved phone_number r))
  else Returned d InvalidWallet.

End payments.

(** Sample data: Alice (id 7) has 600 so'm and a pending request for 400,
    Bob (id 8) has 50 so'm, and Dilnoza (id 9) has 18999.3 so'm, from
    which she will ask for 1024.08: the two numbers are the binary64
    values nearest to these decimals, as [float("18999.3")] and
    [float("1024.08")] give them. *)
Definition alice : User := mkUser (Some "alice") None None (Some 600%float) false.
Definition bob : User :=
  mkUser (Some "bob") (Some "+998901234567") None (Some 50%float) false.

Definition fractional_balance : float := (189993 / 10)%float.
Definition fractional_amount : float := (102408 / 100)%float.

Definition dilnoza : User := mkUser (Some "dilnoza") None None (Some fractional_balance) false.

Definition sample_db : DB :=
  mkDB (<[7 := alice]> (<[8 := bob]> (<[9 := dilnoza]> ∅)))
       ∅
       (<[1 := mkWithdrawRequest 7 400 "8600123412341234" "card" pending]> ∅)
       [].

End binary64.

(** ** A database of whole so'm as SQLite holds it

    [to_binary64 d] is the database that holds the rows of [d] with every
    balance and amount n as the binary64 number [of_Z n] and every
    withdrawal type as its literal. *)

Definition withdraw_type_name (wt : withdraw_type) : string :=
  match wt with
  | card => "card"
  | phone_wallet => "phone"
  end.

Definition user_to_binary64 (u : User) : binary64.User :=
  binary64.mkUser (username u) (phone u) (referred_by u)
    (Some (binary64.of_Z (balance u))) (is_blocked u).

Definition request_to_binary64 (r : WithdrawRequest) : binary64.WithdrawRequest :=
  binary64.mkWithdrawRequest (w_user_id r) (binary64.of_Z (w_amount r)) (w_wallet r)
    (withdraw_type_name (w_withdraw_type r)) (w_status r).

Definition to_binary64 (d : DB) : binary64.DB :=
  binary64.mkDB (user_to_binary64 <$> users d) (orders d)
    (request_to_binary64 <$> withdraw_requests d) (referrals d).

Definition exn_to_binary64 (e : exn) : binary64.exn :=
  match e with
  | UserNotFound user_id => binary64.UserNotFound user_id
  | InsufficientBalance user_id current_balance amount =>
      binary64.InsufficientBalance user_id (binary64.of_Z current_balance)
        (binary64.of_Z amount)
  | WithdrawRequestNotFound request_id => binary64.WithdrawRequestNotFound request_id
  end.

Definition outcome_to_binary64 {A : Type} (m : outcome A) : binary64.outcome A :=
  match m with
  | Returned d a => binary64.Returned (to_binary64 d) a
  | Raised e d => binary64.Raised (exn_to_binary64 e) (to_binary64 d)
  | Blocked => binary64.Blocked
  end.

(** ** Sample data *)

Definition alice : User := mkUser (Some "alice") None None 600 false.
Definition bob : User := mkUser (Some "bob") (Some "+998901234567") None 50 false.

(** Alice (id 7) had 1000 so'm and has asked to withdraw 400 of them
    (request 1, pending); order 1 of hers is pending, order 2 approved.
    Bob (id 8) has 50 so'm and one pending order. *)
Definition sample_db : DB :=
  mkDB (<[7 := alice]> (<[8 := bob]> ∅))
       (<[1 := mkOrder 7 "https://market.example/p1" "photo1" pending]>
          (<[2 := mkOrder 7 "https://market.example/p2" "photo2" approved]>
             (<[3 := mkOrder 8 "https://market.example/p3" "photo3" pending]> ∅)))
       (<[1 := mkWithdrawRequest 7 400 "8600123412341234" card pending]> ∅)
       [].

(** The same database after the admin panel has paid request 1. *)
Definition sample_db_paid : DB :=
  with_withdraw_requests
    (<[1 := mkWithdrawRequest 7 400 "8600123412341234" card approved]> ∅) sample_db.

(** Carol (id 9) came through Alice's referral link and has been blocked. *)
Definition carol : User := mkUser (Some "carol") None (Some 7) 0 true.

Definition sample_db_with_carol : DB :=
  with_users (<[9 := carol]> (users sample_db)) sample_db.

(** An order stored under an id (99) that has no user row. *)
Definition orphan_order : Order := mkOrder 99 "https://market.example/p9" "photo9" pending.

Definition sample_db_orphan_order : DB :=
  with_orders (<[1 := orphan_order]> ∅) sample_db.

(** * Properties *)

(** ** Records and tables *)

Lemma with_users_same (d : DB) : with_users (users d) d = d.
Proof. by destruct d. Qed.

Lemma with_orders_same (d : DB) : with_orders (orders d) d = d.
Proof. by destruct d. Qed.

Lemma with_withdraw_requests_same (d : DB) :
  with_withdraw_requests (withdraw_requests d) d = d.
Proof. by destruct d. Qed.

Lemma set_balance_same (u : User) : set_balance (balance u) u = u.
Proof. by destruct u. Qed.

Lemma set_balance_twice (a b : Z) (u : User) :
  set_balance a (set_balance b u) = set_balance a u.
Proof. done. Qed.

Lemma balance_set_balance (b : Z) (u : User) : balance (set_balance b u) = b.
Proof. done. Qed.

Lemma select_balance_Some (user_id : Z) (d : DB) (u : User) :
  users d !! user_id = Some u → select_balance user_id d = Some (balance u).
Proof. unfold select_balance. by intros ->. Qed.

Lemma select_balance_None (user_id : Z) (d : DB) :
  users d !! user_id = None → select_balance user_id d = None.
Proof. unfold select_balance. by intros ->. Qed.

(** An UPDATE whose WHERE clause matches no row changes nothing. *)
Lemma update_balance_absent (user_id b : Z) (d : DB) :
  users d !! user_id = None → update_balance user_id b d = d.
Proof.
  intros Hnone. unfold update_balance.
  rewrite alter_id' by done. apply with_users_same.
Qed.

Lemma update_balance_present (user_id b : Z) (d : DB) (u : User) :
  users d !! user_id = Some u →
  update_balance user_id b d = with_users (<[user_id := set_balance b u]> (users d)) d.
Proof.
  intros Hu. unfold update_balance. by rewrite (alter_alt_Some _ _ _ u).
Qed.

(** ** AUTOINCREMENT gives an unused rowid *)

Lemma foldr_max_bound (l : list Z) (k : Z) : k ∈ l → k <= foldr Z.max 0 l.
Proof.
  induction l as [|x l IH]; intros Hin.
  - by apply elem_of_nil in Hin.
  - apply elem_of_cons in Hin as [-> | Hin]; simpl.
    + lia.
    + specialize (IH Hin). lia.
Qed.

Lemma max_rowid_bound {V : Type} (m : gmap Z V) (k : Z) (v : V) :
  m !! k = Some v → k <= max_rowid m.
Proof.
  intros Hk. unfold max_rowid. apply foldr_max_bound.
  apply list_elem_of_In, in_map_iff. exists (k, v). split; [done|].
  apply list_elem_of_In. by apply elem_of_map_to_list.
Qed.

Lemma next_rowid_fresh {V : Type} (m : gmap Z V) : m !! next_rowid m = None.
Proof.
  destruct (m !! next_rowid m) as [v|] eqn:Hv; [|done].
  apply max_rowid_bound in Hv. unfold next_rowid in Hv. lia.
Qed.

Lemma next_rowid_positive {V : Type} (m : gmap Z V) : 1 <= next_rowid m.
Proof.
  unfold next_rowid, max_rowid.
  assert (H : ∀ l : list Z, 0 <= foldr Z.max 0 l).
  { induction l; simpl; lia. }
  specialize (H (map fst (map_to_list m))). lia.
Qed.

(** ** Picking a row by its key out of a query result *)

Lemma row_with_id_filter {V : Type} (P : Z * V → bool) (m : gmap Z V) (id : Z) :
  row_with_id id (List.filter P (map_to_list m)) =
  match m !! id with
  | Some v => if P (id, v) then Some (id, v) else None
  | None => None
  end.
Proof.
  unfold row_with_id.
  destruct (List.find _ _) as [[k v]|] eqn:Hfind.
  - apply find_some in Hfind as [Hin Hk].
    apply bool_decide_eq_true in Hk. simpl in Hk. subst k.
    apply filter_In in Hin as [Hin HP].
    apply list_elem_of_In, elem_of_map_to_list in Hin.
    by rewrite Hin, HP.
  - destruct (m !! id) as [v|] eqn:Hv; [|done].
    destruct (P (id, v)) eqn:HP; [|done].
    assert (Hin : In (id, v) (List.filter P (map_to_list m))).
    { apply filter_In. split; [|done].
      apply list_elem_of_In. by apply elem_of_map_to_list. }
    pose proof (find_none _ _ Hfind _ Hin) as Hno.
    simpl in Hno. by rewrite bool_decide_eq_false in Hno.
Qed.

Lemma row_with_id_all {V : Type} (m : gmap Z V) (id : Z) :
  row_with_id id (map_to_list m) = (fun v => (id, v)) <$> m !! id.
Proof.
  pose proof (row_with_id_filter (fun _ => true) m id) as H.
  assert (Hall : ∀ l : list (Z * V), List.filter (fun _ => true) l = l).
  { induction l as [|x l IH]; simpl; [done | by rewrite IH]. }
  rewrite Hall in H. rewrite H. by destruct (m !! id).
Qed.

Lemma row_with_id_pending (d : DB) (id : Z) :
  row_with_id id (pending_rows d) =
  match withdraw_requests d !! id with
  | Some r => if decide (w_status r = pending) then Some (id, r) else None
  | None => None
  end.
Proof.
  unfold pending_rows. rewrite row_with_id_filter.
  destruct (withdraw_requests d !! id) as [r|]; [|done]. simpl.
  destruct (decide (w_status r = pending)) as [Hp|Hp].
  - by rewrite bool_decide_eq_true_2.
  - by rewrite bool_decide_eq_false_2.
Qed.

(** ** update_user_balance and add_user_balance *)

Lemma update_user_balance_present (user_id delta : Z) (d : DB) (u : User) :
  users d !! user_id = Some u →
  update_user_balance user_id delta Free d =
  Returned
    (with_users (<[user_id := set_balance (Z.max 0 (balance u + delta)) u]> (users d)) d) tt.
Proof.
  intros Hu. unfold update_user_balance, get_connection.
  rewrite (select_balance_Some _ _ _ Hu).
  by rewrite (update_balance_present _ _ _ _ Hu).
Qed.

Lemma update_user_balance_absent (user_id delta : Z) (d : DB) :
  users d !! user_id = None →
  update_user_balance user_id delta Free d = Raised (UserNotFound user_id) d.
Proof.
  intros Hu. unfold update_user_balance, get_connection.
  by rewrite (select_balance_None _ _ Hu).
Qed.

(** Whoever holds the connection lock cannot open a second connection. *)
Lemma update_user_balance_held (user_id delta : Z) (d : DB) :
  update_user_balance user_id delta Held d = Blocked.
Proof. done. Qed.

Lemma add_user_balance_present (user_id amount : Z) (d : DB) (u : User) :
  users d !! user_id = Some u →
  add_user_balance user_id amount Free d =
  Returned (with_users (<[user_id := set_balance (balance u + amount) u]> (users d)) d) tt.
Proof.
  intros Hu. unfold add_user_balance, get_connection.
  by rewrite (alter_alt_Some _ _ _ u).
Qed.

(** ** create_withdraw_request and reject_withdraw_request_and_refund *)

Lemma create_withdraw_request_insufficient (user_id amount : Z) (wallet : string)
    (wt : withdraw_type) (d : DB) (u : User) :
  users d !! user_id = Some u → balance u < amount →
  create_withdraw_request user_id amount wallet wt Free d =
  Raised (InsufficientBalance user_id (balance u) amount) d.
Proof.
  intros Hu Hlt. unfold create_withdraw_request, get_connection.
  rewrite (select_balance_Some _ _ _ Hu).
  by rewrite (proj2 (Z.ltb_lt _ _) Hlt).
Qed.

Lemma create_withdraw_request_sufficient (user_id amount : Z) (wallet : string)
    (wt : withdraw_type) (d : DB) (u : User) :
  users d !! user_id = Some u → amount <= balance u →
  create_withdraw_request user_id amount wallet wt Free d =
  Returned
    (mkDB (<[user_id := set_balance (balance u - amount) u]> (users d))
          (orders d)
          (<[next_rowid (withdraw_requests d) :=
               mkWithdrawRequest user_id amount wallet wt pending]> (withdraw_requests d))
          (referrals d))
    (next_rowid (withdraw_requests d)).
Proof.
  intros Hu Hle. unfold create_withdraw_request, get_connection.
  rewrite (select_balance_Some _ _ _ Hu).
  rewrite (proj2 (Z.ltb_ge _ _) Hle).
  rewrite (update_balance_present _ _ _ u) by done.
  by rewrite Z.max_r by lia.
Qed.

Lemma create_withdraw_request_unknown_user (user_id amount : Z) (wallet : string)
    (wt : withdraw_type) (d : DB) :
  users d !! user_id = None →
  create_withdraw_request user_id amount wallet wt Free d = Raised (UserNotFound user_id) d.
Proof.
  intros Hu. unfold create_withdraw_request, get_connection.
  by rewrite (select_balance_None _ _ Hu).
Qed.

Lemma reject_withdraw_request_and_refund_present (request_id : Z) (d : DB)
    (r : WithdrawRequest) (u : User) :
  withdraw_requests d !! request_id = Some r →
  users d !! w_user_id r = Some u →
  reject_withdraw_request_and_refund request_id Free d =
  Returned
    (mkDB (<[w_user_id r := set_balance (balance u + w_amount r) u]> (users d))
          (orders d)
          (<[request_id := set_w_status rejected r]> (withdraw_requests d))
          (referrals d))
    tt.
Proof.
  intros Hr Hu. unfold reject_withdraw_request_and_refund, get_connection.
  rewrite Hr.
  assert (Hu1 : users (update_withdraw_requests_status request_id rejected d)
                !! w_user_id r = Some u) by done.
  rewrite (select_balance_Some _ _ _ Hu1).
  rewrite (update_balance_present _ _ _ u) by done.
  unfold update_withdraw_requests_status, with_users, with_withdraw_requests. simpl.
  by rewrite (alter_alt_Some _ _ _ r).
Qed.

(** ** Order approval *)

Lemma approve_order_credits (order_id : Z) (d : DB) (o : Order) (u : User) :
  orders d !! order_id = Some o →
  users d !! o_user_id o = Some u →
  admin.approve_order order_id d =
  Returned
    (mkDB (<[o_user_id o := set_balance (balance u + 10000) u]> (users d))
          (<[order_id := set_o_status approved o]> (orders d))
          (withdraw_requests d)
          (referrals d))
    tt.
Proof.
  intros Ho Hu. unfold admin.approve_order.
  unfold update_order_status, get_all_orders, get_connection. cbn [bind].
  rewrite row_with_id_all.
  unfold update_orders_status. cbn [orders with_orders].
  rewrite lookup_alter_eq, Ho. cbn [fmap option_fmap option_map snd set_o_status o_user_id].
  rewrite (add_user_balance_present _ _ _ u) by done.
  unfold with_users, with_orders. simpl.
  by rewrite (alter_alt_Some _ _ _ o).
Qed.

(** C1. The code does not do this.  [approve_order] sets the status and
    credits 10000 on every call, whatever the status was: two approvals of
    Alice's pending order 1 take her balance from 600 to 10600 and then to
    20600. *)
Theorem approve_order_twice_credits_twice :
  ∃ d1 d2 : DB,
    admin.approve_order 1 sample_db = Returned d1 tt
    ∧ select_balance 7 d1 = Some 10600
    ∧ o_status <$> orders d1 !! 1 = Some approved
    ∧ admin.approve_order 1 d1 = Returned d2 tt
    ∧ select_balance 7 d2 = Some 20600.
Proof.
  eexists _, _. split.
  { eapply approve_order_credits; reflexivity. }
  split; [reflexivity|]. split; [reflexivity|]. split.
  { eapply approve_order_credits; reflexivity. }
  reflexivity.
Qed.

(** ** Referrals *)

Lemma add_referral_with_bonus_blocked (referrer referred bonus_amount lvl : Z) (d : DB) :
  0 < bonus_amount → add_referral referrer referred bonus_amount lvl Free d = Blocked.
Proof.
  intros Hpos. unfold add_referral, get_connection.
  by rewrite (proj2 (Z.ltb_lt _ _) Hpos).
Qed.

Lemma add_referral_without_bonus (referrer referred bonus_amount lvl : Z) (d : DB) :
  bonus_amount <= 0 →
  add_referral referrer referred bonus_amount lvl Free d =
  Returned
    (with_referrals
       (insert_or_ignore_referral (mkReferral referrer referred bonus_amount lvl) (referrals d))
       d)
    tt.
Proof.
  intros Hle. unfold add_referral, get_connection.
  by rewrite (proj2 (Z.ltb_ge _ _) Hle).
Qed.

Lemma same_pair_refl (r : Referral) : same_pair r r = true.
Proof. unfold same_pair. by rewrite !bool_decide_eq_true_2. Qed.

(** INSERT OR IGNORE of a row that is already there changes nothing. *)
Lemma insert_or_ignore_referral_again (r : Referral) (rs : list Referral) :
  insert_or_ignore_referral r (insert_or_ignore_referral r rs) = insert_or_ignore_referral r rs.
Proof.
  unfold insert_or_ignore_referral at 2.
  destruct (existsb (same_pair r) rs || (level r <? 1)) eqn:Hskip.
  - unfold insert_or_ignore_referral. by rewrite Hskip.
  - unfold insert_or_ignore_referral.
    rewrite Hskip, existsb_app. simpl. rewrite same_pair_refl.
    by rewrite orb_true_r.
Qed.

(** Without a bonus the second call of a pair is the no-op it is meant to
    be. *)
Lemma add_referral_without_bonus_twice (referrer referred bonus_amount lvl : Z) (d : DB) :
  bonus_amount <= 0 →
  bind (add_referral referrer referred bonus_amount lvl Free d)
       (fun d1 _ => add_referral referrer referred bonus_amount lvl Free d1)
  = add_referral referrer referred bonus_amount lvl Free d.
Proof.
  intros Hle. rewrite (add_referral_without_bonus _ _ _ _ d Hle). cbn [bind].
  rewrite add_referral_without_bonus by done.
  unfold with_referrals. simpl. by rewrite insert_or_ignore_referral_again.
Qed.

(** C2. The code does not do this.  With a bonus above 0, [add_referral]
    calls [update_user_balance] while it still holds the connection lock,
    and that call waits for the lock: already the first call does not
    return, whatever the database. *)
Theorem add_referral_with_bonus_does_not_return (d : DB) :
  add_referral 7 8 500 1 Free d = Blocked.
Proof. by apply add_referral_with_bonus_blocked. Qed.

(** ** Withdrawal rejection *)

Lemma set_withdraw_status_rejected_blocked (withdraw_id : Z) (d : DB) (r : WithdrawRequest) :
  withdraw_requests d !! withdraw_id = Some r →
  set_withdraw_status withdraw_id rejected Free d = Blocked.
Proof.
  intros Hr. unfold set_withdraw_status, get_connection. by rewrite Hr.
Qed.

Lemma set_withdraw_status_not_rejected (withdraw_id : Z) (s : status) (d : DB) :
  s ≠ rejected →
  set_withdraw_status withdraw_id s Free d =
  Returned (update_withdraw_requests_status withdraw_id s d) tt.
Proof.
  intros Hs. unfold set_withdraw_status, get_connection.
  destruct (withdraw_requests d !! withdraw_id); [|done].
  by destruct (decide (s = rejected)).
Qed.

(** The admin panel's handler looks the request up among the pending ones
    first: for a request that is not pending it changes nothing. *)
Lemma reject_withdraw_request_not_pending (request_id : Z) (d : DB) :
  (∀ r, withdraw_requests d !! request_id = Some r → w_status r ≠ pending) →
  admin.reject_withdraw_request request_id d = Returned d NotFound.
Proof.
  intros Hnp. unfold admin.reject_withdraw_request, get_pending_withdraw_requests,
    get_connection. cbn [bind].
  rewrite row_with_id_pending.
  destruct (withdraw_requests d !! request_id) as [r|] eqn:Hr; [|done].
  destruct (decide (w_status r = pending)) as [Hp|Hp]; [|done].
  by destruct (Hnp r eq_refl).
Qed.

Lemma reject_withdraw_request_pending (request_id : Z) (d : DB)
    (r : WithdrawRequest) (u : User) :
  withdraw_requests d !! request_id = Some r → w_status r = pending →
  users d !! w_user_id r = Some u →
  admin.reject_withdraw_request request_id d =
  Returned
    (mkDB (<[w_user_id r := set_balance (balance u + w_amount r) u]> (users d))
          (orders d)
          (<[request_id := set_w_status rejected r]> (withdraw_requests d))
          (referrals d))
    Done.
Proof.
  intros Hr Hp Hu. unfold admin.reject_withdraw_request, get_pending_withdraw_requests,
    get_connection. cbn [bind].
  rewrite row_with_id_pending, Hr.
  destruct (decide (w_status r = pending)); [|done].
  by rewrite (reject_withdraw_request_and_refund_present _ _ r u).
Qed.

(** [reject_withdraw_request_and_refund] never reads the status: rejecting
    Alice's request 1 (400 so'm) twice returns normally both times and
    takes her balance from 600 to 1000 and then to 1400. *)
Lemma reject_withdraw_request_and_refund_twice_refunds_twice :
  ∃ d1 d2 : DB,
    reject_withdraw_request_and_refund 1 Free sample_db = Returned d1 tt
    ∧ select_balance 7 d1 = Some 1000
    ∧ w_status <$> withdraw_requests d1 !! 1 = Some rejected
    ∧ reject_withdraw_request_and_refund 1 Free d1 = Returned d2 tt
    ∧ select_balance 7 d2 = Some 1400.
Proof.
  eexists _, _. split.
  { eapply reject_withdraw_request_and_refund_present; reflexivity. }
  split; [reflexivity|]. split; [reflexivity|]. split.
  { eapply reject_withdraw_request_and_refund_present; reflexivity. }
  reflexivity.
Qed.

(** C3, as the code has it.  The guard is the admin panel's handler
    [reject_withdraw_request], which looks the request up among the pending
    ones before it calls [reject_withdraw_request_and_refund].  For a
    request whose owner exists: if it is pending, the handler marks it
    rejected and adds its amount to the owner's balance, and a second
    rejection then answers "not found" and changes nothing; if it is not
    pending (already rejected, or approved), the handler answers "not
    found" and changes nothing. *)
Theorem reject_withdraw_request_refunds_pending_only (request_id : Z) (d : DB)
    (r : WithdrawRequest) (u : User) :
  withdraw_requests d !! request_id = Some r →
  users d !! w_user_id r = Some u →
  (w_status r = pending →
     ∃ d1 : DB,
       admin.reject_withdraw_request request_id d = Returned d1 Done
       ∧ users d1 = <[w_user_id r := set_balance (balance u + w_amount r) u]> (users d)
       ∧ withdraw_requests d1 !! request_id = Some (set_w_status rejected r)
       ∧ admin.reject_withdraw_request request_id d1 = Returned d1 NotFound)
  ∧ (w_status r ≠ pending →
     admin.reject_withdraw_request request_id d = Returned d NotFound).
Proof.
  intros Hr Hu. split.
  - intros Hp. eexists. split.
    { by apply (reject_withdraw_request_pending _ _ r u). }
    split; [done|]. split.
    { simpl. apply lookup_insert_eq. }
    apply reject_withdraw_request_not_pending. simpl.
    intros r'. rewrite lookup_insert_eq. by intros [= <-].
  - intros Hnp. apply reject_withdraw_request_not_pending.
    intros r'. rewrite Hr. by intros [= <-].
Qed.

(** The first rejection of Alice's pending request 1 gives her the 400 so'm
    back; the second one finds nothing to reject. *)
Lemma reject_withdraw_request_refunds_pending_only_witness :
  (∃ d1 : DB,
     admin.reject_withdraw_request 1 sample_db = Returned d1 Done
     ∧ users d1 = <[7 := set_balance (600 + 400) alice]> (users sample_db)
     ∧ withdraw_requests d1 !! 1 =
       Some (mkWithdrawRequest 7 400 "8600123412341234" card rejected)
     ∧ admin.reject_withdraw_request 1 d1 = Returned d1 NotFound)
  ∧ admin.reject_withdraw_request 1 sample_db_paid = Returned sample_db_paid NotFound.
Proof.
  split.
  - apply (proj1 (reject_withdraw_request_refunds_pending_only 1 sample_db
                    (mkWithdrawRequest 7 400 "8600123412341234" card pending) alice
                    eq_refl eq_refl)).
    reflexivity.
  - apply (proj2 (reject_withdraw_request_refunds_pending_only 1 sample_db_paid
                    (mkWithdrawRequest 7 400 "8600123412341234" card approved) alice
                    eq_refl eq_refl)).
    discriminate.
Defined.

(** The other rejection handler goes through [set_withdraw_status], which
    for an existing request never gets its second connection. *)
Lemma reject_withdraw_blocked (wid : Z) (d : DB) (r : WithdrawRequest) :
  withdraw_requests d !! wid = Some r → payments.reject_withdraw wid d = Blocked.
Proof.
  intros Hr. unfold payments.reject_withdraw.
  by rewrite (set_withdraw_status_rejected_blocked _ _ r).
Qed.

(** ** Withdrawal approval *)

Lemma update_withdraw_request_status_keeps_users (request_id : Z) (s : status) (d : DB) :
  ∃ d', update_withdraw_request_status request_id s Free d = Returned d' tt
        ∧ users d' = users d.
Proof. by eexists. Qed.

Lemma set_withdraw_status_approved_keeps_users (withdraw_id : Z) (d : DB) :
  ∃ d', set_withdraw_status withdraw_id approved Free d = Returned d' tt
        ∧ users d' = users d.
Proof.
  eexists. split; [by apply set_withdraw_status_not_rejected|done].
Qed.

(** The admin panel's approval only writes the status. *)
Lemma process_payment_keeps_users (request_id : Z) (d : DB) :
  ∃ d' r, admin.process_payment request_id d = Returned d' r ∧ users d' = users d.
Proof.
  unfold admin.process_payment, get_pending_withdraw_requests, get_connection. cbn [bind].
  destruct (row_with_id request_id (pending_rows d)); by eexists _, _.
Qed.

(** C4. The code does not do this on every path.  Approval through
    [payments.accept_withdraw] calls [update_user_balance] with the delta
    [current_balance - amount] before it writes the status: approving
    Alice's request 1 (400 so'm, already taken off her balance when it was
    created) takes her balance from 600 to 800. *)
Theorem accept_withdraw_changes_balance :
  ∃ d1 : DB,
    payments.accept_withdraw 1 sample_db = Returned d1 Done
    ∧ select_balance 7 sample_db = Some 600
    ∧ select_balance 7 d1 = Some 800
    ∧ w_status <$> withdraw_requests d1 !! 1 = Some approved.
Proof.
  eexists. split; [vm_compute; reflexivity|].
  split; [reflexivity|]. split; reflexivity.
Qed.

(** ** Order cancellation *)

Lemma cancel_order_not_owner (user_id order_id : Z) (d : DB) :
  (∀ o, orders d !! order_id = Some o → o_user_id o ≠ user_id) →
  cancel_order user_id order_id Free d = Returned d tt.
Proof.
  intros Hno. unfold cancel_order, get_connection.
  rewrite alter_id.
  - by rewrite with_orders_same.
  - intros o Ho. destruct (decide (o_user_id o = user_id)) as [Heq|]; [|done].
    by destruct (Hno o Ho).
Qed.

Lemma cancel_order_owner (user_id order_id : Z) (d : DB) (o : Order) :
  orders d !! order_id = Some o → o_user_id o = user_id →
  cancel_order user_id order_id Free d =
  Returned (with_orders (<[order_id := set_o_status rejected o]> (orders d)) d) tt.
Proof.
  intros Ho Hu. unfold cancel_order, get_connection.
  rewrite (alter_alt_Some _ _ _ o) by done.
  by destruct (decide (o_user_id o = user_id)).
Qed.

(** C8. The code does not do this for orders that are no longer pending.
    [cancel_order] tests the id and the owner only: Alice cancelling her
    approved order 2 turns it into a rejected one. *)
Theorem cancel_order_of_approved_order_rejects_it :
  ∃ d1 : DB,
    o_status <$> orders sample_db !! 2 = Some approved
    ∧ user_fixed.cancel_order_callback 7 2 sample_db = Returned d1 Done
    ∧ o_status <$> orders d1 !! 2 = Some rejected.
Proof.
  eexists. split; [reflexivity|]. split; [vm_compute; reflexivity|]. reflexivity.
Qed.

(** ** The sign of a withdrawal amount *)

(** [create_withdraw_request] compares the amount with the balance only:
    Alice, with 600 so'm, "withdraws" -50 and ends with 650 and a pending
    request for -50. *)
Lemma create_withdraw_request_accepts_negative_amount :
  ∃ d1 : DB,
    create_withdraw_request 7 (-50) "8600123412341234" card Free sample_db = Returned d1 2
    ∧ withdraw_requests sample_db !! 2 = None
    ∧ withdraw_requests d1 !! 2 =
      Some (mkWithdrawRequest 7 (-50) "8600123412341234" card pending)
    ∧ select_balance 7 sample_db = Some 600
    ∧ select_balance 7 d1 = Some 650.
Proof.
  eexists. split; [vm_compute; reflexivity|].
  split; [reflexivity|]. split; [reflexivity|]. split; reflexivity.
Qed.

Lemma payments_process_withdraw_amount_refuses (min_withdraw_amount user_id amount : Z)
    (d : DB) :
  amount <= 0 →
  payments.process_withdraw_amount min_withdraw_amount user_id amount d = Returned d BelowMinimum
  ∨ payments.process_withdraw_amount min_withdraw_amount user_id amount d
    = Returned d AmountNotPositive.
Proof.
  intros Hle. unfold payments.process_withdraw_amount, get_user_balance, get_connection.
  destruct (select_balance user_id d); cbn [bind];
    (destruct (amount <? min_withdraw_amount); [by left|];
     rewrite (proj2 (Z.leb_le _ _) Hle); by right).
Qed.

Lemma user_fixed_process_withdraw_amount_refuses (user_id amount : Z) (wallet : string)
    (wt : withdraw_type) (d : DB) :
  amount <= 0 →
  user_fixed.process_withdraw_amount user_id amount wallet wt d = Returned d AmountNotPositive.
Proof.
  intros Hle. unfold user_fixed.process_withdraw_amount.
  by rewrite (proj2 (Z.leb_le _ _) Hle).
Qed.

(** C9, as the code has it.  [create_withdraw_request] does not look at the
    sign of the amount: for an existing user and an amount that is at most
    0 and at most the balance, it succeeds, inserts a pending row and stores
    balance - amount.  The sign is checked by the handlers that read the
    amount from the chat: for every amount of at most 0, both
    [process_withdraw_amount] handlers refuse it, leave the database as it
    was and do not call [create_withdraw_request]. *)
Theorem withdraw_amount_sign_checked_by_handlers (min_withdraw_amount user_id amount : Z)
    (wallet : string) (wt : withdraw_type) (d : DB) :
  amount <= 0 →
  (∀ u : User, users d !! user_id = Some u → amount <= balance u →
     create_withdraw_request user_id amount wallet wt Free d =
     Returned
       (mkDB (<[user_id := set_balance (balance u - amount) u]> (users d))
             (orders d)
             (<[next_rowid (withdraw_requests d) :=
                  mkWithdrawRequest user_id amount wallet wt pending]> (withdraw_requests d))
             (referrals d))
       (next_rowid (withdraw_requests d)))
  ∧ (payments.process_withdraw_amount min_withdraw_amount user_id amount d
       = Returned d BelowMinimum
     ∨ payments.process_withdraw_amount min_withdraw_amount user_id amount d
       = Returned d AmountNotPositive)
  ∧ user_fixed.process_withdraw_amount user_id amount wallet wt d
    = Returned d AmountNotPositive.
Proof.
  intros Hle. split.
  - intros u Hu Hbal. by apply create_withdraw_request_sufficient.
  - split.
    + by apply payments_process_withdraw_amount_refuses.
    + by apply user_fixed_process_withdraw_amount_refuses.
Qed.

(** Alice types 0 as the amount, with a minimum of 1000 so'm configured. *)
Lemma withdraw_amount_sign_checked_by_handlers_witness :
  create_withdraw_request 7 0 "8600123412341234" card Free sample_db =
    Returned
      (mkDB (<[7 := set_balance (600 - 0) alice]> (users sample_db))
            (orders sample_db)
            (<[2 := mkWithdrawRequest 7 0 "8600123412341234" card pending]>
               (withdraw_requests sample_db))
            (referrals sample_db))
      2
  ∧ (payments.process_withdraw_amount 1000 7 0 sample_db = Returned sample_db BelowMinimum
     ∨ payments.process_withdraw_amount 1000 7 0 sample_db
       = Returned sample_db AmountNotPositive)
  ∧ user_fixed.process_withdraw_amount 7 0 "8600123412341234" card sample_db
    = Returned sample_db AmountNotPositive.
Proof.
  pose proof (withdraw_amount_sign_checked_by_handlers
                1000 7 0 "8600123412341234" card sample_db) as H.
  destruct H as [Hcreate Hhandlers]; [discriminate|].
  split; [|exact Hhandlers].
  apply (Hcreate alice); [reflexivity | discriminate].
Defined.

(** * Further properties of the modelled code *)

(** ** Registration *)

Lemma upsert_user_existing (user_id : Z) (name : option string) (referrer : option Z)
    (d : DB) (u : User) :
  users d !! user_id = Some u →
  upsert_user user_id name referrer Free d =
  Returned
    (with_users
       (<[user_id :=
            match referrer with
            | Some r => if referrer_unset u then set_referred_by (Some r) (set_username name u)
                        else set_username name u
            | None => set_username name u
            end]> (users d)) d)
    tt.
Proof.
  intros Hu. unfold upsert_user, get_connection. rewrite Hu.
  destruct referrer as [r|]; [|done].
  rewrite (alter_alt_Some _ _ _ (set_username name u)) by apply lookup_insert_eq.
  by rewrite insert_insert_eq.
Qed.

Lemma upsert_user_new (user_id : Z) (name : option string) (referrer : option Z) (d : DB) :
  users d !! user_id = None →
  upsert_user user_id name referrer Free d =
  Returned (with_users (<[user_id := new_user name referrer]> (users d)) d) tt.
Proof.
  intros Hu. unfold upsert_user, get_connection. rewrite Hu.
  destruct referrer as [r|]; [|done].
  rewrite (alter_alt_Some _ _ _ (new_user name (Some r))) by apply lookup_insert_eq.
  rewrite insert_insert_eq.
  by destruct (referrer_unset (new_user name (Some r))).
Qed.

(** [upsert_user] on a registered user rewrites the username and nothing
    that matters to the ledger: balance, phone and the blocked flag of that
    user stay, every other row stays, and the call never fails. *)
Theorem upsert_user_keeps_the_account (user_id : Z) (name : option string)
    (referrer : option Z) (d : DB) (u : User) :
  users d !! user_id = Some u →
  ∃ u' : User,
    upsert_user user_id name referrer Free d =
      Returned (with_users (<[user_id := u']> (users d)) d) tt
    ∧ username u' = name
    ∧ balance u' = balance u
    ∧ phone u' = phone u
    ∧ is_blocked u' = is_blocked u.
Proof.
  intros Hu. eexists. split; [by apply upsert_user_existing|].
  destruct referrer as [r|]; [destruct (referrer_unset u)|]; done.
Qed.

Lemma upsert_user_keeps_the_account_witness :
  ∃ u' : User,
    upsert_user 9 (Some "caroline") (Some 8) Free sample_db_with_carol =
      Returned (with_users (<[9 := u']> (users sample_db_with_carol)) sample_db_with_carol) tt
    ∧ username u' = Some "caroline"
    ∧ balance u' = balance carol
    ∧ phone u' = phone carol
    ∧ is_blocked u' = is_blocked carol.
Proof.
  apply (upsert_user_keeps_the_account 9 (Some "caroline") (Some 8)
           sample_db_with_carol carol).
  reflexivity.
Defined.

(** The first referrer wins and the last username wins: a user registered
    with a referrer other than 0 keeps that referrer when [upsert_user] is
    called again with any other one (or none), while the username is
    replaced. *)
Theorem upsert_user_first_referrer_wins (user_id first_referrer : Z)
    (first_name second_name : option string) (second_referrer : option Z) (d : DB) :
  users d !! user_id = None → first_referrer ≠ 0 →
  bind (upsert_user user_id first_name (Some first_referrer) Free d)
       (fun d1 _ => upsert_user user_id second_name second_referrer Free d1)
  = Returned
      (with_users (<[user_id := new_user second_name (Some first_referrer)]> (users d)) d)
      tt.
Proof.
  intros Hnew Hnz. rewrite (upsert_user_new _ _ _ _ Hnew). cbn [bind].
  rewrite (upsert_user_existing _ _ _ _ (new_user first_name (Some first_referrer)))
    by apply lookup_insert_eq.
  assert (Hset : referrer_unset (set_username second_name
                   (new_user first_name (Some first_referrer))) = false).
  { unfold referrer_unset. simpl. by apply Z.eqb_neq. }
  assert (Hunset : referrer_unset (new_user first_name (Some first_referrer)) = false).
  { unfold referrer_unset. simpl. by apply Z.eqb_neq. }
  unfold with_users. simpl. rewrite insert_insert_eq.
  destruct second_referrer as [r|]; by rewrite ?Hunset.
Qed.

Lemma upsert_user_first_referrer_wins_witness :
  bind (upsert_user 10 (Some "dan") (Some 7) Free sample_db)
       (fun d1 _ => upsert_user 10 (Some "daniel") (Some 8) Free d1)
  = Returned (with_users (<[10 := new_user (Some "daniel") (Some 7)]> (users sample_db))
                         sample_db) tt.
Proof.
  apply (upsert_user_first_referrer_wins 10 7 (Some "dan") (Some "daniel") (Some 8) sample_db).
  - reflexivity.
  - discriminate.
Defined.

(** Calling [upsert_user] twice with the same arguments leaves the database
    that one call leaves. *)
Theorem upsert_user_twice (user_id : Z) (name : option string) (referrer : option Z)
    (d : DB) :
  bind (upsert_user user_id name referrer Free d)
       (fun d1 _ => upsert_user user_id name referrer Free d1)
  = upsert_user user_id name referrer Free d.
Proof.
  destruct (users d !! user_id) as [u|] eqn:Hu.
  - rewrite (upsert_user_existing _ _ _ _ u Hu). cbn [bind].
    erewrite upsert_user_existing by apply lookup_insert_eq.
    unfold with_users. simpl. rewrite insert_insert_eq.
    do 3 f_equal.
    destruct referrer as [r|]; [|done].
    unfold referrer_unset.
    destruct u as [n p [r0|] b bl]; simpl.
    + destruct (r0 =? 0) eqn:Hr0; simpl; [|by rewrite Hr0].
      by destruct (r =? 0).
    + by destruct (r =? 0).
  - rewrite (upsert_user_new _ _ _ _ Hu). cbn [bind].
    erewrite upsert_user_existing by apply lookup_insert_eq.
    unfold with_users. simpl. rewrite insert_insert_eq.
    do 3 f_equal.
    destruct referrer as [r|]; [|done].
    unfold referrer_unset. simpl. by destruct (r =? 0).
Qed.

(** [get_or_create_user] registers an unknown user with balance 0, not
    blocked, and hands back the stored row of a known one without touching
    the database: whatever username or referrer a later call carries, it
    returns the same row and changes nothing. *)
Theorem get_or_create_user_creates_once (user_id : Z) (name : option string)
    (referrer : option Z) (d : DB) :
  ∃ (d1 : DB) (u1 : User),
    get_or_create_user user_id name referrer Free d = Returned d1 u1
    ∧ users d1 !! user_id = Some u1
    ∧ (∀ (name' : option string) (referrer' : option Z),
         get_or_create_user user_id name' referrer' Free d1 = Returned d1 u1)
    ∧ match users d !! user_id with
      | Some u => d1 = d ∧ u1 = u
      | None => u1 = new_user name referrer
                ∧ d1 = with_users (<[user_id := u1]> (users d)) d
      end.
Proof.
  unfold get_or_create_user, get_connection.
  destruct (users d !! user_id) as [u|] eqn:Hu.
  - exists d, u. repeat split; try done.
    intros name' referrer'. by rewrite Hu.
  - eexists _, _. split; [done|]. split; [apply lookup_insert_eq|].
    split; [|done].
    intros name' referrer'. simpl. by rewrite lookup_insert_eq.
Qed.

(** ** Blocking and the broadcast list *)

Lemma is_user_blocked_value (user_id : Z) (d : DB) :
  is_user_blocked user_id Free d =
  Returned d (match users d !! user_id with Some u => is_blocked u | None => false end).
Proof. done. Qed.

(** Blocking a registered user shows in [is_user_blocked] and takes nothing
    else away: the row keeps its balance, and unblocking gives back the row
    with the flag cleared. *)
Theorem block_user_then_unblock (user_id : Z) (d : DB) (u : User) :
  users d !! user_id = Some u →
  ∃ d1 d2 : DB,
    block_user user_id Free d = Returned d1 tt
    ∧ users d1 = <[user_id := set_is_blocked true u]> (users d)
    ∧ is_user_blocked user_id Free d1 = Returned d1 true
    ∧ get_user_balance user_id Free d1 = Returned d1 (balance u)
    ∧ unblock_user user_id Free d1 = Returned d2 tt
    ∧ users d2 = <[user_id := set_is_blocked false u]> (users d)
    ∧ is_user_blocked user_id Free d2 = Returned d2 false.
Proof.
  intros Hu. eexists _, _.
  split; [done|]. split.
  { simpl. by rewrite (alter_alt_Some _ _ _ u). }
  split.
  { rewrite is_user_blocked_value. simpl.
    by rewrite lookup_alter_eq, Hu. }
  split.
  { unfold get_user_balance, get_connection, select_balance. simpl.
    by rewrite lookup_alter_eq, Hu. }
  split; [done|]. split.
  { simpl. rewrite (alter_alt_Some (set_is_blocked true) _ _ u) by done.
    rewrite (alter_alt_Some _ _ _ (set_is_blocked true u)) by apply lookup_insert_eq.
    by rewrite insert_insert_eq. }
  rewrite is_user_blocked_value. simpl.
  by rewrite !lookup_alter_eq, Hu.
Qed.

Lemma block_user_then_unblock_witness :
  ∃ d1 d2 : DB,
    block_user 8 Free sample_db = Returned d1 tt
    ∧ users d1 = <[8 := set_is_blocked true bob]> (users sample_db)
    ∧ is_user_blocked 8 Free d1 = Returned d1 true
    ∧ get_user_balance 8 Free d1 = Returned d1 (balance bob)
    ∧ unblock_user 8 Free d1 = Returned d2 tt
    ∧ users d2 = <[8 := set_is_blocked false bob]> (users sample_db)
    ∧ is_user_blocked 8 Free d2 = Returned d2 false.
Proof. apply (block_user_then_unblock 8 sample_db bob). reflexivity. Defined.

(** Blocking an id that has no row is lost: [block_user] returns normally
    and changes nothing, the id is reported as not blocked, and the row
    that a later registration creates is not blocked. *)
Theorem block_user_before_registration_is_lost (user_id : Z) (name : option string)
    (referrer : option Z) (d : DB) :
  users d !! user_id = None →
  block_user user_id Free d = Returned d tt
  ∧ is_user_blocked user_id Free d = Returned d false
  ∧ ∃ (d1 : DB) (u1 : User),
      bind (block_user user_id Free d)
           (fun d0 _ => get_or_create_user user_id name referrer Free d0)
      = Returned d1 u1
      ∧ is_blocked u1 = false
      ∧ is_user_blocked user_id Free d1 = Returned d1 false.
Proof.
  intros Hu.
  assert (Hblock : block_user user_id Free d = Returned d tt).
  { unfold block_user, get_connection. rewrite alter_id' by done.
    by rewrite with_users_same. }
  split; [done|]. split.
  { rewrite is_user_blocked_value. by rewrite Hu. }
  rewrite Hblock. cbn [bind].
  unfold get_or_create_user, get_connection. rewrite Hu.
  eexists _, _. split; [done|]. split; [done|].
  rewrite is_user_blocked_value. simpl. by rewrite lookup_insert_eq.
Qed.

Lemma block_user_before_registration_is_lost_witness :
  block_user 99 Free sample_db = Returned sample_db tt
  ∧ is_user_blocked 99 Free sample_db = Returned sample_db false
  ∧ ∃ (d1 : DB) (u1 : User),
      bind (block_user 99 Free sample_db)
           (fun d0 _ => get_or_create_user 99 (Some "eve") None Free d0)
      = Returned d1 u1
      ∧ is_blocked u1 = false
      ∧ is_user_blocked 99 Free d1 = Returned d1 false.
Proof.
  apply (block_user_before_registration_is_lost 99 (Some "eve") None sample_db).
  reflexivity.
Defined.

Lemma map_fst_fmap {V : Type} (l : list (Z * V)) : map fst l = l.*1.
Proof. induction l as [|x l IH]; simpl; [done | by rewrite IH]. Qed.

Lemma NoDup_fst_filter {V : Type} (P : Z * V → bool) (l : list (Z * V)) :
  NoDup (map fst l) → NoDup (map fst (List.filter P l)).
Proof.
  induction l as [|x l IH]; simpl; [done|].
  rewrite NoDup_cons. intros [Hx Hl].
  destruct (P x); simpl; [|by apply IH].
  apply NoDup_cons. split; [|by apply IH].
  intros Hin. apply Hx.
  apply list_elem_of_In, in_map_iff in Hin as [y [Hy Hin]].
  apply filter_In in Hin as [Hin _].
  apply list_elem_of_In, in_map_iff. by exists y.
Qed.

Lemma unblocked_ids_spec (d : DB) (uid : Z) :
  uid ∈ map fst (List.filter (fun r : Z * User => negb (is_blocked r.2))
                             (map_to_list (users d)))
  ↔ ∃ u, users d !! uid = Some u ∧ is_blocked u = false.
Proof.
  rewrite list_elem_of_In, in_map_iff. split.
  - intros [[k u] [Hk Hin]]. simpl in Hk. subst k.
    apply filter_In in Hin as [Hin Hb].
    apply list_elem_of_In, elem_of_map_to_list in Hin.
    exists u. split; [done|]. simpl in Hb. by destruct (is_blocked u).
  - intros [u [Hu Hb]]. exists (uid, u). split; [done|].
    apply filter_In. split.
    + apply list_elem_of_In. by apply elem_of_map_to_list.
    + simpl. by rewrite Hb.
Qed.

Lemma keep_not_blocked_all (ids : list Z) (d : DB) :
  (∀ uid, uid ∈ ids → ∃ u, users d !! uid = Some u ∧ is_blocked u = false) →
  admin.keep_not_blocked ids d = Returned d ids.
Proof.
  induction ids as [|uid rest IH]; intros Hall; [done|].
  cbn [admin.keep_not_blocked]. rewrite is_user_blocked_value. cbn [bind].
  rewrite IH.
  - cbn [bind]. destruct (Hall uid) as [u [Hu Hb]]; [by left|].
    by rewrite Hu, Hb.
  - intros uid' Hin. apply Hall. by right.
Qed.

Lemma count_deliveries_total (deliver : Z → bool) (ids : list Z) :
  ∀ sent failed : Z,
    admin.count_deliveries deliver ids sent failed =
    (sent + Z.of_nat (length (List.filter deliver ids)),
     failed + Z.of_nat (length (List.filter (fun uid => negb (deliver uid)) ids))).
Proof.
  induction ids as [|uid rest IH]; intros sent failed; simpl.
  - f_equal; lia.
  - destruct (deliver uid); simpl; rewrite IH; f_equal; lia.
Qed.

Lemma filter_split_length {A : Type} (P : A → bool) (l : list A) :
  (length (List.filter P l) + length (List.filter (fun x => negb (P x)) l))%nat = length l.
Proof.
  induction l as [|x l IH]; simpl; [done|].
  destruct (P x); simpl; lia.
Qed.

(** [send_broadcast] writes to every registered user who is not blocked,
    once each, and to nobody else; whatever the deliveries do, the two
    counts it reports add up to the number of those users, the first being
    the number of deliveries that went through.  The database is not
    touched. *)
Theorem send_broadcast_reaches_the_unblocked (deliver : Z → bool) (d : DB) :
  ∃ (recipients : list Z) (sent failed : Z),
    admin.send_broadcast deliver d = Returned d (recipients, (sent, failed))
    ∧ NoDup recipients
    ∧ (∀ uid, uid ∈ recipients ↔ ∃ u, users d !! uid = Some u ∧ is_blocked u = false)
    ∧ sent = Z.of_nat (length (List.filter deliver recipients))
    ∧ sent + failed = Z.of_nat (length recipients).
Proof.
  unfold admin.send_broadcast, get_all_users, get_connection. cbn [bind].
  rewrite keep_not_blocked_all by (intros uid; apply unblocked_ids_spec).
  cbn [bind]. rewrite count_deliveries_total.
  eexists _, _, _. split; [done|]. split.
  { apply NoDup_fst_filter. rewrite map_fst_fmap. apply NoDup_fst_map_to_list. }
  split; [intros uid; apply unblocked_ids_spec|].
  split; [lia|].
  pose proof (filter_split_length deliver
    (map fst (List.filter (fun r : Z * User => negb (is_blocked r.2))
                          (map_to_list (users d))))) as Hlen.
  lia.
Qed.

(** ** Orders *)

(** [create_order] gives the new order an id (at least 1) that no order
    has, stores it as pending under the given user id (registered or not)
    and changes nothing else: no other order, no balance. *)
Theorem create_order_adds_one_pending_order (user_id : Z) (product_url photo_id : string)
    (d : DB) :
  ∃ (order_id : Z) (d1 : DB),
    create_order user_id product_url photo_id Free d = Returned d1 order_id
    ∧ 1 <= order_id
    ∧ orders d !! order_id = None
    ∧ d1 = with_orders
             (<[order_id := mkOrder user_id product_url photo_id pending]> (orders d)) d
    ∧ users d1 = users d.
Proof.
  eexists _, _. split; [done|].
  split; [apply next_rowid_positive|].
  split; [apply next_rowid_fresh|]. done.
Qed.

Lemma approve_order_unknown (order_id : Z) (d : DB) :
  orders d !! order_id = None → admin.approve_order order_id d = Returned d tt.
Proof.
  intros Ho. unfold admin.approve_order, update_order_status, get_all_orders,
    get_connection. cbn [bind].
  rewrite row_with_id_all. unfold update_orders_status. cbn [orders with_orders].
  rewrite lookup_alter_eq, Ho. simpl.
  rewrite alter_id' by done. by rewrite with_orders_same.
Qed.

Lemma approve_order_of_missing_user (order_id : Z) (d : DB) (o : Order) :
  orders d !! order_id = Some o → users d !! o_user_id o = None →
  admin.approve_order order_id d =
  Returned (with_orders (<[order_id := set_o_status approved o]> (orders d)) d) tt.
Proof.
  intros Ho Hu. unfold admin.approve_order, update_order_status, get_all_orders,
    get_connection. cbn [bind].
  rewrite row_with_id_all. unfold update_orders_status. cbn [orders with_orders].
  rewrite lookup_alter_eq, Ho.
  cbn [fmap option_fmap option_map snd set_o_status o_user_id].
  unfold add_user_balance, get_connection. cbn [users with_orders].
  rewrite (alter_id' _ (users d)) by done.
  rewrite (alter_alt_Some _ _ _ o) by done.
  by destruct d.
Qed.

(** [approve_order] never fails where there is nothing to credit: for an id
    that no order has it changes nothing at all, and for an order whose
    user has no row it stores the approval and credits nobody. *)
Theorem approve_order_without_a_credit (order_id : Z) (d : DB) :
  (orders d !! order_id = None → admin.approve_order order_id d = Returned d tt)
  ∧ (∀ o : Order,
       orders d !! order_id = Some o → users d !! o_user_id o = None →
       ∃ d1 : DB,
         admin.approve_order order_id d = Returned d1 tt
         ∧ users d1 = users d
         ∧ orders d1 = <[order_id := set_o_status approved o]> (orders d)).
Proof.
  split.
  - apply approve_order_unknown.
  - intros o Ho Hu. eexists. split; [by apply approve_order_of_missing_user|done].
Qed.

Lemma approve_order_without_a_credit_witness :
  admin.approve_order 40 sample_db = Returned sample_db tt
  ∧ ∃ d1 : DB,
      admin.approve_order 1 sample_db_orphan_order = Returned d1 tt
      ∧ users d1 = users sample_db_orphan_order
      ∧ orders d1 = <[1 := set_o_status approved orphan_order]>
                      (orders sample_db_orphan_order).
Proof.
  split.
  - apply (proj1 (approve_order_without_a_credit 40 sample_db)). reflexivity.
  - apply (proj2 (approve_order_without_a_credit 1 sample_db_orphan_order) orphan_order);
      reflexivity.
Defined.

(** Rejecting an order never changes a balance, also not after the order
    was approved: approve followed by reject leaves the order rejected and
    the 10000 with the user. *)
Theorem reject_order_keeps_the_reward (order_id : Z) (d : DB) (o : Order) (u : User) :
  orders d !! order_id = Some o → users d !! o_user_id o = Some u →
  (∃ d1 : DB, admin.reject_order order_id d = Returned d1 tt ∧ users d1 = users d)
  ∧ bind (admin.approve_order order_id d) (fun d1 _ => admin.reject_order order_id d1)
    = Returned
        (mkDB (<[o_user_id o := set_balance (balance u + 10000) u]> (users d))
              (<[order_id := set_o_status rejected o]> (orders d))
              (withdraw_requests d) (referrals d))
        tt.
Proof.
  intros Ho Hu. split; [by eexists|].
  rewrite (approve_order_credits _ _ o u) by done. cbn [bind].
  unfold admin.reject_order, update_order_status, get_connection, update_orders_status,
    with_orders. simpl.
  rewrite (alter_alt_Some _ _ _ (set_o_status approved o)) by apply lookup_insert_eq.
  by rewrite insert_insert_eq.
Qed.

Lemma reject_order_keeps_the_reward_witness :
  (∃ d1 : DB, admin.reject_order 3 sample_db = Returned d1 tt ∧ users d1 = users sample_db)
  ∧ bind (admin.approve_order 3 sample_db) (fun d1 _ => admin.reject_order 3 d1)
    = Returned
        (mkDB (<[8 := set_balance (balance bob + 10000) bob]> (users sample_db))
              (<[3 := mkOrder 8 "https://market.example/p3" "photo3" rejected]>
                 (orders sample_db))
              (withdraw_requests sample_db) (referrals sample_db))
        tt.
Proof.
  apply (reject_order_keeps_the_reward 3 sample_db
           (mkOrder 8 "https://market.example/p3" "photo3" pending) bob); reflexivity.
Defined.

(** Whatever [cancel_order_callback] is asked, it answers "cancelled", and
    the only thing it can have changed is the status of that one order: the
    order keeps its owner, its URL and its photo, and its status is
    "rejected" if the caller is its owner and what it was otherwise (also
    when it was approved or rejected already); an id that no order has
    still has none; balances, withdrawal requests, referrals and every
    other order are as before. *)
Theorem cancel_order_callback_touches_one_status (from_user order_id : Z) (d : DB) :
  ∃ d1 : DB,
    user_fixed.cancel_order_callback from_user order_id d = Returned d1 Done
    ∧ users d1 = users d
    ∧ withdraw_requests d1 = withdraw_requests d
    ∧ referrals d1 = referrals d
    ∧ orders d1 !! order_id
      = (fun o : Order =>
           mkOrder (o_user_id o) (o_product_url o) (o_photo_id o)
             (if decide (o_user_id o = from_user) then rejected else o_status o))
        <$> orders d !! order_id
    ∧ ∀ other : Z, other ≠ order_id → orders d1 !! other = orders d !! other.
Proof.
  eexists. split; [done|]. simpl. repeat split; try done.
  - rewrite lookup_alter_eq. destruct (orders d !! order_id) as [o|]; [|done].
    simpl. destruct (decide (o_user_id o = from_user)); [done|]. by destruct o.
  - intros other Hne. by rewrite lookup_alter_ne.
Qed.

(** [get_user_orders] lists exactly the orders stored under that user id,
    each of them once. *)
Theorem get_user_orders_lists_own_orders (user_id : Z) (d : DB) :
  ∃ rows : list (Z * Order),
    get_user_orders user_id Free d = Returned d rows
    ∧ NoDup (map fst rows)
    ∧ ∀ (order_id : Z) (o : Order),
        (order_id, o) ∈ rows ↔ orders d !! order_id = Some o ∧ o_user_id o = user_id.
Proof.
  eexists. split; [done|]. split.
  { apply NoDup_fst_filter. rewrite map_fst_fmap. apply NoDup_fst_map_to_list. }
  intros order_id o. rewrite list_elem_of_In, filter_In.
  rewrite <- list_elem_of_In, elem_of_map_to_list. simpl.
  by rewrite bool_decide_eq_true.
Qed.

(** ** Withdrawals: failures, and what is held in reserve *)

(** A rejection that cannot be completed leaves no trace: for an unknown
    request id, and for a request whose user has no row, the call raises
    and the database is the one before the call (the status written in
    between is rolled back). *)
Theorem reject_withdraw_request_and_refund_fails_cleanly (request_id : Z) (d : DB) :
  (withdraw_requests d !! request_id = None →
     reject_withdraw_request_and_refund request_id Free d =
     Raised (WithdrawRequestNotFound request_id) d)
  ∧ (∀ r : WithdrawRequest,
       withdraw_requests d !! request_id = Some r → users d !! w_user_id r = None →
       reject_withdraw_request_and_refund request_id Free d =
       Raised (UserNotFound (w_user_id r)) d).
Proof.
  split.
  - intros Hr. unfold reject_withdraw_request_and_refund, get_connection. by rewrite Hr.
  - intros r Hr Hu. unfold reject_withdraw_request_and_refund, get_connection.
    rewrite Hr. unfold select_balance, update_withdraw_requests_status. simpl.
    by rewrite Hu.
Qed.

Lemma reject_withdraw_request_and_refund_fails_cleanly_witness :
  reject_withdraw_request_and_refund 5 Free sample_db =
    Raised (WithdrawRequestNotFound 5) sample_db
  ∧ reject_withdraw_request_and_refund 1 Free
      (with_withdraw_requests (<[1 := mkWithdrawRequest 99 300 "w" card pending]> ∅) sample_db)
    = Raised (UserNotFound 99)
        (with_withdraw_requests (<[1 := mkWithdrawRequest 99 300 "w" card pending]> ∅)
                                sample_db).
Proof.
  split.
  - apply (proj1 (reject_withdraw_request_and_refund_fails_cleanly 5 sample_db)).
    reflexivity.
  - apply (proj2 (reject_withdraw_request_and_refund_fails_cleanly 1
             (with_withdraw_requests (<[1 := mkWithdrawRequest 99 300 "w" card pending]> ∅)
                                     sample_db))
             (mkWithdrawRequest 99 300 "w" card pending)); reflexivity.
Defined.

Lemma pending_amount_of_filter (user_id : Z) (l : list (Z * WithdrawRequest)) :
  pending_amount_of user_id
    (List.filter (fun r => bool_decide (w_status r.2 = pending)) l)
  = foldr (fun r acc => reserved_by user_id r + acc) 0 l.
Proof.
  induction l as [|r l IH]; [done|]. simpl. unfold reserved_by at 1.
  destruct (bool_decide (w_status r.2 = pending)); simpl.
  - rewrite IH. by destruct (bool_decide (w_user_id r.2 = user_id)).
  - by rewrite IH.
Qed.

Lemma sum_permutation {A : Type} (f : A → Z) (l l' : list A) :
  l ≡ₚ l' →
  foldr (fun r acc => f r + acc) 0 l = foldr (fun r acc => f r + acc) 0 l'.
Proof.
  induction 1 as [|x l l' _ IH|x y l|l l' l'' _ IH1 _ IH2]; simpl; lia.
Qed.

Lemma pending_total_eq (user_id : Z) (d : DB) :
  pending_total user_id d
  = foldr (fun r acc => reserved_by user_id r + acc) 0 (map_to_list (withdraw_requests d)).
Proof. unfold pending_total, pending_rows. apply pending_amount_of_filter. Qed.

Lemma reserve_insert_fresh (user_id : Z) (m : gmap Z WithdrawRequest) (i : Z)
    (x : WithdrawRequest) :
  m !! i = None →
  foldr (fun r acc => reserved_by user_id r + acc) 0 (map_to_list (<[i := x]> m))
  = reserved_by user_id (i, x)
    + foldr (fun r acc => reserved_by user_id r + acc) 0 (map_to_list m).
Proof.
  intros Hi. by rewrite (sum_permutation _ _ _ (map_to_list_insert m i x Hi)).
Qed.

Lemma reserve_insert_over (user_id : Z) (m : gmap Z WithdrawRequest) (i : Z)
    (x0 x : WithdrawRequest) :
  m !! i = Some x0 →
  foldr (fun r acc => reserved_by user_id r + acc) 0 (map_to_list (<[i := x]> m))
  = reserved_by user_id (i, x) - reserved_by user_id (i, x0)
    + foldr (fun r acc => reserved_by user_id r + acc) 0 (map_to_list m).
Proof.
  intros Hi.
  rewrite <- (insert_delete_eq m i x).
  rewrite reserve_insert_fresh by apply lookup_delete_eq.
  rewrite <- (sum_permutation _ _ _ (map_to_list_delete m i x0 Hi)). simpl. lia.
Qed.

Lemma balance_of_insert (user_id other : Z) (u : User) (d : DB) (us : gmap Z User) :
  users d = <[user_id := u]> us →
  balance_of other d = if decide (other = user_id) then balance u
                       else match us !! other with Some v => balance v | None => 0 end.
Proof.
  intros Hus. unfold balance_of, select_balance. rewrite Hus.
  destruct (decide (other = user_id)) as [->|Hne].
  - by rewrite lookup_insert_eq.
  - rewrite lookup_insert_ne by done. by destruct (us !! other).
Qed.

Lemma process_payment_pending (request_id : Z) (d : DB) (r : WithdrawRequest) :
  withdraw_requests d !! request_id = Some r → w_status r = pending →
  admin.process_payment request_id d =
  Returned
    (with_withdraw_requests (<[request_id := set_w_status approved r]> (withdraw_requests d)) d)
    Done.
Proof.
  intros Hr Hp. unfold admin.process_payment, get_pending_withdraw_requests,
    get_connection. cbn [bind].
  rewrite row_with_id_pending, Hr.
  destruct (decide (w_status r = pending)); [|done].
  unfold update_withdraw_request_status, get_connection, update_withdraw_requests_status.
  cbn [bind]. by rewrite (alter_alt_Some _ _ _ r).
Qed.

Lemma process_payment_not_pending (request_id : Z) (d : DB) :
  (∀ r, withdraw_requests d !! request_id = Some r → w_status r ≠ pending) →
  admin.process_payment request_id d = Returned d NotFound.
Proof.
  intros Hnp. unfold admin.process_payment, get_pending_withdraw_requests,
    get_connection. cbn [bind].
  rewrite row_with_id_pending.
  destruct (withdraw_requests d !! request_id) as [r|] eqn:Hr; [|done].
  destruct (decide (w_status r = pending)) as [Hp|Hp]; [|done].
  by destruct (Hnp r eq_refl).
Qed.

(** Paying a pending request through the admin panel marks it approved and
    takes its amount out of the owner's reserve without touching any
    balance; after that the request can be neither paid again nor rejected
    (and refunded) through the admin panel: both answer "not found" and
    change nothing. *)
Theorem process_payment_pays_once (request_id : Z) (d : DB) (r : WithdrawRequest) :
  withdraw_requests d !! request_id = Some r → w_status r = pending →
  ∃ d1 : DB,
    admin.process_payment request_id d = Returned d1 Done
    ∧ users d1 = users d
    ∧ withdraw_requests d1 !! request_id = Some (set_w_status approved r)
    ∧ pending_total (w_user_id r) d1 = pending_total (w_user_id r) d - w_amount r
    ∧ admin.process_payment request_id d1 = Returned d1 NotFound
    ∧ admin.reject_withdraw_request request_id d1 = Returned d1 NotFound.
Proof.
  intros Hr Hp. eexists.
  split; [by apply process_payment_pending|].
  split; [done|]. split; [simpl; apply lookup_insert_eq|].
  split.
  { rewrite !pending_total_eq. cbn [withdraw_requests with_withdraw_requests].
    rewrite (reserve_insert_over _ _ _ r) by done.
    unfold reserved_by. simpl. rewrite Hp.
    rewrite !bool_decide_eq_true_2 by done. simpl. lia. }
  split.
  - apply process_payment_not_pending. simpl.
    intros r'. rewrite lookup_insert_eq. by intros [= <-].
  - apply reject_withdraw_request_not_pending. simpl.
    intros r'. rewrite lookup_insert_eq. by intros [= <-].
Qed.

Lemma process_payment_pays_once_witness :
  ∃ d1 : DB,
    admin.process_payment 1 sample_db = Returned d1 Done
    ∧ users d1 = users sample_db
    ∧ withdraw_requests d1 !! 1 =
      Some (set_w_status approved (mkWithdrawRequest 7 400 "8600123412341234" card pending))
    ∧ pending_total 7 d1 = pending_total 7 sample_db - 400
    ∧ admin.process_payment 1 d1 = Returned d1 NotFound
    ∧ admin.reject_withdraw_request 1 d1 = Returned d1 NotFound.
Proof.
  apply (process_payment_pays_once 1 sample_db
           (mkWithdrawRequest 7 400 "8600123412341234" card pending)); reflexivity.
Defined.

(** [accept_withdraw] acts on pending requests only and never lets a balance
    go below the amount: for a request that is not pending (or does not
    exist) it answers "not found", for a pending one whose owner has less
    than the amount it answers "not enough", and in both cases the database
    stays as it was. *)
Theorem accept_withdraw_refusals (wid : Z) (d : DB) :
  ((∀ r, withdraw_requests d !! wid = Some r → w_status r ≠ pending) →
     payments.accept_withdraw wid d = Returned d NotFound)
  ∧ (∀ r : WithdrawRequest,
       withdraw_requests d !! wid = Some r → w_status r = pending →
       balance_of (w_user_id r) d < w_amount r →
       payments.accept_withdraw wid d = Returned d NotEnoughBalance).
Proof.
  split.
  - intros Hnp. unfold payments.accept_withdraw, get_pending_withdraws, get_connection.
    cbn [bind]. rewrite row_with_id_pending.
    destruct (withdraw_requests d !! wid) as [r|] eqn:Hr; [|done].
    destruct (decide (w_status r = pending)) as [Hp|Hp]; [|done].
    by destruct (Hnp r eq_refl).
  - intros r Hr Hp Hlt. unfold payments.accept_withdraw, get_pending_withdraws,
      get_connection. cbn [bind]. rewrite row_with_id_pending, Hr.
    destruct (decide (w_status r = pending)); [|done]. cbn [snd].
    unfold get_user_balance, get_connection, balance_of in *.
    destruct (select_balance (w_user_id r) d); cbn [bind];
      by rewrite (proj2 (Z.ltb_lt _ _) Hlt).
Qed.

Lemma accept_withdraw_refusals_witness :
  payments.accept_withdraw 1 sample_db_paid = Returned sample_db_paid NotFound
  ∧ payments.accept_withdraw 1
      (with_withdraw_requests (<[1 := mkWithdrawRequest 8 400 "w" card pending]> ∅) sample_db)
    = Returned
        (with_withdraw_requests (<[1 := mkWithdrawRequest 8 400 "w" card pending]> ∅) sample_db)
        NotEnoughBalance.
Proof.
  split.
  - apply (proj1 (accept_withdraw_refusals 1 sample_db_paid)).
    intros r Hr. vm_compute in Hr. injection Hr as <-. discriminate.
  - apply (proj2 (accept_withdraw_refusals 1
             (with_withdraw_requests (<[1 := mkWithdrawRequest 8 400 "w" card pending]> ∅)
                                     sample_db))
             (mkWithdrawRequest 8 400 "w" card pending)); reflexivity.
Defined.

(** ** Referrals *)

Lemma same_pair_spec (a b : Referral) :
  same_pair a b = true
  ↔ (referrer_id a, referred_id a) = (referrer_id b, referred_id b).
Proof.
  unfold same_pair. rewrite andb_true_iff, !bool_decide_eq_true.
  split; [by intros [-> ->] | by intros [= -> ->]].
Qed.

Lemma no_same_pair_not_in (r : Referral) (rs : list Referral) :
  existsb (same_pair r) rs = false →
  (referrer_id r, referred_id r) ∉ map (fun x => (referrer_id x, referred_id x)) rs.
Proof.
  intros Hex Hin.
  apply list_elem_of_In, in_map_iff in Hin as [x [Hx Hin]].
  assert (Htrue : existsb (same_pair r) rs = true).
  { apply existsb_exists. exists x. split; [done|]. by apply same_pair_spec. }
  congruence.
Qed.

Lemma insert_or_ignore_referral_valid (r : Referral) (rs : list Referral) :
  referrals_valid rs → referrals_valid (insert_or_ignore_referral r rs).
Proof.
  intros [Hnd Hlv]. unfold insert_or_ignore_referral.
  destruct (existsb (same_pair r) rs) eqn:Hex; simpl; [done|].
  destruct (level r <? 1) eqn:Hl; [done|].
  apply Z.ltb_ge in Hl. split.
  - rewrite map_app. simpl. apply NoDup_app. split; [done|]. split.
    + intros x Hx Hx'. apply list_elem_of_singleton in Hx'. subst x.
      by apply (no_same_pair_not_in r rs).
    + apply NoDup_singleton.
  - apply Forall_app. split; [done|]. by apply Forall_singleton.
Qed.

(** [add_referral] without a bonus keeps the referrals table within its
    constraints (no pair twice, every level at least 1), adds at most the
    one row it was given, and touches no balance. *)
Theorem add_referral_keeps_the_table_valid (referrer referred bonus_amount lvl : Z)
    (d : DB) :
  bonus_amount <= 0 → referrals_valid (referrals d) →
  ∃ d1 : DB,
    add_referral referrer referred bonus_amount lvl Free d = Returned d1 tt
    ∧ referrals_valid (referrals d1)
    ∧ users d1 = users d
    ∧ (referrals d1 = referrals d
       ∨ referrals d1 = referrals d ++ [mkReferral referrer referred bonus_amount lvl]).
Proof.
  intros Hle Hv. eexists.
  split; [by apply add_referral_without_bonus|]. simpl.
  split; [by apply insert_or_ignore_referral_valid|]. split; [done|].
  unfold insert_or_ignore_referral.
  destruct (_ || _); [by left | by right].
Qed.

Lemma add_referral_keeps_the_table_valid_witness :
  ∃ d1 : DB,
    add_referral 7 9 0 1 Free sample_db = Returned d1 tt
    ∧ referrals_valid (referrals d1)
    ∧ users d1 = users sample_db
    ∧ (referrals d1 = referrals sample_db
       ∨ referrals d1 = referrals sample_db ++ [mkReferral 7 9 0 1]).
Proof.
  apply (add_referral_keeps_the_table_valid 7 9 0 1 sample_db).
  - discriminate.
  - split; [apply NoDup_nil_2 | apply Forall_nil_2].
Defined.

(** Recording a new pair without a bonus, once or twice, raises the
    referrer's count of [get_referrals_count] by exactly one. *)
Theorem add_referral_counts_a_pair_once (referrer referred bonus_amount lvl : Z)
    (d : DB) :
  bonus_amount <= 0 → 1 <= lvl →
  existsb (same_pair (mkReferral referrer referred bonus_amount lvl)) (referrals d) = false →
  ∃ (n : Z) (d2 : DB),
    get_referrals_count referrer Free d = Returned d n
    ∧ bind (add_referral referrer referred bonus_amount lvl Free d)
           (fun d1 _ => get_referrals_count referrer Free d1)
      = Returned d2 (n + 1)
    ∧ bind (add_referral referrer referred bonus_amount lvl Free d)
           (fun d1 _ =>
              bind (add_referral referrer referred bonus_amount lvl Free d1)
                   (fun d2 _ => get_referrals_count referrer Free d2))
      = Returned d2 (n + 1).
Proof.
  intros Hle Hlvl Hnew.
  assert (Hins : insert_or_ignore_referral (mkReferral referrer referred bonus_amount lvl)
                   (referrals d)
                 = referrals d ++ [mkReferral referrer referred bonus_amount lvl]).
  { unfold insert_or_ignore_referral. rewrite Hnew. simpl.
    by rewrite (proj2 (Z.ltb_ge _ _) Hlvl). }
  eexists _, (with_referrals
                (referrals d ++ [mkReferral referrer referred bonus_amount lvl]) d).
  split; [done|].
  rewrite (add_referral_without_bonus _ _ _ _ d Hle). cbn [bind].
  rewrite add_referral_without_bonus by done. cbn [bind].
  unfold get_referrals_count, get_connection, with_referrals. simpl.
  rewrite insert_or_ignore_referral_again, Hins.
  assert (Hcount :
    Z.of_nat (length (List.filter (fun r => bool_decide (referrer_id r = referrer))
                (referrals d ++ [mkReferral referrer referred bonus_amount lvl])))
    = Z.of_nat (length (List.filter (fun r => bool_decide (referrer_id r = referrer))
                (referrals d))) + 1).
  { rewrite List.filter_app, length_app. simpl.
    rewrite bool_decide_eq_true_2 by done. simpl. lia. }
  by rewrite Hcount.
Qed.

Lemma add_referral_counts_a_pair_once_witness :
  ∃ (n : Z) (d2 : DB),
    get_referrals_count 7 Free sample_db = Returned sample_db n
    ∧ bind (add_referral 7 9 0 1 Free sample_db)
           (fun d1 _ => get_referrals_count 7 Free d1)
      = Returned d2 (n + 1)
    ∧ bind (add_referral 7 9 0 1 Free sample_db)
           (fun d1 _ =>
              bind (add_referral 7 9 0 1 Free d1)
                   (fun d2 _ => get_referrals_count 7 Free d2))
      = Returned d2 (n + 1).
Proof.
  apply (add_referral_counts_a_pair_once 7 9 0 1 sample_db).
  - discriminate.
  - discriminate.
  - reflexivity.
Defined.

(** ** Card numbers, phone numbers and message texts *)

Lemma digits_then_end_spec (n : nat) (s : list ascii) :
  digits_then_end n s = true
  ↔ ∃ digits : list ascii,
      length digits = n ∧ forallb is_digit digits = true
      ∧ (s = digits ∨ s = digits ++ ["010"%char]).
Proof.
  unfold digits_then_end. rewrite !andb_true_iff, Nat.eqb_eq. split.
  - intros [[Hlen Hdig] Hend]. exists (firstn n s). split; [done|]. split; [done|].
    rewrite <- (firstn_skipn n s) at 1 3.
    destruct (skipn n s) as [|c [|c' rest]]; [|..|done].
    + left. by rewrite app_nil_r.
    + right. apply Ascii.eqb_eq in Hend. by subst c.
  - intros [digits [Hlen [Hdig [-> | ->]]]].
    + rewrite firstn_all2 by lia. rewrite skipn_all2 by lia. done.
    + rewrite firstn_app, skipn_app, Hlen, Nat.sub_diag. simpl.
      rewrite app_nil_r. rewrite firstn_all2 by lia. rewrite skipn_all2 by lia.
      done.
Qed.

(** What the two validators accept.  Spaces are dropped first, wherever
    they are.  A card number is then accepted exactly when what is left is
    16 digits, and a phone number exactly when it is +998 and 9 digits; in
    both cases one newline may follow the last digit. *)
Theorem validators_accept (text : string) :
  (payments.validate_card_number text = true
   ↔ ∃ digits : list ascii,
       length digits = 16%nat ∧ forallb is_digit digits = true
       ∧ (remove_spaces (list_ascii_of_string text) = digits
          ∨ remove_spaces (list_ascii_of_string text) = digits ++ ["010"%char]))
  ∧ (payments.validate_phone_number text = true
     ↔ ∃ digits : list ascii,
         length digits = 9%nat ∧ forallb is_digit digits = true
         ∧ (remove_spaces (list_ascii_of_string text)
              = list_ascii_of_string "+998" ++ digits
            ∨ remove_spaces (list_ascii_of_string text)
              = list_ascii_of_string "+998" ++ digits ++ ["010"%char])).
Proof.
  split.
  - unfold payments.validate_card_number. apply digits_then_end_spec.
  - unfold payments.validate_phone_number.
    set (cleaned := remove_spaces (list_ascii_of_string text)).
    split.
    + intros Hv.
      destruct cleaned as [|c1 [|c2 [|c3 [|c4 rest]]]]; try done;
        try (by destruct c1 as [[] [] [] [] [] [] [] []]).
      * destruct c1 as [[] [] [] [] [] [] [] []]; try done.
        all: by destruct c2 as [[] [] [] [] [] [] [] []].
      * destruct c1 as [[] [] [] [] [] [] [] []]; try done.
        all: destruct c2 as [[] [] [] [] [] [] [] []]; try done.
        all: by destruct c3 as [[] [] [] [] [] [] [] []].
      * destruct c1 as [[] [] [] [] [] [] [] []]; try done.
        destruct c2 as [[] [] [] [] [] [] [] []]; try done.
        destruct c3 as [[] [] [] [] [] [] [] []]; try done.
        destruct c4 as [[] [] [] [] [] [] [] []]; try done.
        apply digits_then_end_spec in Hv as [digits [Hlen [Hdig Hrest]]].
        exists digits. split; [done|]. split; [done|].
        destruct Hrest as [-> | ->]; [by left | by right].
    + intros [digits [Hlen [Hdig [-> | ->]]]]; simpl;
        apply digits_then_end_spec; exists digits; auto.
Qed.

Lemma list_ascii_of_string_append (a b : string) :
  list_ascii_of_string (String.append a b)
  = list_ascii_of_string a ++ list_ascii_of_string b.
Proof.
  induction a as [|c a IH]; [done|].
  change (String.append (String c a) b) with (String c (String.append a b)).
  simpl. by rewrite IH.
Qed.

(** [mask_card_number] shows the fixed prefix and then nothing but the last
    four characters of the number without its spaces (all of them when
    there are fewer than four). *)
Theorem mask_card_number_shows_the_tail (card_number : string) :
  ∃ hidden shown : list ascii,
    remove_spaces (list_ascii_of_string card_number) = hidden ++ shown
    ∧ length shown
      = Nat.min 4 (length (remove_spaces (list_ascii_of_string card_number)))
    ∧ list_ascii_of_string (payments.mask_card_number card_number)
      = list_ascii_of_string "**** **** **** " ++ shown.
Proof.
  set (cleaned := remove_spaces (list_ascii_of_string card_number)).
  exists (firstn (length cleaned - 4) cleaned), (last_chars 4 cleaned).
  split; [unfold last_chars; by rewrite firstn_skipn|]. split.
  - unfold last_chars. rewrite length_skipn. lia.
  - unfold payments.mask_card_number. fold cleaned.
    by rewrite list_ascii_of_string_append, list_ascii_of_string_of_list_ascii.
Qed.

Lemma lstrip_head (s : list ascii) :
  lstrip s = [] ∨ ∃ c rest, lstrip s = c :: rest ∧ is_space c = false.
Proof.
  induction s as [|c s IH]; [by left|]. simpl.
  destruct (is_space c) eqn:Hc; [done|]. right. by exists c, s.
Qed.

Lemma strip_last (s : list ascii) :
  strip s = [] ∨ ∃ front c, strip s = front ++ [c] ∧ is_space c = false.
Proof.
  unfold strip. destruct (lstrip_head (rev (lstrip s))) as [-> | [c [rest [-> Hc]]]].
  - by left.
  - right. exists (rev rest), c. by split.
Qed.

Lemma remove_spaces_strip_no_newline (s digits : list ascii) :
  remove_spaces (strip s) ≠ digits ++ ["010"%char].
Proof.
  intros Heq. destruct (strip_last s) as [Hnil | [front [c [Hs Hc]]]].
  - rewrite Hnil in Heq. simpl in Heq. by destruct digits.
  - rewrite Hs in Heq. unfold remove_spaces in Heq.
    rewrite List.filter_app in Heq. simpl in Heq.
    destruct (Ascii.eqb c " ") eqn:Hsp.
    { apply Ascii.eqb_eq in Hsp. by subst c. }
    simpl in Heq. apply app_inj_tail in Heq as [_ ->]. done.
Qed.

Lemma remove_occurrences_length (pattern s : list ascii) :
  ∀ skip : nat, (length (remove_occurrences pattern s skip) <= length s)%nat.
Proof.
  induction s as [|c s IH]; intros skip; simpl; [lia|].
  destruct skip as [|k].
  - destruct (bool_decide _); simpl.
    + specialize (IH (length pattern - 1)%nat). lia.
    + specialize (IH 0%nat). lia.
  - specialize (IH k). lia.
Qed.

Lemma lstrip_length (s : list ascii) : (length (lstrip s) <= length s)%nat.
Proof.
  induction s as [|c s IH]; simpl; [lia|]. destruct (is_space c); simpl; lia.
Qed.

Lemma strip_length (s : list ascii) : (length (strip s) <= length s)%nat.
Proof.
  unfold strip. rewrite length_rev.
  pose proof (lstrip_length (rev (lstrip s))) as H1.
  rewrite length_rev in H1. pose proof (lstrip_length s). lia.
Qed.

(** A sanitized text is never longer than 4096 characters and never longer
    than the text it was made from. *)
Theorem sanitize_text_is_short (text : string) :
  (length (list_ascii_of_string (helpers._sanitize_text text)) <= 4096)%nat
  ∧ (length (list_ascii_of_string (helpers._sanitize_text text))
     <= length (list_ascii_of_string text))%nat.
Proof.
  unfold helpers._sanitize_text. destruct text as [|c text]; [simpl; lia|].
  rewrite list_ascii_of_string_of_list_ascii.
  set (s := list_ascii_of_string (String c text)).
  pose proof (remove_occurrences_length (list_ascii_of_string "</script>")
    (remove_occurrences (list_ascii_of_string "<script>")
       (firstn helpers.MAX_MESSAGE_LENGTH (strip s)) 0) 0) as H1.
  pose proof (remove_occurrences_length (list_ascii_of_string "<script>")
    (firstn helpers.MAX_MESSAGE_LENGTH (strip s)) 0) as H2.
  pose proof (length_firstn helpers.MAX_MESSAGE_LENGTH (strip s)) as H3.
  pose proof (strip_length s) as H4.
  unfold helpers.MAX_MESSAGE_LENGTH in *. lia.
Qed.

(** ** The rejection button of payments.py *)

(** [reject_withdraw] never changes the database: for an id that no request
    has it answers "not found" and leaves everything as it was, and for an
    existing request the call does not return (it waits, inside
    [set_withdraw_status], for the connection lock it holds). *)
Theorem reject_withdraw_changes_nothing (wid : Z) (d : DB) :
  match withdraw_requests d !! wid with
  | None => payments.reject_withdraw wid d = Returned d NotFound
  | Some _ => payments.reject_withdraw wid d = Blocked
  end.
Proof.
  destruct (withdraw_requests d !! wid) as [r|] eqn:Hr.
  - unfold payments.reject_withdraw.
    by rewrite (set_withdraw_status_rejected_blocked _ _ r).
  - unfold payments.reject_withdraw, set_withdraw_status, get_connection. rewrite Hr.
    unfold update_withdraw_requests_status. rewrite alter_id' by done.
    rewrite with_withdraw_requests_same. cbn [bind].
    unfold get_pending_withdraws, get_connection. cbn [bind].
    rewrite row_with_id_pending, Hr. done.
Qed.

(** * The ledger in binary64 *)

(** ** Comparisons of binary64 numbers *)

Lemma SFcompare_refl (x : spec_float) : x ≠ S754_nan → SFcompare x x = Some Eq.
Proof.
  destruct x as [s|s| |s m e]; intros Hx; try done; simpl.
  - by destruct s.
  - rewrite Z.compare_refl, Pos.compare_cont_refl. by destruct s.
Qed.

Lemma SFcompare_None (x y : spec_float) :
  SFcompare x y = None ↔ x = S754_nan ∨ y = S754_nan.
Proof.
  split.
  - destruct x, y; simpl; intros H; try done; auto.
  - intros [-> | ->]; [done|]. by destruct x.
Qed.

Lemma SFcompare_antisym (x y : spec_float) (c : comparison) :
  SFcompare x y = Some c → SFcompare y x = Some (CompOpp c).
Proof.
  destruct x as [sx|sx| |sx mx ex], y as [sy|sy| |sy my ey]; simpl; intros [= <-];
    try done; try (by destruct sx); try (by destruct sy);
    try (by destruct sx, sy).
  f_equal. rewrite (Z.compare_antisym ex ey).
  change (PosDef.Pos.compare_cont Eq my mx) with (Pos.compare_cont (CompOpp Eq) my mx).
  rewrite <- (Pos.compare_cont_antisym mx my Eq).
  change (PosDef.Pos.compare_cont Eq mx my) with (Pos.compare_cont Eq mx my).
  destruct sx, sy, (ex ?= ey), (Pos.compare_cont Eq mx my); done.
Qed.

Lemma is_nan_Prim2SF (x : float) : is_nan x = true ↔ Prim2SF x = S754_nan.
Proof.
  unfold is_nan. rewrite FloatAxioms.eqb_spec. unfold SFeqb. split.
  - intros H. destruct (Prim2SF x) eqn:E; try done; exfalso;
      rewrite SFcompare_refl in H by done; done.
  - by intros ->.
Qed.

Lemma is_nan_false_Prim2SF (x : float) : is_nan x = false ↔ Prim2SF x ≠ S754_nan.
Proof. rewrite <- is_nan_Prim2SF. by destruct (is_nan x). Qed.

(** Whatever is below or above something is a number. *)
Lemma ltb_true_not_nan (x y : float) :
  (x <? y)%float = true → is_nan x = false ∧ is_nan y = false.
Proof.
  rewrite ltb_spec, !is_nan_false_Prim2SF. unfold SFltb.
  destruct (SFcompare _ _) as [c|] eqn:Hc; [|done]. intros _.
  split; intros Hn; rewrite Hn in Hc; [done|].
  by destruct (Prim2SF x).
Qed.

Lemma ltb_true_leb (x y : float) : (x <? y)%float = true → (x <=? y)%float = true.
Proof.
  rewrite ltb_spec, leb_spec. unfold SFltb, SFleb.
  by destruct (SFcompare _ _) as [[]|].
Qed.

(** Numbers are totally ordered. *)
Lemma ltb_false_leb (x y : float) :
  is_nan x = false → is_nan y = false →
  (x <? y)%float = false → (y <=? x)%float = true.
Proof.
  rewrite ltb_spec, leb_spec, !is_nan_false_Prim2SF. unfold SFltb, SFleb.
  intros Hx Hy. destruct (SFcompare (Prim2SF x) (Prim2SF y)) as [c|] eqn:Hc.
  - rewrite (SFcompare_antisym _ _ _ Hc). by destruct c.
  - apply SFcompare_None in Hc as [Hc | Hc]; done.
Qed.

Lemma leb_false_ltb (x y : float) :
  is_nan x = false → is_nan y = false →
  (x <=? y)%float = false → (y <? x)%float = true.
Proof.
  rewrite ltb_spec, leb_spec, !is_nan_false_Prim2SF. unfold SFltb, SFleb.
  intros Hx Hy. destruct (SFcompare (Prim2SF x) (Prim2SF y)) as [c|] eqn:Hc.
  - rewrite (SFcompare_antisym _ _ _ Hc). by destruct c.
  - apply SFcompare_None in Hc as [Hc | Hc]; done.
Qed.

(** Every comparison with what is not a number is false. *)
Lemma ltb_nan_r (x y : float) : is_nan y = true → (x <? y)%float = false.
Proof.
  rewrite ltb_spec, is_nan_Prim2SF. intros ->. unfold SFltb.
  by destruct (Prim2SF x).
Qed.

Lemma ltb_nan_l (x y : float) : is_nan x = true → (x <? y)%float = false.
Proof. rewrite ltb_spec, is_nan_Prim2SF. by intros ->. Qed.

Lemma leb_nan_l (x y : float) : is_nan x = true → (x <=? y)%float = false.
Proof. rewrite leb_spec, is_nan_Prim2SF. by intros ->. Qed.


(** [max(0.0, x)] is a number, and it is not negative. *)
Lemma py_max_0_not_nan (x : float) : is_nan (binary64.py_max 0 x) = false.
Proof.
  unfold binary64.py_max. destruct (0 <? x)%float eqn:H; [|done].
  by apply ltb_true_not_nan in H as [_ H].
Qed.

Lemma py_max_0_nonneg (x : float) : (0 <=? binary64.py_max 0 x)%float = true.
Proof.
  unfold binary64.py_max. destruct (0 <? x)%float eqn:H; [|done].
  by apply ltb_true_leb.
Qed.

Lemma real_or_null_number (x : float) :
  is_nan x = false → binary64.real_or_null x = Some x.
Proof. unfold binary64.real_or_null. by intros ->. Qed.



(** ** Whole numbers in binary64

    A whole number below 2^53 has at most 53 binary digits, so it is a
    binary64 number; the sum and the difference of two such numbers, when
    they are again below 2^53, are computed without rounding, and the
    order of the numbers is the order of the floats. *)

Lemma digits2_pos_size (p : positive) : digits2_pos p = Pos.size p.
Proof. induction p as [p IH|p IH|]; simpl; by rewrite ?IH. Qed.

Lemma digits2_pos_bounds (p : positive) :
  2 ^ (Z.pos (digits2_pos p) - 1) <= Z.pos p < 2 ^ Z.pos (digits2_pos p).
Proof.
  rewrite digits2_pos_size. split.
  - pose proof (Pos.size_le p) as H.
    assert (H2 : (2 ^ Z.pos (Pos.size p) <= 2 * Z.pos p)).
    { rewrite <- Pos2Z.inj_pow. change (2 * Z.pos p) with (Z.pos (2 * p)).
      by apply Pos2Z.pos_le_pos. }
    replace (Z.pos (Pos.size p)) with (Z.succ (Z.pos (Pos.size p) - 1)) in H2 by lia.
    rewrite Z.pow_succ_r in H2 by lia. lia.
  - pose proof (Pos.size_gt p) as H.
    rewrite <- Pos2Z.inj_pow. by apply Pos2Z.pos_lt_pos.
Qed.

Lemma digits2_pos_unique (p : positive) (d : Z) :
  2 ^ (d - 1) <= Z.pos p < 2 ^ d → Z.pos (digits2_pos p) = d.
Proof.
  intros [Hlo Hhi]. pose proof (digits2_pos_bounds p) as [Hlo' Hhi'].
  assert (Hd : 0 < d).
  { destruct (Z.lt_ge_cases 0 d) as [|Hle]; [done|].
    assert (2 ^ d <= 1); [|lia].
    destruct (Z.eq_dec d 0) as [->|]; [done|]. rewrite Z.pow_neg_r by lia. lia. }
  destruct (Z.lt_trichotomy (Z.pos (digits2_pos p)) d) as [Hlt | [Heq | Hgt]]; [|done|].
  - assert (2 ^ Z.pos (digits2_pos p) <= 2 ^ (d - 1)) by (apply Z.pow_le_mono_r; lia). lia.
  - assert (2 ^ d <= 2 ^ (Z.pos (digits2_pos p) - 1)) by (apply Z.pow_le_mono_r; lia). lia.
Qed.

Lemma Pos_iter_xO (p d : positive) : Z.pos (Pos.iter xO p d) = Z.pos p * 2 ^ Z.pos d.
Proof.
  induction d as [|d IH] using Pos.peano_ind.
  - simpl. lia.
  - rewrite Pos.iter_succ, Pos2Z.inj_xO, IH, Pos2Z.inj_succ, Z.pow_succ_r by lia. lia.
Qed.

Lemma nat_iter_comm {A : Type} (f : A → A) (n : nat) (x : A) :
  Nat.iter n f (f x) = f (Nat.iter n f x).
Proof. induction n as [|n IH]; simpl; [done|by rewrite IH]. Qed.

Lemma nat_iter_plus {A : Type} (f : A → A) (n m : nat) (x : A) :
  Nat.iter (n + m) f x = Nat.iter n f (Nat.iter m f x).
Proof. induction n as [|n IH]; simpl; [done|by rewrite IH]. Qed.

Lemma iter_pos_nat {A : Type} (f : A → A) (p : positive) :
  ∀ x : A, SpecFloat.iter_pos f p x = Nat.iter (Pos.to_nat p) f x.
Proof.
  induction p as [p IH|p IH|]; intros x; cbn [SpecFloat.iter_pos].
  - rewrite !IH, Pos2Nat.inj_xI.
    replace (S (2 * Pos.to_nat p)) with (Pos.to_nat p + (Pos.to_nat p + 1))%nat by lia.
    rewrite !nat_iter_plus. simpl. done.
  - rewrite !IH, Pos2Nat.inj_xO.
    replace (2 * Pos.to_nat p)%nat with (Pos.to_nat p + Pos.to_nat p)%nat by lia.
    by rewrite nat_iter_plus.
  - done.
Qed.

Lemma shr_1_exact_nat (k : nat) (m : positive) :
  Nat.iter k shr_1 (Build_shr_record (Z.pos (Nat.iter k xO m)) false false)
  = Build_shr_record (Z.pos m) false false.
Proof.
  induction k as [|k IH]; [done|].
  change (Nat.iter (S k) shr_1 ?x) with (shr_1 (Nat.iter k shr_1 x)).
  rewrite <- nat_iter_comm. cbn [Nat.iter shr_1 orb]. apply IH.
Qed.

Lemma nat_iter_xO (k : nat) (m : positive) :
  Z.pos (Nat.iter k xO m) = Z.pos m * 2 ^ Z.of_nat k.
Proof.
  induction k as [|k IH]; [simpl; lia|].
  change (Nat.iter (S k) xO m) with (xO (Nat.iter k xO m)).
  rewrite Pos2Z.inj_xO, IH, Nat2Z.inj_succ, Z.pow_succ_r by lia. lia.
Qed.

(** Shifting out zeros is exact. *)
Lemma shr_exact (m q k : positive) (e : Z) :
  Z.pos q = Z.pos m * 2 ^ Z.pos k →
  shr (Build_shr_record (Z.pos q) false false) e (Z.pos k)
  = (Build_shr_record (Z.pos m) false false, e + Z.pos k).
Proof.
  intros Hq. unfold shr. f_equal. rewrite iter_pos_nat.
  assert (Hq' : q = Nat.iter (Pos.to_nat k) xO m).
  { apply Pos2Z.inj. rewrite nat_iter_xO, positive_nat_Z. done. }
  rewrite Hq'. apply shr_1_exact_nat.
Qed.

Lemma fexp_normal (x : Z) : -1021 <= x → fexp prec emax x = x - 53.
Proof.
  intros Hx. unfold fexp.
  change (SpecFloat.emin prec emax) with (-1074). change prec with 53. lia.
Qed.

(** A mantissa of 53 digits is kept as it is. *)
Lemma binary_round_aux_53 (m : positive) (e : Z) :
  Z.pos (digits2_pos m) = 53 → -1074 <= e <= 971 →
  binary_round_aux prec emax false (Z.pos m) e loc_Exact = S754_finite false m e.
Proof.
  intros Hm He. unfold binary_round_aux, shr_fexp.
  cbn [Zdigits2 shr_record_of_loc]. rewrite Hm, fexp_normal by lia.
  replace (53 + e - 53 - e) with 0 by lia. cbn [shr shr_m loc_of_shr_record round_nearest_even].
  cbn [Zdigits2 shr_record_of_loc]. rewrite Hm, fexp_normal by lia.
  replace (53 + e - 53 - e) with 0 by lia. cbn [shr shr_m].
  change (emax - prec) with 971.
  by rewrite (proj2 (Z.leb_le e 971)) by lia.
Qed.

Lemma digits_below_2_53 (p : positive) :
  Z.pos p < 2 ^ 53 → 1 <= Z.pos (digits2_pos p) <= 53.
Proof.
  intros Hp. pose proof (digits2_pos_bounds p) as [Hlo _]. split; [lia|].
  destruct (Z.le_gt_cases (Z.pos (digits2_pos p)) 53) as [|Hgt]; [done|].
  assert (2 ^ 53 <= 2 ^ (Z.pos (digits2_pos p) - 1)) by (apply Z.pow_le_mono_r; lia). lia.
Qed.

Lemma digits_shifted (p q : positive) (j : Z) :
  0 <= j → Z.pos q = Z.pos p * 2 ^ j →
  Z.pos (digits2_pos q) = Z.pos (digits2_pos p) + j.
Proof.
  intros Hj Hq. apply digits2_pos_unique. rewrite Hq.
  pose proof (digits2_pos_bounds p) as [Hlo Hhi].
  replace (Z.pos (digits2_pos p) + j - 1) with (Z.pos (digits2_pos p) - 1 + j) by lia.
  rewrite !Z.pow_add_r by lia.
  assert (0 < 2 ^ j) by (apply Z.pow_pos_nonneg; lia). nia.
Qed.

(** Rounding a whole number below 2^53, however it is written as a
    mantissa and an exponent, gives that number. *)
Lemma binary_round_whole (p q : positive) (j : Z) :
  0 <= j → Z.pos p < 2 ^ 53 → Z.pos q = Z.pos p * 2 ^ j →
  binary_round prec emax false q (- j) = binary64.canon (Z.pos p).
Proof.
  intros Hj Hp Hq. pose proof (digits_below_2_53 p Hp) as Hdg.
  pose proof (digits_shifted p q j Hj Hq) as Hdq.
  set (dg := Z.pos (digits2_pos p)) in *.
  set (m := Z.to_pos (Z.pos p * 2 ^ (53 - dg))).
  assert (H2s : 0 < 2 ^ (53 - dg)) by (apply Z.pow_pos_nonneg; lia).
  assert (Hm : Z.pos m = Z.pos p * 2 ^ (53 - dg)) by (unfold m; rewrite Z2Pos.id; lia).
  assert (Hdm : Z.pos (digits2_pos m) = 53).
  { rewrite (digits_shifted p m (53 - dg)) by (done || lia). fold dg. lia. }
  unfold binary64.canon. fold dg. fold m.
  unfold binary_round. rewrite Hdq, fexp_normal by lia. unfold shl_align.
  replace (dg + j + - j - 53 - - j) with (j - (53 - dg)) by lia.
  destruct (j - (53 - dg)) as [|d|d] eqn:Hd.
  - assert (q = m) as -> by (apply Pos2Z.inj; rewrite Hq, Hm; f_equal; f_equal; lia).
    replace (- j) with (dg - 53) by lia. apply binary_round_aux_53; [done|lia].
  - unfold binary_round_aux, shr_fexp. cbn [Zdigits2 shr_record_of_loc].
    rewrite Hdq, fexp_normal by lia.
    replace (dg + j + - j - 53 - - j) with (Z.pos d) by lia.
    rewrite (shr_exact m q d).
    2:{ rewrite Hq, Hm. rewrite <- Z.mul_assoc, <- Z.pow_add_r by lia. do 2 f_equal. lia. }
    cbn [shr_m loc_of_shr_record round_nearest_even].
    cbn [Zdigits2 shr_record_of_loc]. rewrite Hdm, fexp_normal by lia.
    replace (53 + (- j + Z.pos d) - 53 - (- j + Z.pos d)) with 0 by lia.
    cbn [shr shr_m]. change (emax - prec) with 971.
    rewrite (proj2 (Z.leb_le (- j + Z.pos d) 971)) by lia.
    f_equal. lia.
  - assert (Pos.iter xO q d = m) as ->.
    { apply Pos2Z.inj. rewrite Pos_iter_xO, Hq, Hm.
      rewrite <- Z.mul_assoc, <- Z.pow_add_r by lia. do 2 f_equal. lia. }
    replace (dg + j + - j - 53) with (dg - 53) by lia.
    apply binary_round_aux_53; [done|lia].
Qed.

Lemma binary_normalize_whole (n : Z) :
  0 <= n < 2 ^ 53 → binary_normalize prec emax n 0 false = binary64.canon n.
Proof.
  intros [Hlo Hhi]. destruct n as [|p|p]; [done| |lia].
  unfold binary_normalize. apply (binary_round_whole p p 0); [lia|done|lia].
Qed.

Lemma canon_valid (n : Z) : 0 <= n < 2 ^ 53 → valid_binary (binary64.canon n) = true.
Proof.
  intros [Hlo Hhi]. destruct n as [|p|p]; [done| |lia].
  pose proof (digits_below_2_53 p Hhi) as Hdg.
  unfold binary64.canon, SpecFloat.valid_binary, bounded, canonical_mantissa.
  assert (H2s : 0 < 2 ^ (53 - Z.pos (digits2_pos p))) by (apply Z.pow_pos_nonneg; lia).
  rewrite (digits_shifted p _ (53 - Z.pos (digits2_pos p))); [|lia|rewrite Z2Pos.id; lia].
  rewrite fexp_normal by lia. change (emax - prec) with 971.
  apply andb_true_iff. split; [apply Z.eqb_eq; lia|apply Z.leb_le; lia].
Qed.

Lemma Prim2SF_of_Z (n : Z) : 0 <= n < 2 ^ 53 → Prim2SF (binary64.of_Z n) = binary64.canon n.
Proof.
  intros Hn. unfold binary64.of_Z. rewrite binary_normalize_whole by done.
  apply Prim2SF_SF2Prim. by apply canon_valid.
Qed.

Lemma shl_align_value (m : positive) (e e' : Z) :
  e' <= e → Z.pos (shl_align m e e').1 = Z.pos m * 2 ^ (e - e').
Proof.
  intros He. unfold shl_align. destruct (e' - e) as [|d|d] eqn:Hd; simpl.
  - replace (e - e') with 0 by lia. lia.
  - lia.
  - rewrite Pos_iter_xO. do 2 f_equal. lia.
Qed.

(** The mantissa of a whole number, scaled to an exponent that is not
    above its own, is the number scaled. *)
Lemma canon_aligned (p : positive) (ez : Z) :
  Z.pos p < 2 ^ 53 → ez <= Z.pos (digits2_pos p) - 53 →
  Z.pos (shl_align (Z.to_pos (Z.pos p * 2 ^ (53 - Z.pos (digits2_pos p))))
           (Z.pos (digits2_pos p) - 53) ez).1
  = Z.pos p * 2 ^ (- ez).
Proof.
  intros Hp Hez. pose proof (digits_below_2_53 p Hp) as Hdg.
  assert (H2s : 0 < 2 ^ (53 - Z.pos (digits2_pos p))) by (apply Z.pow_pos_nonneg; lia).
  rewrite shl_align_value by done. rewrite Z2Pos.id by lia.
  rewrite <- Z.mul_assoc, <- Z.pow_add_r by lia. do 2 f_equal. lia.
Qed.

Lemma canon_add (x y : Z) :
  0 <= x → 0 <= y → x + y < 2 ^ 53 →
  SFadd prec emax (binary64.canon x) (binary64.canon y) = binary64.canon (x + y).
Proof.
  intros Hx Hy Hxy.
  destruct x as [|p|p]; [|destruct y as [|q|q]|]; try lia.
  - destruct y as [|q|q]; [done|done|lia].
  - by rewrite Z.add_0_r.
  - assert (Hp : Z.pos p < 2 ^ 53) by lia. assert (Hq : Z.pos q < 2 ^ 53) by lia.
    pose proof (digits_below_2_53 p Hp) as Hdp.
    pose proof (digits_below_2_53 q Hq) as Hdq.
    cbn [binary64.canon SFadd cond_Zopp].
    set (ez := Z.min (Z.pos (digits2_pos p) - 53) (Z.pos (digits2_pos q) - 53)).
    rewrite (canon_aligned p ez), (canon_aligned q ez) by (done || lia).
    assert (H2 : 0 < 2 ^ (- ez)) by (apply Z.pow_pos_nonneg; lia).
    assert (Hpos : 0 < Z.pos (p + q) * 2 ^ (- ez)) by (apply Z.mul_pos_pos; lia).
    replace (Z.pos p * 2 ^ (- ez) + Z.pos q * 2 ^ (- ez))
      with (Z.pos (Z.to_pos (Z.pos (p + q) * 2 ^ (- ez)))).
    2:{ rewrite Z2Pos.id by done. rewrite Pos2Z.inj_add. ring. }
    cbn [binary_normalize]. rewrite <- (Z.opp_involutive ez) at 2.
    apply (binary_round_whole (p + q)); [lia|done|].
    by rewrite Z2Pos.id.
Qed.

Lemma canon_sub (x y : Z) :
  0 <= y → y <= x → x < 2 ^ 53 →
  SFsub prec emax (binary64.canon x) (binary64.canon y) = binary64.canon (x - y).
Proof.
  intros Hy Hyx Hx.
  destruct x as [|p|p]; [|destruct y as [|q|q]|]; try lia.
  - destruct y as [|q|q]; [done|lia|lia].
  - by rewrite Z.sub_0_r.
  - assert (Hp : Z.pos p < 2 ^ 53) by lia. assert (Hq : Z.pos q < 2 ^ 53) by lia.
    pose proof (digits_below_2_53 p Hp) as Hdp.
    pose proof (digits_below_2_53 q Hq) as Hdq.
    cbn [binary64.canon SFsub cond_Zopp].
    set (ez := Z.min (Z.pos (digits2_pos p) - 53) (Z.pos (digits2_pos q) - 53)).
    rewrite (canon_aligned p ez), (canon_aligned q ez) by (done || lia).
    assert (H2 : 0 < 2 ^ (- ez)) by (apply Z.pow_pos_nonneg; lia).
    destruct (Z.eq_dec (Z.pos p) (Z.pos q)) as [Heq | Hne].
    + rewrite Heq, !Z.sub_diag. done.
    + assert (Hlt : Z.pos q < Z.pos p) by lia.
      destruct (Z.pos p - Z.pos q) as [|r|r] eqn:Hr; try lia.
      assert (Hpos : 0 < Z.pos r * 2 ^ (- ez)) by (apply Z.mul_pos_pos; lia).
      replace (Z.pos p * 2 ^ (- ez) - Z.pos q * 2 ^ (- ez))
        with (Z.pos (Z.to_pos (Z.pos r * 2 ^ (- ez)))).
      2:{ rewrite Z2Pos.id by done. rewrite <- Hr. ring. }
      cbn [binary_normalize]. rewrite <- (Z.opp_involutive ez) at 2.
      apply (binary_round_whole r); [lia|lia|].
      by rewrite Z2Pos.id.
Qed.

Lemma canon_compare (x y : Z) :
  0 <= x < 2 ^ 53 → 0 <= y < 2 ^ 53 →
  SFcompare (binary64.canon x) (binary64.canon y) = Some (x ?= y).
Proof.
  intros [Hx0 Hx] [Hy0 Hy].
  destruct x as [|p|p]; [|destruct y as [|q|q]|]; try lia.
  - destruct y as [|q|q]; [done|done|lia].
  - done.
  - pose proof (digits_below_2_53 p Hx) as Hdp.
    pose proof (digits_below_2_53 q Hy) as Hdq.
    pose proof (digits2_pos_bounds p) as [Hplo Hphi].
    pose proof (digits2_pos_bounds q) as [Hqlo Hqhi].
    cbn [binary64.canon SFcompare]. f_equal.
    destruct (Z.compare_spec (Z.pos (digits2_pos p) - 53) (Z.pos (digits2_pos q) - 53))
      as [Heq | Hlt | Hgt].
    + assert (Hd : Z.pos (digits2_pos p) = Z.pos (digits2_pos q)) by lia.
      rewrite Hd.
      assert (H2s : 0 < 2 ^ (53 - Z.pos (digits2_pos q))) by (apply Z.pow_pos_nonneg; lia).
      change (PosDef.Pos.compare_cont Eq ?a ?b) with ((a ?= b)%positive).
      rewrite <- Z2Pos.inj_compare by (apply Z.mul_pos_pos; lia).
      destruct (Z.compare_spec (Z.pos p) (Z.pos q)) as [Hc | Hc | Hc].
      * by rewrite Hc, Z.compare_refl.
      * apply Z.compare_lt_iff. by apply Z.mul_lt_mono_pos_r.
      * apply Z.compare_gt_iff. by apply Z.mul_lt_mono_pos_r.
    + symmetry. apply Z.compare_lt_iff.
      assert (2 ^ Z.pos (digits2_pos p) <= 2 ^ (Z.pos (digits2_pos q) - 1))
        by (apply Z.pow_le_mono_r; lia). lia.
    + symmetry. apply Z.compare_gt_iff.
      assert (2 ^ Z.pos (digits2_pos q) <= 2 ^ (Z.pos (digits2_pos p) - 1))
        by (apply Z.pow_le_mono_r; lia). lia.
Qed.

Lemma of_Z_add (x y : Z) :
  0 <= x → 0 <= y → x + y < 2 ^ 53 →
  (binary64.of_Z x + binary64.of_Z y)%float = binary64.of_Z (x + y).
Proof.
  intros Hx Hy Hxy.
  rewrite <- (SF2Prim_Prim2SF (binary64.of_Z x + binary64.of_Z y)),
    <- (SF2Prim_Prim2SF (binary64.of_Z (x + y))).
  f_equal. rewrite add_spec, !Prim2SF_of_Z by lia. by apply canon_add.
Qed.

Lemma of_Z_sub (x y : Z) :
  0 <= y → y <= x → x < 2 ^ 53 →
  (binary64.of_Z x - binary64.of_Z y)%float = binary64.of_Z (x - y).
Proof.
  intros Hy Hyx Hx.
  rewrite <- (SF2Prim_Prim2SF (binary64.of_Z x - binary64.of_Z y)),
    <- (SF2Prim_Prim2SF (binary64.of_Z (x - y))).
  f_equal. rewrite sub_spec, !Prim2SF_of_Z by lia. by apply canon_sub.
Qed.

Lemma of_Z_ltb (x y : Z) :
  0 <= x < 2 ^ 53 → 0 <= y < 2 ^ 53 →
  (binary64.of_Z x <? binary64.of_Z y)%float = (x <? y).
Proof.
  intros Hx Hy. rewrite ltb_spec, !Prim2SF_of_Z by done. unfold SFltb.
  rewrite canon_compare by done. unfold Z.ltb. by destruct (x ?= y).
Qed.

Lemma of_Z_leb (x y : Z) :
  0 <= x < 2 ^ 53 → 0 <= y < 2 ^ 53 →
  (binary64.of_Z x <=? binary64.of_Z y)%float = (x <=? y).
Proof.
  intros Hx Hy. rewrite leb_spec, !Prim2SF_of_Z by done. unfold SFleb.
  rewrite canon_compare by done. unfold Z.leb. by destruct (x ?= y).
Qed.

Lemma of_Z_not_nan (x : Z) : 0 <= x < 2 ^ 53 → is_nan (binary64.of_Z x) = false.
Proof.
  intros Hx. unfold is_nan. rewrite FloatAxioms.eqb_spec, !Prim2SF_of_Z by done.
  unfold SFeqb. rewrite canon_compare by done. by rewrite Z.compare_refl.
Qed.

Lemma of_Z_0 : binary64.of_Z 0 = 0%float.
Proof. reflexivity. Qed.

(** [max(0.0, n)] of a whole number that is not negative is that number. *)
Lemma py_max_0_of_Z (n : Z) :
  0 <= n < 2 ^ 53 → binary64.py_max 0 (binary64.of_Z n) = binary64.of_Z n.
Proof.
  intros Hn. unfold binary64.py_max.
  change 0%float with (binary64.of_Z 0). rewrite of_Z_ltb by lia.
  destruct (0 <? n) eqn:Hpos; [done|].
  apply Z.ltb_ge in Hpos. by replace n with 0 by lia.
Qed.
(** ** Rows, tables and ids *)

Lemma fits_int64_true (n : Z) : - 2 ^ 63 <= n < 2 ^ 63 → binary64.fits_int64 n = true.
Proof.
  intros [Hlo Hhi]. unfold binary64.fits_int64.
  apply andb_true_iff. split; [by apply Z.leb_le | by apply Z.ltb_lt].
Qed.



Lemma binary64_update_balance_present (user_id : Z) (x : float) (d : binary64.DB)
    (u : binary64.User) :
  binary64.users d !! user_id = Some u →
  binary64.update_balance user_id x d
  = binary64.mkDB
      (<[user_id := binary64.mkUser (binary64.username u) (binary64.phone u)
                      (binary64.referred_by u) (binary64.real_or_null x)
                      (binary64.is_blocked u)]> (binary64.users d))
      (binary64.orders d) (binary64.withdraw_requests d) (binary64.referrals d).
Proof.
  intros Hu. unfold binary64.update_balance, binary64.with_users.
  by rewrite (alter_alt_Some _ _ _ u).
Qed.

Lemma binary64_select_balance_Some (user_id : Z) (d : binary64.DB) (u : binary64.User) :
  binary64.users d !! user_id = Some u →
  binary64.select_balance user_id d = Some (binary64.balance u).
Proof. unfold binary64.select_balance. by intros ->. Qed.

(** ** update_user_balance and add_user_balance *)

Lemma binary64_update_user_balance_present (user_id : Z) (delta : float)
    (d : binary64.DB) (u : binary64.User) (b : float) :
  - 2 ^ 63 <= user_id < 2 ^ 63 →
  binary64.users d !! user_id = Some u →
  binary64.balance u = Some b →
  binary64.update_user_balance user_id delta Free d
  = binary64.Returned
      (binary64.mkDB
         (<[user_id := binary64.mkUser (binary64.username u) (binary64.phone u)
                         (binary64.referred_by u)
                         (Some (binary64.py_max 0 (b + delta)))
                         (binary64.is_blocked u)]> (binary64.users d))
         (binary64.orders d) (binary64.withdraw_requests d) (binary64.referrals d))
      tt.
Proof.
  intros Hid Hu Hb. unfold binary64.update_user_balance, binary64.get_connection.
  rewrite (fits_int64_true _ Hid). cbn [negb].
  rewrite (binary64_select_balance_Some _ _ _ Hu), Hb.
  rewrite (binary64_update_balance_present _ _ _ _ Hu).
  by rewrite (real_or_null_number _ (py_max_0_not_nan _)).
Qed.

Lemma binary64_update_user_balance_run_nonneg (user_id : Z) (deltas : list float) :
  - 2 ^ 63 <= user_id < 2 ^ 63 →
  ∀ (d : binary64.DB) (u : binary64.User) (b : float),
    binary64.users d !! user_id = Some u → binary64.balance u = Some b →
    (0 <=? b)%float = true →
    ∃ (d' : binary64.DB) (b' : float),
      binary64.update_user_balance_run user_id deltas d = binary64.Returned d' tt
      ∧ binary64.balance <$> binary64.users d' !! user_id = Some (Some b')
      ∧ (0 <=? b')%float = true.
Proof.
  intros Hid. induction deltas as [|delta rest IH]; intros d u b Hu Hb Hpos;
    cbn [binary64.update_user_balance_run].
  - exists d, b. by rewrite Hu, <- Hb.
  - rewrite (binary64_update_user_balance_present _ delta _ _ _ Hid Hu Hb).
    cbn [binary64.bind].
    eapply IH.
    + cbn [binary64.users]. apply lookup_insert_eq.
    + done.
    + apply py_max_0_nonneg.
Qed.

(** C6. For a user whose row holds a balance, [update_user_balance]
    returns normally, whatever the delta, and what it has stored in that
    row, read back from the table, is max(0.0, balance + delta) as binary64
    computes it: the sum when the sum is above 0, else 0.0.  That number is
    never below 0; nothing else in the row, no other row and no other table
    changes.  After any run of such calls (every prefix of a run is a run)
    the stored balance is not negative, provided the run is not empty or the
    balance was not negative to begin with. *)
Theorem update_user_balance_stores_the_clamped_sum (user_id : Z) (d : binary64.DB)
    (u : binary64.User) (b : float) :
  - 2 ^ 63 <= user_id < 2 ^ 63 →
  binary64.users d !! user_id = Some u →
  binary64.balance u = Some b →
  (∀ delta : float,
     ∃ d1 : binary64.DB,
       binary64.update_user_balance user_id delta Free d = binary64.Returned d1 tt
       ∧ binary64.users d1 !! user_id
         = Some (binary64.mkUser (binary64.username u) (binary64.phone u)
                   (binary64.referred_by u)
                   (Some (if (0 <? b + delta)%float then (b + delta)%float else 0%float))
                   (binary64.is_blocked u))
       ∧ (0 <=? (if (0 <? b + delta)%float then (b + delta)%float else 0%float))%float = true
       ∧ (∀ other : Z, other ≠ user_id →
            binary64.users d1 !! other = binary64.users d !! other)
       ∧ binary64.orders d1 = binary64.orders d
       ∧ binary64.withdraw_requests d1 = binary64.withdraw_requests d
       ∧ binary64.referrals d1 = binary64.referrals d)
  ∧ (∀ deltas : list float,
       deltas ≠ [] ∨ (0 <=? b)%float = true →
       ∃ (d' : binary64.DB) (b' : float),
         binary64.update_user_balance_run user_id deltas d = binary64.Returned d' tt
         ∧ binary64.balance <$> binary64.users d' !! user_id = Some (Some b')
         ∧ (0 <=? b')%float = true).
Proof.
  intros Hid Hu Hb. split.
  - intros delta. eexists. split.
    { by apply (binary64_update_user_balance_present _ _ _ u b). }
    cbn [binary64.users binary64.orders binary64.withdraw_requests binary64.referrals].
    split; [apply lookup_insert_eq|].
    split; [apply (py_max_0_nonneg (b + delta))|].
    split; [|done]. intros other Hne. by rewrite lookup_insert_ne.
  - intros deltas [Hne | Hpos].
    + destruct deltas as [|delta rest]; [done|].
      cbn [binary64.update_user_balance_run].
      rewrite (binary64_update_user_balance_present _ delta _ _ _ Hid Hu Hb).
      cbn [binary64.bind].
      eapply (binary64_update_user_balance_run_nonneg _ _ Hid).
      * cbn [binary64.users]. apply lookup_insert_eq.
      * done.
      * apply py_max_0_nonneg.
    + by eapply (binary64_update_user_balance_run_nonneg _ _ Hid).
Qed.

(** A debit of 10000 on Bob's 50 so'm stores 0, a credit of 30.5 stores
    80.5, and a run that starts with the debit and goes on never shows a
    negative balance. *)
Lemma update_user_balance_stores_the_clamped_sum_witness :
  (∃ d1 : binary64.DB,
     binary64.update_user_balance 8 (-10000) Free binary64.sample_db
       = binary64.Returned d1 tt
     ∧ binary64.users d1 !! 8
       = Some (binary64.mkUser (Some "bob") (Some "+998901234567") None (Some 0%float) false))
  ∧ (∃ d1 : binary64.DB,
       binary64.update_user_balance 8 30.5 Free binary64.sample_db
         = binary64.Returned d1 tt
       ∧ binary64.users d1 !! 8
         = Some (binary64.mkUser (Some "bob") (Some "+998901234567") None
                   (Some 80.5%float) false))
  ∧ ∃ (d' : binary64.DB) (b' : float),
      binary64.update_user_balance_run 8 [(-10000)%float; 30.5%float; (-45)%float]
        binary64.sample_db = binary64.Returned d' tt
      ∧ binary64.balance <$> binary64.users d' !! 8 = Some (Some b')
      ∧ (0 <=? b')%float = true.
Proof.
  assert (Hid : - 2 ^ 63 <= 8 < 2 ^ 63) by lia.
  pose proof (update_user_balance_stores_the_clamped_sum 8 binary64.sample_db
                binary64.bob 50 Hid eq_refl eq_refl) as [Hone Hrun].
  split; [|split].
  - destruct (Hone (-10000)%float) as [d1 [Hcall [Hrow _]]]. by exists d1.
  - destruct (Hone 30.5%float) as [d1 [Hcall [Hrow _]]]. by exists d1.
  - apply Hrun. left. discriminate.
Defined.





(** ** create_withdraw_request and reject_withdraw_request_and_refund *)

Lemma binary64_insert_withdraw_request_ok (user_id : Z) (amount : float) (w t : string)
    (d : binary64.DB) :
  next_rowid (binary64.withdraw_requests d) < 2 ^ 63 →
  is_nan amount = false → t = "card" ∨ t = "phone" →
  binary64.insert_withdraw_request user_id amount (Some w) (Some t) d
  = inr (next_rowid (binary64.withdraw_requests d),
         binary64.mkDB (binary64.users d) (binary64.orders d)
           (<[next_rowid (binary64.withdraw_requests d) :=
                binary64.mkWithdrawRequest user_id amount w t pending]>
              (binary64.withdraw_requests d))
           (binary64.referrals d)).
Proof.
  intros Hrow Hnum Ht. unfold binary64.insert_withdraw_request.
  rewrite fits_int64_true.
  2:{ pose proof (next_rowid_positive (binary64.withdraw_requests d)). lia. }
  cbn [negb]. rewrite (real_or_null_number _ Hnum).
  by destruct Ht as [-> | ->].
Qed.

(** An INSERT that fails inserts nothing. *)
Lemma binary64_insert_withdraw_request_fails (user_id : Z) (amount : float)
    (wallet withdraw_type : option string) (d : binary64.DB) (e : binary64.exn) :
  binary64.insert_withdraw_request user_id amount wallet withdraw_type d = inl e →
  e = binary64.OperationalError ∨ e = binary64.IntegrityError.
Proof.
  unfold binary64.insert_withdraw_request.
  destruct (negb _); [intros [= <-]; by left|].
  destruct (binary64.real_or_null amount), wallet, withdraw_type;
    try (intros [= <-]; by right).
  destruct (_ || _); [done|]. intros [= <-]. by right.
Qed.

Lemma binary64_create_withdraw_request_insufficient (user_id : Z) (amount : float)
    (wallet withdraw_type : option string) (d : binary64.DB) (u : binary64.User) (b : float) :
  - 2 ^ 63 <= user_id < 2 ^ 63 →
  binary64.users d !! user_id = Some u → binary64.balance u = Some b →
  (b <? amount)%float = true →
  binary64.create_withdraw_request user_id amount wallet withdraw_type Free d
  = binary64.Raised (binary64.InsufficientBalance user_id b amount) d.
Proof.
  intros Hid Hu Hb Hlt. unfold binary64.create_withdraw_request, binary64.get_connection.
  rewrite (fits_int64_true _ Hid). cbn [negb].
  by rewrite (binary64_select_balance_Some _ _ _ Hu), Hb, Hlt.
Qed.

Lemma binary64_create_withdraw_request_sufficient (user_id : Z) (amount : float)
    (w t : string) (d : binary64.DB) (u : binary64.User) (b : float) :
  - 2 ^ 63 <= user_id < 2 ^ 63 →
  binary64.users d !! user_id = Some u → binary64.balance u = Some b →
  (b <? amount)%float = false → is_nan amount = false →
  t = "card" ∨ t = "phone" →
  next_rowid (binary64.withdraw_requests d) < 2 ^ 63 →
  binary64.create_withdraw_request user_id amount (Some w) (Some t) Free d
  = binary64.Returned
      (binary64.mkDB
         (<[user_id := binary64.mkUser (binary64.username u) (binary64.phone u)
                         (binary64.referred_by u)
                         (Some (binary64.py_max 0 (b - amount)))
                         (binary64.is_blocked u)]> (binary64.users d))
         (binary64.orders d)
         (<[next_rowid (binary64.withdraw_requests d) :=
              binary64.mkWithdrawRequest user_id amount w t pending]>
            (binary64.withdraw_requests d))
         (binary64.referrals d))
      (next_rowid (binary64.withdraw_requests d)).
Proof.
  intros Hid Hu Hb Hge Hnum Ht Hrow.
  unfold binary64.create_withdraw_request, binary64.get_connection.
  rewrite (fits_int64_true _ Hid). cbn [negb].
  rewrite (binary64_select_balance_Some _ _ _ Hu), Hb, Hge.
  rewrite (binary64_insert_withdraw_request_ok _ _ _ _ _ Hrow Hnum Ht).
  rewrite (binary64_update_balance_present _ _ _ u) by done.
  by rewrite (real_or_null_number _ (py_max_0_not_nan _)).
Qed.

(** Whatever [create_withdraw_request] raises, it has committed nothing. *)
Lemma binary64_create_withdraw_request_rolls_back (user_id : Z) (amount : float)
    (wallet withdraw_type : option string) (lk : lock_state) (d d' : binary64.DB)
    (e : binary64.exn) :
  binary64.create_withdraw_request user_id amount wallet withdraw_type lk d
    = binary64.Raised e d' →
  d' = d.
Proof.
  unfold binary64.create_withdraw_request, binary64.get_connection.
  destruct lk; [|done].
  destruct (negb _); [by intros [= _ <-]|].
  destruct (binary64.select_balance user_id d) as [[b|]|]; try by intros [= _ <-].
  destruct (b <? amount)%float; [by intros [= _ <-]|].
  destruct (binary64.insert_withdraw_request _ _ _ _ _) as [e'|[wid d1]];
    [by intros [= _ <-]|done].
Qed.

(** Dilnoza has 18999.3 so'm and asks for 1024.08, which is not more than
    she has.  The request is created, and the balance that is stored has
    not fallen by exactly the amount: what was taken off is
    1024.0799999999981, and adding the amount to the stored balance does
    not give the old balance back. *)
Lemma create_withdraw_request_debit_is_rounded :
  ∃ (d1 : binary64.DB) (wid : Z) (stored : float),
    (binary64.fractional_amount <=? binary64.fractional_balance)%float = true
    ∧ binary64.create_withdraw_request 9 binary64.fractional_amount
        (Some "8600123412341234") (Some "card") Free binary64.sample_db
      = binary64.Returned d1 wid
    ∧ binary64.balance <$> binary64.users d1 !! 9 = Some (Some stored)
    ∧ (binary64.fractional_balance - stored =? binary64.fractional_amount)%float = false
    ∧ (stored + binary64.fractional_amount =? binary64.fractional_balance)%float = false.
Proof. eexists _, _, _. repeat split. Qed.

(** C5. For a user whose row holds a balance b, read inside the
    transaction.  If b < amount the call raises the insufficient-balance
    error, which carries b, and the database is the one before the call.
    Otherwise, for an amount that is a number, a wallet and a withdrawal
    type 'card' or 'phone', the call returns the id of one new pending row,
    under a rowid that was not in use, and in the same commit the user's
    row gets the balance max(0.0, b - amount) as binary64 computes it;
    nothing else changes.  Whatever the arguments, a call that raises has
    committed nothing.  And for whole numbers of so'm, an amount A and a
    balance B with 0 <= A <= B < 2^53, the amount is sufficient and the
    balance that is stored is exactly B - A. *)
Theorem create_withdraw_request_commits_all_or_nothing (user_id : Z) (amount : float)
    (wallet withdraw_type : option string) (d : binary64.DB) (u : binary64.User)
    (b : float) :
  - 2 ^ 63 <= user_id < 2 ^ 63 →
  binary64.users d !! user_id = Some u →
  binary64.balance u = Some b →
  ((b <? amount)%float = true →
     binary64.create_withdraw_request user_id amount wallet withdraw_type Free d
     = binary64.Raised (binary64.InsufficientBalance user_id b amount) d)
  ∧ ((b <? amount)%float = false →
     ∀ w t : string,
       is_nan amount = false → wallet = Some w → withdraw_type = Some t →
       t = "card" ∨ t = "phone" →
       next_rowid (binary64.withdraw_requests d) < 2 ^ 63 →
       binary64.withdraw_requests d !! next_rowid (binary64.withdraw_requests d) = None
       ∧ binary64.create_withdraw_request user_id amount wallet withdraw_type Free d
         = binary64.Returned
             (binary64.mkDB
                (<[user_id := binary64.mkUser (binary64.username u) (binary64.phone u)
                                (binary64.referred_by u)
                                (Some (if (0 <? b - amount)%float
                                       then (b - amount)%float else 0%float))
                                (binary64.is_blocked u)]> (binary64.users d))
                (binary64.orders d)
                (<[next_rowid (binary64.withdraw_requests d) :=
                     binary64.mkWithdrawRequest user_id amount w t pending]>
                   (binary64.withdraw_requests d))
                (binary64.referrals d))
             (next_rowid (binary64.withdraw_requests d)))
  ∧ (∀ (e : binary64.exn) (d' : binary64.DB),
       binary64.create_withdraw_request user_id amount wallet withdraw_type Free d
       = binary64.Raised e d' →
       d' = d)
  ∧ (∀ B A : Z,
       b = binary64.of_Z B → amount = binary64.of_Z A →
       0 <= A → A <= B → B < 2 ^ 53 →
       (b <? amount)%float = false ∧ is_nan amount = false
       ∧ (if (0 <? b - amount)%float then (b - amount)%float else 0%float)
         = binary64.of_Z (B - A)).
Proof.
  intros Hid Hu Hb. split; [|split; [|split]].
  - intros Hlt. by apply (binary64_create_withdraw_request_insufficient _ _ _ _ _ u).
  - intros Hge w t Hnum -> -> Ht Hrow. split; [apply next_rowid_fresh|].
    by apply (binary64_create_withdraw_request_sufficient _ _ _ _ _ u).
  - intros e d'. apply binary64_create_withdraw_request_rolls_back.
  - intros B A -> -> HA HAB HB.
    split; [rewrite of_Z_ltb by lia; by apply Z.ltb_ge|].
    split; [apply of_Z_not_nan; lia|].
    rewrite of_Z_sub by lia. apply (py_max_0_of_Z (B - A)). lia.
Qed.

(** Alice has 600 so'm: asking for 600.5 changes nothing; asking for 250.25
    creates request 2 and leaves her 349.75; asking for 600 leaves her 0. *)
Lemma create_withdraw_request_commits_all_or_nothing_witness :
  binary64.create_withdraw_request 7 600.5 (Some "8600123412341234") (Some "card")
    Free binary64.sample_db
  = binary64.Raised (binary64.InsufficientBalance 7 600 600.5) binary64.sample_db
  ∧ binary64.withdraw_requests binary64.sample_db !! 2 = None
  ∧ binary64.create_withdraw_request 7 250.25 (Some "8600123412341234") (Some "card")
      Free binary64.sample_db
    = binary64.Returned
        (binary64.mkDB
           (<[7 := binary64.mkUser (Some "alice") None None (Some 349.75%float) false]>
              (binary64.users binary64.sample_db))
           (binary64.orders binary64.sample_db)
           (<[2 := binary64.mkWithdrawRequest 7 250.25 "8600123412341234" "card" pending]>
              (binary64.withdraw_requests binary64.sample_db))
           (binary64.referrals binary64.sample_db))
        2.
Proof.
  assert (Hid : - 2 ^ 63 <= 7 < 2 ^ 63) by lia.
  pose proof (create_withdraw_request_commits_all_or_nothing 7 600.5
                (Some "8600123412341234") (Some "card") binary64.sample_db
                binary64.alice 600 Hid eq_refl eq_refl) as [Hfail _].
  pose proof (create_withdraw_request_commits_all_or_nothing 7 250.25
                (Some "8600123412341234") (Some "card") binary64.sample_db
                binary64.alice 600 Hid eq_refl eq_refl) as [_ [Hok _]].
  split; [apply Hfail; reflexivity|].
  apply (Hok eq_refl "8600123412341234" "card" eq_refl eq_refl eq_refl
           (or_introl eq_refl) eq_refl).
Defined.

(** Dilnoza has B = 18999.3 so'm and asks for A = 1024.08, with
    0 < A <= B.  The request is created and then rejected, and the balance
    that is restored is not B: it is the next binary64 number above B
    (18999.300000000003). *)
Lemma withdrawal_rejection_round_trip_is_rounded :
  ∃ (wid : Z) (d1 d2 : binary64.DB) (restored : float),
    binary64.balance <$> binary64.users binary64.sample_db !! 9
      = Some (Some binary64.fractional_balance)
    ∧ (0 <? binary64.fractional_amount)%float = true
    ∧ (binary64.fractional_amount <=? binary64.fractional_balance)%float = true
    ∧ binary64.create_withdraw_request 9 binary64.fractional_amount
        (Some "8600123412341234") (Some "card") Free binary64.sample_db
      = binary64.Returned d1 wid
    ∧ binary64.reject_withdraw_request_and_refund wid Free d1 = binary64.Returned d2 tt
    ∧ binary64.balance <$> binary64.users d2 !! 9 = Some (Some restored)
    ∧ (restored =? binary64.fractional_balance)%float = false
    ∧ restored = next_up binary64.fractional_balance.
Proof. eexists _, _, _, _. repeat split. Qed.

Lemma binary64_reject_withdraw_request_and_refund_present (request_id : Z)
    (d : binary64.DB) (r : binary64.WithdrawRequest) (u : binary64.User) (b : float) :
  - 2 ^ 63 <= request_id < 2 ^ 63 →
  binary64.withdraw_requests d !! request_id = Some r →
  binary64.users d !! binary64.w_user_id r = Some u →
  binary64.balance u = Some b →
  binary64.reject_withdraw_request_and_refund request_id Free d
  = binary64.Returned
      (binary64.mkDB
         (<[binary64.w_user_id r :=
              binary64.mkUser (binary64.username u) (binary64.phone u)
                (binary64.referred_by u)
                (binary64.real_or_null (b + binary64.w_amount r))
                (binary64.is_blocked u)]> (binary64.users d))
         (binary64.orders d)
         (<[request_id :=
              binary64.mkWithdrawRequest (binary64.w_user_id r) (binary64.w_amount r)
                (binary64.w_wallet r) (binary64.w_withdraw_type r) rejected]>
            (binary64.withdraw_requests d))
         (binary64.referrals d))
      tt.
Proof.
  intros Hid Hr Hu Hb.
  unfold binary64.reject_withdraw_request_and_refund, binary64.get_connection.
  rewrite (fits_int64_true _ Hid). cbn [negb]. rewrite Hr.
  assert (Hu1 : binary64.users
                  (binary64.update_withdraw_requests_status request_id rejected d)
                !! binary64.w_user_id r = Some u) by done.
  rewrite (binary64_select_balance_Some _ _ _ Hu1), Hb.
  rewrite (binary64_update_balance_present _ _ _ u) by done.
  unfold binary64.update_withdraw_requests_status, binary64.with_withdraw_requests.
  cbn [binary64.users binary64.orders binary64.withdraw_requests binary64.referrals].
  by rewrite (alter_alt_Some _ _ _ r).
Qed.

(** C7.  For whole numbers of so'm below 2^53: a user whose row holds the
    balance B, and an amount A with 0 < A <= B.  [create_withdraw_request]
    succeeds, stores a pending request and leaves the balance B - A, and
    rejecting the request it returned succeeds, marks the request rejected
    and restores exactly B: the whole users table is again what it was. *)
Theorem withdrawal_rejection_round_trip (user_id B A : Z) (w t : string)
    (d : binary64.DB) (u : binary64.User) :
  - 2 ^ 63 <= user_id < 2 ^ 63 →
  binary64.users d !! user_id = Some u →
  binary64.balance u = Some (binary64.of_Z B) →
  0 < A → A <= B → B < 2 ^ 53 →
  t = "card" ∨ t = "phone" →
  next_rowid (binary64.withdraw_requests d) < 2 ^ 63 →
  ∃ (wid : Z) (d1 d2 : binary64.DB),
    binary64.create_withdraw_request user_id (binary64.of_Z A) (Some w) (Some t) Free d
      = binary64.Returned d1 wid
    ∧ binary64.balance <$> binary64.users d1 !! user_id
      = Some (Some (binary64.of_Z (B - A)))
    ∧ binary64.w_status <$> binary64.withdraw_requests d1 !! wid = Some pending
    ∧ binary64.reject_withdraw_request_and_refund wid Free d1 = binary64.Returned d2 tt
    ∧ binary64.balance <$> binary64.users d2 !! user_id
      = Some (Some (binary64.of_Z B))
    ∧ binary64.users d2 = binary64.users d
    ∧ binary64.w_status <$> binary64.withdraw_requests d2 !! wid = Some rejected.
Proof.
  intros Hid Hu Hb HA HAB HB Ht Hrow.
  pose proof (next_rowid_positive (binary64.withdraw_requests d)) as Hpos.
  eexists _, _, _. split.
  { apply (binary64_create_withdraw_request_sufficient _ _ _ _ _ u _ Hid Hu Hb);
      [|apply of_Z_not_nan; lia|done|done].
    rewrite of_Z_ltb by lia. by apply Z.ltb_ge. }
  rewrite of_Z_sub, py_max_0_of_Z by lia.
  cbn [binary64.users binary64.withdraw_requests].
  split; [by rewrite lookup_insert_eq|].
  split; [by rewrite lookup_insert_eq|].
  split.
  { rewrite (binary64_reject_withdraw_request_and_refund_present _ _
               (binary64.mkWithdrawRequest user_id (binary64.of_Z A) w t pending)
               (binary64.mkUser (binary64.username u) (binary64.phone u)
                  (binary64.referred_by u) (Some (binary64.of_Z (B - A)))
                  (binary64.is_blocked u))
               (binary64.of_Z (B - A)));
      [reflexivity|lia|apply lookup_insert_eq|apply lookup_insert_eq|done]. }
  cbn [binary64.users binary64.withdraw_requests binary64.w_user_id binary64.w_amount
       binary64.username binary64.phone binary64.referred_by binary64.is_blocked].
  rewrite of_Z_add by lia. replace (B - A + A) with B by lia.
  rewrite (real_or_null_number _ (of_Z_not_nan B ltac:(lia))).
  rewrite insert_insert_eq.
  split; [by rewrite lookup_insert_eq|].
  split; [|by rewrite lookup_insert_eq].
  apply insert_id. rewrite Hu. f_equal. destruct u as [n p rf bal blk].
  simpl in Hb. by rewrite Hb.
Qed.

(** Alice, with 600 so'm, withdraws 250 and the request is rejected. *)
Lemma withdrawal_rejection_round_trip_witness :
  ∃ (wid : Z) (d1 d2 : binary64.DB),
    binary64.create_withdraw_request 7 250 (Some "8600123412341234") (Some "card")
      Free binary64.sample_db = binary64.Returned d1 wid
    ∧ binary64.balance <$> binary64.users d1 !! 7 = Some (Some 350%float)
    ∧ binary64.w_status <$> binary64.withdraw_requests d1 !! wid = Some pending
    ∧ binary64.reject_withdraw_request_and_refund wid Free d1 = binary64.Returned d2 tt
    ∧ binary64.balance <$> binary64.users d2 !! 7 = Some (Some 600%float)
    ∧ binary64.users d2 = binary64.users binary64.sample_db
    ∧ binary64.w_status <$> binary64.withdraw_requests d2 !! wid = Some rejected.
Proof.
  assert (Hid : - 2 ^ 63 <= 7 < 2 ^ 63) by lia.
  apply (withdrawal_rejection_round_trip 7 600 250 "8600123412341234" "card"
           binary64.sample_db binary64.alice Hid eq_refl eq_refl eq_refl).
  - discriminate.
  - reflexivity.
  - by left.
  - reflexivity.
Defined.


(** ** The whole-so'm ledger is the binary64 ledger on whole numbers

    For an id that fits, balances and amounts that are whole numbers from
    0 to below 2^53 and a table that is not full, what the binary64
    embedding of a function does to [to_binary64 d] is what the whole-so'm
    embedding does to [d]. *)

Lemma next_rowid_fmap {A B : Type} (f : A → B) (m : gmap Z A) :
  next_rowid (f <$> m) = next_rowid m.
Proof.
  unfold next_rowid, max_rowid. rewrite map_to_list_fmap. do 2 f_equal.
  induction (map_to_list m) as [|[k a] l IH]; [done|]. simpl. f_equal. exact IH.
Qed.

Lemma withdraw_type_name_accepted (wt : withdraw_type) :
  String.eqb (withdraw_type_name wt) "card"
  || String.eqb (withdraw_type_name wt) "phone" = true.
Proof. by destruct wt. Qed.

Lemma create_withdraw_request_in_binary64 (user_id amount : Z) (wallet : string)
    (wt : withdraw_type) (d : DB) :
  - 2 ^ 63 <= user_id < 2 ^ 63 →
  next_rowid (withdraw_requests d) < 2 ^ 63 →
  0 <= amount < 2 ^ 53 →
  (∀ u : User, users d !! user_id = Some u → 0 <= balance u < 2 ^ 53) →
  binary64.create_withdraw_request user_id (binary64.of_Z amount) (Some wallet)
    (Some (withdraw_type_name wt)) Free (to_binary64 d)
  = outcome_to_binary64 (create_withdraw_request user_id amount wallet wt Free d).
Proof.
  intros Hid Hrow Ha Hb.
  pose proof (next_rowid_positive (withdraw_requests d)) as Hpos.
  unfold binary64.create_withdraw_request, create_withdraw_request,
    binary64.get_connection, get_connection.
  rewrite (fits_int64_true _ Hid). cbn [negb].
  unfold binary64.select_balance, select_balance. cbn [to_binary64 binary64.users].
  rewrite lookup_fmap.
  destruct (users d !! user_id) as [u|] eqn:Hu; [|done].
  specialize (Hb u eq_refl). cbn [fmap option_fmap option_map user_to_binary64 binary64.balance].
  rewrite of_Z_ltb by lia.
  destruct (balance u <? amount) eqn:Hlt; [done|]. apply Z.ltb_ge in Hlt.
  unfold binary64.insert_withdraw_request.
  change (binary64.withdraw_requests (to_binary64 d))
    with (request_to_binary64 <$> withdraw_requests d).
  rewrite next_rowid_fmap.
  rewrite fits_int64_true by lia. cbn [negb].
  rewrite (real_or_null_number _ (of_Z_not_nan amount Ha)).
  rewrite withdraw_type_name_accepted.
  rewrite of_Z_sub, py_max_0_of_Z by lia.
  rewrite Z.max_r by lia.
  unfold binary64.update_balance, update_balance, binary64.with_users, with_users,
    binary64.with_withdraw_requests, with_withdraw_requests.
  cbn [outcome_to_binary64 to_binary64 binary64.users binary64.orders
       binary64.withdraw_requests binary64.referrals users orders withdraw_requests
       referrals].
  rewrite (alter_alt_Some _ _ _ (user_to_binary64 u)) by (by rewrite lookup_fmap, Hu).
  rewrite (alter_alt_Some _ _ _ u) by done.
  unfold to_binary64. cbn [users orders withdraw_requests referrals].
  rewrite !fmap_insert.
  by rewrite (real_or_null_number _ (of_Z_not_nan (balance u - amount) ltac:(lia))).
Qed.

Lemma reject_withdraw_request_and_refund_in_binary64 (request_id : Z) (d : DB)
    (r : WithdrawRequest) (u : User) :
  - 2 ^ 63 <= request_id < 2 ^ 63 →
  withdraw_requests d !! request_id = Some r →
  users d !! w_user_id r = Some u →
  0 <= w_amount r → 0 <= balance u → balance u + w_amount r < 2 ^ 53 →
  binary64.reject_withdraw_request_and_refund request_id Free (to_binary64 d)
  = outcome_to_binary64 (reject_withdraw_request_and_refund request_id Free d).
Proof.
  intros Hid Hr Hu Ha Hb Hsum.
  rewrite (reject_withdraw_request_and_refund_present _ _ r u Hr Hu).
  rewrite (binary64_reject_withdraw_request_and_refund_present _ _
             (request_to_binary64 r) (user_to_binary64 u) (binary64.of_Z (balance u)) Hid);
    [|by cbn [to_binary64 binary64.withdraw_requests]; rewrite lookup_fmap, Hr
     |by cbn [to_binary64 binary64.users request_to_binary64 binary64.w_user_id];
         rewrite lookup_fmap, Hu
     |done].
  cbn [outcome_to_binary64 to_binary64 request_to_binary64 user_to_binary64
       binary64.users binary64.orders binary64.withdraw_requests binary64.referrals
       binary64.w_user_id binary64.w_amount binary64.w_wallet binary64.w_withdraw_type
       binary64.username binary64.phone binary64.referred_by binary64.is_blocked
       users orders withdraw_requests referrals].
  rewrite of_Z_add by lia.
  rewrite (real_or_null_number _ (of_Z_not_nan (balance u + w_amount r) ltac:(lia))).
  unfold to_binary64. cbn [users orders withdraw_requests referrals].
  by rewrite !fmap_insert.
Qed.

(** For whole numbers of so'm with 0 <= amount <= balance < 2^53, on a
    database [d] of whole numbers as SQLite holds it: a
    [create_withdraw_request] moves money into reserve, it does not make or
    lose any.  It returns, and the database it leaves holds whole numbers
    again, with the user's balance lower by the amount, the sum of that
    user's pending requests higher by the amount, and for every other user
    both the balance and the pending sum untouched. *)
Theorem create_withdraw_request_conserves (user_id amount : Z) (wallet : string)
    (wt : withdraw_type) (d : DB) (u : User) :
  - 2 ^ 63 <= user_id < 2 ^ 63 →
  next_rowid (withdraw_requests d) < 2 ^ 63 →
  users d !! user_id = Some u → 0 <= amount → amount <= balance u →
  balance u < 2 ^ 53 →
  ∃ (d1 : DB) (wid : Z),
    binary64.create_withdraw_request user_id (binary64.of_Z amount) (Some wallet)
      (Some (withdraw_type_name wt)) Free (to_binary64 d)
    = binary64.Returned (to_binary64 d1) wid
    ∧ balance_of user_id d1 = balance_of user_id d - amount
    ∧ pending_total user_id d1 = pending_total user_id d + amount
    ∧ ∀ other : Z, other ≠ user_id →
        balance_of other d1 = balance_of other d
        ∧ pending_total other d1 = pending_total other d.
Proof.
  intros Hid Hrow Hu Hpos Hle Hb.
  rewrite create_withdraw_request_in_binary64; [|done|done|lia|].
  2:{ intros u' Hu'. rewrite Hu in Hu'. injection Hu' as <-. lia. }
  rewrite (create_withdraw_request_sufficient _ _ _ _ _ u Hu Hle).
  eexists _, _. split; [done|].
  rewrite !pending_total_eq. cbn [withdraw_requests].
  split.
  { unfold balance_of, select_balance. simpl. by rewrite lookup_insert_eq, Hu. }
  split.
  { rewrite reserve_insert_fresh by apply next_rowid_fresh.
    unfold reserved_by. simpl. rewrite !bool_decide_eq_true_2 by done. simpl. lia. }
  intros other Hne. split.
  - unfold balance_of, select_balance. simpl. by rewrite lookup_insert_ne.
  - rewrite !pending_total_eq. cbn [withdraw_requests].
    rewrite reserve_insert_fresh by apply next_rowid_fresh.
    unfold reserved_by. simpl.
    rewrite (bool_decide_eq_false_2 (user_id = other)) by done.
    rewrite ?andb_false_r. simpl. lia.
Qed.

(** Alice has 600 so'm and 400 in reserve; with 250 more asked for she has
    350 and 650 in reserve. *)
Lemma create_withdraw_request_conserves_witness :
  ∃ (d1 : DB) (wid : Z),
    binary64.create_withdraw_request 7 250 (Some "8600123412341234") (Some "card")
      Free (to_binary64 sample_db)
    = binary64.Returned (to_binary64 d1) wid
    ∧ balance_of 7 d1 = 600 - 250
    ∧ pending_total 7 d1 = 400 + 250
    ∧ ∀ other : Z, other ≠ 7 →
        balance_of other d1 = balance_of other sample_db
        ∧ pending_total other d1 = pending_total other sample_db.
Proof.
  assert (Hid : - 2 ^ 63 <= 7 < 2 ^ 63) by lia.
  apply (create_withdraw_request_conserves 7 250 "8600123412341234" card sample_db alice
           Hid eq_refl eq_refl); discriminate || reflexivity.
Defined.

(** For whole numbers of so'm, a balance and an amount that are not
    negative and whose sum is below 2^53, on a database [d] of whole
    numbers as SQLite holds it: [reject_withdraw_request_and_refund] on a
    pending request takes its amount out of the reserve and puts it back on
    the balance.  It returns, and the database it leaves holds whole
    numbers again, with the owner's balance higher by the amount and the
    sum of the owner's pending requests lower by it. *)
Theorem reject_withdraw_request_returns_the_reserve (request_id : Z) (d : DB)
    (r : WithdrawRequest) (u : User) :
  - 2 ^ 63 <= request_id < 2 ^ 63 →
  withdraw_requests d !! request_id = Some r → w_status r = pending →
  users d !! w_user_id r = Some u →
  0 <= w_amount r → 0 <= balance u → balance u + w_amount r < 2 ^ 53 →
  ∃ d1 : DB,
    binary64.reject_withdraw_request_and_refund request_id Free (to_binary64 d)
    = binary64.Returned (to_binary64 d1) tt
    ∧ balance_of (w_user_id r) d1 = balance_of (w_user_id r) d + w_amount r
    ∧ pending_total (w_user_id r) d1 = pending_total (w_user_id r) d - w_amount r.
Proof.
  intros Hid Hr Hp Hu Ha Hb Hsum.
  rewrite (reject_withdraw_request_and_refund_in_binary64 _ _ r u) by done.
  rewrite (reject_withdraw_request_and_refund_present _ _ r u Hr Hu).
  eexists. split; [done|].
  split.
  { unfold balance_of, select_balance. simpl. by rewrite lookup_insert_eq, Hu. }
  rewrite !pending_total_eq. cbn [withdraw_requests].
  rewrite (reserve_insert_over _ _ _ r) by done.
  unfold reserved_by. simpl. rewrite Hp.
  rewrite !bool_decide_eq_true_2 by done. simpl. lia.
Qed.

(** Alice has 600 so'm and 400 in reserve; with request 1 rejected she has
    1000 and nothing in reserve. *)
Lemma reject_withdraw_request_returns_the_reserve_witness :
  ∃ d1 : DB,
    binary64.reject_withdraw_request_and_refund 1 Free (to_binary64 sample_db)
    = binary64.Returned (to_binary64 d1) tt
    ∧ balance_of 7 d1 = 600 + 400
    ∧ pending_total 7 d1 = 400 - 400.
Proof.
  assert (Hid : - 2 ^ 63 <= 1 < 2 ^ 63) by lia.
  apply (reject_withdraw_request_returns_the_reserve 1 sample_db
           (mkWithdrawRequest 7 400 "8600123412341234" card pending) alice Hid);
    discriminate || reflexivity.
Defined.

(** ** Order approval *)

(** An order placed by a registered user and then approved by the admin is
    stored as approved under an id that was unused, and the user's row then
    holds, read back from the table, the balance b + 10000 as binary64
    computes it (NULL if the balance was NULL or the sum is not a number):
    for a whole number of so'm B with 0 <= B and B + 10000 below 2^53 that
    is exactly B + 10000.  Nothing else in the row, no other user, no other
    order and no other table changes. *)
Theorem create_order_then_approve_order (user_id : Z) (product_url photo_id : string)
    (d : binary64.DB) (u : binary64.User) :
  - 2 ^ 63 <= user_id < 2 ^ 63 →
  next_rowid (binary64.orders d) < 2 ^ 63 →
  binary64.users d !! user_id = Some u →
  ∃ (order_id : Z) (d2 : binary64.DB),
    binary64.bind (binary64.create_order user_id product_url photo_id Free d)
      (fun d1 order_id =>
         binary64.bind (binary64.admin.approve_order order_id d1)
           (fun d2 _ => binary64.Returned d2 order_id))
    = binary64.Returned d2 order_id
    ∧ binary64.orders d !! order_id = None
    ∧ binary64.orders d2 !! order_id
      = Some (mkOrder user_id product_url photo_id approved)
    ∧ (∀ other : Z, other ≠ order_id →
         binary64.orders d2 !! other = binary64.orders d !! other)
    ∧ binary64.users d2 !! user_id
      = Some (binary64.mkUser (binary64.username u) (binary64.phone u)
                (binary64.referred_by u)
                (match binary64.balance u with
                 | Some b => if is_nan (b + 10000) then None else Some (b + 10000)%float
                 | None => None
                 end)
                (binary64.is_blocked u))
    ∧ (∀ B : Z, 0 <= B → B + 10000 < 2 ^ 53 →
         binary64.balance u = Some (binary64.of_Z B) →
         binary64.balance <$> binary64.users d2 !! user_id
         = Some (Some (binary64.of_Z (B + 10000))))
    ∧ (∀ other : Z, other ≠ user_id →
         binary64.users d2 !! other = binary64.users d !! other)
    ∧ binary64.withdraw_requests d2 = binary64.withdraw_requests d
    ∧ binary64.referrals d2 = binary64.referrals d.
Proof.
  intros Hid Hrow Hu.
  pose proof (next_rowid_positive (binary64.orders d)) as Hpos.
  set (order_id := next_rowid (binary64.orders d)).
  assert (Hoid : - 2 ^ 63 <= order_id < 2 ^ 63) by (unfold order_id; lia).
  unfold binary64.create_order, binary64.get_connection.
  rewrite (fits_int64_true _ Hid). cbn [negb]. fold order_id.
  rewrite (fits_int64_true _ Hoid). cbn [negb binary64.bind].
  unfold binary64.admin.approve_order, binary64.update_order_status,
    binary64.get_all_orders, binary64.get_connection.
  rewrite (fits_int64_true _ Hoid). cbn [negb binary64.bind].
  rewrite row_with_id_all.
  cbn [binary64.orders binary64.with_orders].
  rewrite lookup_alter_eq, lookup_insert_eq.
  cbn [fmap option_fmap option_map snd set_o_status o_user_id].
  unfold binary64.add_user_balance, binary64.get_connection.
  rewrite (fits_int64_true _ Hid). cbn [negb binary64.bind].
  exists order_id. eexists. split; [reflexivity|].
  cbn [binary64.users binary64.orders binary64.withdraw_requests binary64.referrals
       binary64.with_users binary64.with_orders].
  assert (Hrow_u : alter
                     (fun u0 => binary64.set_balance
                        (binary64.sql_add (binary64.balance u0)
                           (binary64.real_or_null 10000)) u0)
                     user_id (binary64.users d) !! user_id
                   = Some (binary64.mkUser (binary64.username u) (binary64.phone u)
                             (binary64.referred_by u)
                             (match binary64.balance u with
                              | Some b => if is_nan (b + 10000) then None
                                          else Some (b + 10000)%float
                              | None => None
                              end)
                             (binary64.is_blocked u))).
  { rewrite lookup_alter_eq, Hu. cbn [fmap option_fmap option_map].
    reflexivity. }
  split; [apply next_rowid_fresh|].
  split; [by rewrite lookup_alter_eq, lookup_insert_eq|].
  split; [intros other Hne; by rewrite lookup_alter_ne, lookup_insert_ne|].
  split; [exact Hrow_u|].
  split.
  { intros B HB HB' Hbal. rewrite Hrow_u. cbn [fmap option_fmap option_map binary64.balance].
    rewrite Hbal. change 10000%float with (binary64.of_Z 10000).
    rewrite of_Z_add by lia.
    by rewrite (of_Z_not_nan (B + 10000) ltac:(lia)). }
  split; [|done]. intros other Hne. by rewrite lookup_alter_ne.
Qed.

(** Bob has 50 so'm: his new order is approved and he has 10050. *)
Lemma create_order_then_approve_order_witness :
  ∃ (order_id : Z) (d2 : binary64.DB),
    binary64.bind
      (binary64.create_order 8 "https://market.example/p4" "photo4" Free binary64.sample_db)
      (fun d1 order_id =>
         binary64.bind (binary64.admin.approve_order order_id d1)
           (fun d2 _ => binary64.Returned d2 order_id))
    = binary64.Returned d2 order_id
    ∧ binary64.orders d2 !! order_id
      = Some (mkOrder 8 "https://market.example/p4" "photo4" approved)
    ∧ binary64.users d2 !! 8
      = Some (binary64.mkUser (Some "bob") (Some "+998901234567") None
                (Some 10050%float) false).
Proof.
  assert (Hid : - 2 ^ 63 <= 8 < 2 ^ 63) by lia.
  destruct (create_order_then_approve_order 8 "https://market.example/p4" "photo4"
              binary64.sample_db binary64.bob Hid eq_refl eq_refl)
    as [order_id [d2 [Hcall [_ [Horder [_ [Huser _]]]]]]].
  by exists order_id, d2.
Defined.
(** ** The withdrawal dialogue of payments.py *)

Lemma binary64_get_user_balance_value (user_id : Z) (d : binary64.DB) (b : float) :
  - 2 ^ 63 <= user_id < 2 ^ 63 →
  match binary64.users d !! user_id with
  | Some u => binary64.balance u = Some b
  | None => b = 0%float
  end →
  binary64.get_user_balance user_id Free d = binary64.Returned d b.
Proof.
  intros Hid Hb. unfold binary64.get_user_balance, binary64.get_connection.
  rewrite (fits_int64_true _ Hid). cbn [negb]. unfold binary64.select_balance.
  destruct (binary64.users d !! user_id) as [u|]; simpl; by rewrite Hb.
Qed.

(** What [get_user_balance] returns is a balance that the table holds, or
    0.0 for an id that fits and has no row. *)
Lemma binary64_get_user_balance_returned (user_id : Z) (d d1 : binary64.DB) (b : float) :
  binary64.get_user_balance user_id Free d = binary64.Returned d1 b →
  d1 = d ∧ - 2 ^ 63 <= user_id < 2 ^ 63
  ∧ match binary64.users d !! user_id with
    | Some u => binary64.balance u = Some b
    | None => b = 0%float
    end.
Proof.
  unfold binary64.get_user_balance, binary64.get_connection, binary64.fits_int64,
    binary64.select_balance.
  destruct (- 2 ^ 63 <=? user_id) eqn:Hlo; [|done].
  destruct (user_id <? 2 ^ 63) eqn:Hhi; [|done]. cbn [negb andb].
  apply Z.leb_le in Hlo. apply Z.ltb_lt in Hhi.
  destruct (binary64.users d !! user_id) as [u|]; simpl.
  - destruct (binary64.balance u) as [b'|]; [|done]. by intros [= <- <-].
  - by intros [= <- <-].
Qed.

(** [process_withdraw_amount] only reads.  With b the balance it reads (0.0
    for a user without a row), it stores the parsed amount exactly when none
    of its three checks refuses it: amount < minimum, amount <= 0,
    amount > b.  Every comparison with what is not a number is false, so
    such an amount is refused by none of them and is stored; a stored amount
    that is a number is at least the minimum, above 0 and at most the
    balance. *)
Theorem process_withdraw_amount_stores (min_withdraw_amount : float) (user_id : Z)
    (amount : float) (d : binary64.DB) (b : float) :
  - 2 ^ 63 <= user_id < 2 ^ 63 →
  match binary64.users d !! user_id with
  | Some u => binary64.balance u = Some b
  | None => b = 0%float
  end →
  ∃ r : binary64.reply,
    binary64.payments.process_withdraw_amount min_withdraw_amount user_id amount d
      = binary64.Returned d r
    ∧ (r = binary64.Stored amount
       ↔ (amount <? min_withdraw_amount)%float = false
         ∧ (amount <=? 0)%float = false
         ∧ (b <? amount)%float = false)
    ∧ (is_nan amount = true → r = binary64.Stored amount)
    ∧ (is_nan amount = false → is_nan min_withdraw_amount = false → is_nan b = false →
       r = binary64.Stored amount →
       (min_withdraw_amount <=? amount)%float = true
       ∧ (0 <? amount)%float = true
       ∧ (amount <=? b)%float = true).
Proof.
  intros Hid Hb. unfold binary64.payments.process_withdraw_amount.
  rewrite (binary64_get_user_balance_value _ _ b Hid Hb). cbn [binary64.bind].
  destruct (amount <? min_withdraw_amount)%float eqn:Hmin.
  { eexists. split; [done|]. split; [split; [done|by intros [? _]]|].
    split; [|done]. intros Hnan. by rewrite (ltb_nan_l _ _ Hnan) in Hmin. }
  destruct (amount <=? 0)%float eqn:Hpos.
  { eexists. split; [done|]. split; [split; [done|by intros [_ [? _]]]|].
    split; [|done]. intros Hnan. by rewrite (leb_nan_l _ _ Hnan) in Hpos. }
  destruct (b <? amount)%float eqn:Hbal.
  { eexists. split; [done|]. split; [split; [done|by intros [_ [_ ?]]]|].
    split; [|done]. intros Hnan. by rewrite (ltb_nan_r _ _ Hnan) in Hbal. }
  eexists. split; [done|]. split; [done|]. split; [done|].
  intros Hna Hnm Hnb _. split; [by apply ltb_false_leb|].
  split; [by apply leb_false_ltb|by apply ltb_false_leb].
Qed.

(** Alice has 600 so'm and the minimum is 100: 250.25 is stored, and so is
    what is not a number. *)
Lemma process_withdraw_amount_stores_witness :
  binary64.payments.process_withdraw_amount 100 7 250.25 binary64.sample_db
    = binary64.Returned binary64.sample_db (binary64.Stored 250.25)
  ∧ binary64.payments.process_withdraw_amount 100 7 nan binary64.sample_db
    = binary64.Returned binary64.sample_db (binary64.Stored nan).
Proof.
  assert (Hid : - 2 ^ 63 <= 7 < 2 ^ 63) by lia.
  split.
  - destruct (process_withdraw_amount_stores 100 7 250.25 binary64.sample_db 600
                Hid eq_refl) as [r [Hcall [Hiff _]]].
    rewrite Hcall. f_equal. by apply Hiff.
  - destruct (process_withdraw_amount_stores 100 7 nan binary64.sample_db 600
                Hid eq_refl) as [r [Hcall [_ [Hnan _]]]].
    rewrite Hcall. f_equal. by apply Hnan.
Defined.

Lemma binary64_insert_withdraw_request_inserted (user_id : Z) (amount : float)
    (wallet withdraw_type : option string) (d d1 : binary64.DB) (wid : Z) :
  binary64.insert_withdraw_request user_id amount wallet withdraw_type d = inr (wid, d1) →
  ∃ w t : string,
    wallet = Some w ∧ withdraw_type = Some t ∧ (t = "card" ∨ t = "phone")
    ∧ is_nan amount = false
    ∧ wid = next_rowid (binary64.withdraw_requests d)
    ∧ d1 = binary64.mkDB (binary64.users d) (binary64.orders d)
             (<[wid := binary64.mkWithdrawRequest user_id amount w t pending]>
                (binary64.withdraw_requests d))
             (binary64.referrals d).
Proof.
  unfold binary64.insert_withdraw_request, binary64.real_or_null.
  destruct (negb _); [done|].
  destruct (is_nan amount) eqn:Hnum; [done|].
  destruct wallet as [w|], withdraw_type as [t|]; try done.
  destruct (String.eqb t "card") eqn:Hcard.
  - apply String.eqb_eq in Hcard. intros [= <- <-]. exists w, t. auto 10.
  - destruct (String.eqb t "phone") eqn:Hphone; [|done].
    apply String.eqb_eq in Hphone. intros [= <- <-]. exists w, t. auto 10.
Qed.

(** [save_withdraw_request] never lets an exception out and never leaves a
    half-made request.  Either it answers with the id of the request it has
    created: then the wallet and the type were given, the type is 'card' or
    'phone', the amount is a number that the balance b was not below, the
    id was unused, and the database differs from the old one by the new
    pending row and by the user's balance, now max(0.0, b - amount); or it
    answers with a refusal or an error, and the database is exactly as it
    was. *)
Theorem save_withdraw_request_creates_or_keeps (user_id : Z) (amount : float)
    (wallet withdraw_type : option string) (d : binary64.DB) :
  ∃ (d1 : binary64.DB) (r : binary64.reply),
    binary64.payments.save_withdraw_request user_id amount wallet withdraw_type d
      = binary64.Returned d1 r
    ∧ ((∃ (wid : Z) (u : binary64.User) (b : float) (w t : string),
          r = binary64.Created wid
          ∧ binary64.users d !! user_id = Some u ∧ binary64.balance u = Some b
          ∧ wallet = Some w ∧ withdraw_type = Some t ∧ (t = "card" ∨ t = "phone")
          ∧ is_nan amount = false ∧ (b <? amount)%float = false
          ∧ binary64.withdraw_requests d !! wid = None
          ∧ d1 = binary64.mkDB
                   (<[user_id := binary64.mkUser (binary64.username u) (binary64.phone u)
                                   (binary64.referred_by u)
                                   (Some (if (0 <? b - amount)%float
                                          then (b - amount)%float else 0%float))
                                   (binary64.is_blocked u)]> (binary64.users d))
                   (binary64.orders d)
                   (<[wid := binary64.mkWithdrawRequest user_id amount w t pending]>
                      (binary64.withdraw_requests d))
                   (binary64.referrals d))
       ∨ (d1 = d ∧ ∀ wid : Z, r ≠ binary64.Created wid)).
Proof.
  unfold binary64.payments.save_withdraw_request, binary64.create_withdraw_request,
    binary64.get_connection.
  destruct (binary64.fits_int64 user_id) eqn:Hfits; cbn [negb];
    [|eexists _, _; split; [done|]; by right].
  unfold binary64.select_balance.
  destruct (binary64.users d !! user_id) as [u|] eqn:Hu; simpl;
    [|eexists _, _; split; [done|]; by right].
  destruct (binary64.balance u) as [b|] eqn:Hb;
    [|eexists _, _; split; [done|]; by right].
  destruct (b <? amount)%float eqn:Hlt.
  { unfold binary64.get_user_balance, binary64.get_connection, binary64.select_balance.
    rewrite Hfits, Hu. simpl. rewrite Hb. cbn [binary64.bind].
    eexists _, _. split; [done|]. by right. }
  destruct (binary64.insert_withdraw_request _ _ _ _ _) as [e|[wid d1]] eqn:Hins.
  { apply binary64_insert_withdraw_request_fails in Hins as [-> | ->];
      eexists _, _; (split; [done|]); by right. }
  apply binary64_insert_withdraw_request_inserted in Hins
    as [w [t [-> [-> [Ht [Hnum [-> ->]]]]]]].
  eexists _, _. split; [done|]. left.
  exists (next_rowid (binary64.withdraw_requests d)), u, b, w, t.
  repeat (split; [done|]). split; [apply next_rowid_fresh|].
  rewrite (binary64_update_balance_present _ _ _ u) by done.
  by rewrite (real_or_null_number _ (py_max_0_not_nan _)).
Qed.

(** An amount that [process_withdraw_amount] has stored and that is a
    number is one that [save_withdraw_request] serves, given a wallet and
    the type 'card' or 'phone': the user has a row with a balance b, and on
    the same database the request is created as pending under an unused id
    and the balance becomes max(0.0, b - amount).  A stored amount that is
    not a number is never served: for a user with a row the INSERT fails
    (NOT NULL), the answer is "try again later", and nothing is written. *)
Theorem stored_amount_is_served_if_a_number (min_withdraw_amount : float) (user_id : Z)
    (amount : float) (d : binary64.DB) :
  binary64.payments.process_withdraw_amount min_withdraw_amount user_id amount d
    = binary64.Returned d (binary64.Stored amount) →
  next_rowid (binary64.withdraw_requests d) < 2 ^ 63 →
  (is_nan amount = false →
     ∀ w t : string, t = "card" ∨ t = "phone" →
       ∃ (u : binary64.User) (b : float),
         binary64.users d !! user_id = Some u ∧ binary64.balance u = Some b
         ∧ binary64.withdraw_requests d !! next_rowid (binary64.withdraw_requests d) = None
         ∧ binary64.payments.save_withdraw_request user_id amount (Some w) (Some t) d
           = binary64.Returned
               (binary64.mkDB
                  (<[user_id := binary64.mkUser (binary64.username u) (binary64.phone u)
                                  (binary64.referred_by u)
                                  (Some (if (0 <? b - amount)%float
                                         then (b - amount)%float else 0%float))
                                  (binary64.is_blocked u)]> (binary64.users d))
                  (binary64.orders d)
                  (<[next_rowid (binary64.withdraw_requests d) :=
                       binary64.mkWithdrawRequest user_id amount w t pending]>
                     (binary64.withdraw_requests d))
                  (binary64.referrals d))
               (binary64.Created (next_rowid (binary64.withdraw_requests d))))
  ∧ (is_nan amount = true →
     ∀ wallet withdraw_type : option string,
       binary64.payments.save_withdraw_request user_id amount wallet withdraw_type d
       = binary64.Returned d
           (match binary64.users d !! user_id with
            | Some _ => binary64.TryLater binary64.IntegrityError
            | None => binary64.ErrorText (binary64.UserNotFound user_id)
            end)).
Proof.
  intros Hstored Hrow. unfold binary64.payments.process_withdraw_amount in Hstored.
  destruct (binary64.get_user_balance user_id Free d) as [d1 b| |] eqn:Hget; [|done..].
  apply binary64_get_user_balance_returned in Hget as [-> [Hid Hb]].
  cbn [binary64.bind] in Hstored.
  destruct (amount <? min_withdraw_amount)%float; [done|].
  destruct (amount <=? 0)%float eqn:Hpos; [done|].
  destruct (b <? amount)%float eqn:Hbal; [done|]. clear Hstored.
  split.
  - intros Hnum w t Ht.
    destruct (binary64.users d !! user_id) as [u|] eqn:Hu.
    + exists u, b. split; [done|]. split; [done|]. split; [apply next_rowid_fresh|].
      unfold binary64.payments.save_withdraw_request.
      by rewrite (binary64_create_withdraw_request_sufficient _ _ _ _ _ u b).
    + subst b. apply leb_false_ltb in Hpos; [|done..]. by rewrite Hpos in Hbal.
  - intros Hnan wallet withdraw_type.
    unfold binary64.payments.save_withdraw_request, binary64.create_withdraw_request,
      binary64.get_connection.
    rewrite (fits_int64_true _ Hid). cbn [negb]. unfold binary64.select_balance.
    destruct (binary64.users d !! user_id) as [u|] eqn:Hu; simpl; [|done].
    rewrite Hb, Hbal. unfold binary64.insert_withdraw_request.
    rewrite fits_int64_true.
    2:{ pose proof (next_rowid_positive (binary64.withdraw_requests d)). lia. }
    cbn [negb]. unfold binary64.real_or_null. by rewrite Hnan.
Qed.

(** Alice has 600 so'm and the minimum is 100: the stored 250.25 is served
    and leaves her 349.75; the stored not-a-number is answered with "try
    again later". *)
Lemma stored_amount_is_served_if_a_number_witness :
  (∃ (u : binary64.User) (b : float),
     binary64.users binary64.sample_db !! 7 = Some u ∧ binary64.balance u = Some b
     ∧ binary64.withdraw_requests binary64.sample_db !! 2 = None
     ∧ binary64.payments.save_withdraw_request 7 250.25 (Some "8600123412341234")
         (Some "card") binary64.sample_db
       = binary64.Returned
           (binary64.mkDB
              (<[7 := binary64.mkUser (Some "alice") None None (Some 349.75%float) false]>
                 (binary64.users binary64.sample_db))
              (binary64.orders binary64.sample_db)
              (<[2 := binary64.mkWithdrawRequest 7 250.25 "8600123412341234" "card"
                        pending]>
                 (binary64.withdraw_requests binary64.sample_db))
              (binary64.referrals binary64.sample_db))
           (binary64.Created 2))
  ∧ binary64.payments.save_withdraw_request 7 nan (Some "8600123412341234") (Some "card")
      binary64.sample_db
    = binary64.Returned binary64.sample_db (binary64.TryLater binary64.IntegrityError).
Proof.
  split.
  - destruct (proj1 (stored_amount_is_served_if_a_number 100 7 250.25 binary64.sample_db
                       eq_refl eq_refl) eq_refl "8600123412341234" "card"
                    (or_introl eq_refl))
      as [u [b [Hu [Hb [Hfresh Hsave]]]]].
    exists u, b. split; [done|]. split; [done|]. split; [done|].
    rewrite Hsave. injection Hu as <-. injection Hb as <-. reflexivity.
  - apply (proj2 (stored_amount_is_served_if_a_number 100 7 nan binary64.sample_db
                    eq_refl eq_refl) eq_refl).
Defined.

(** ** Card and phone numbers kept as the wallet *)

Lemma binary64_save_withdraw_request_returns (user_id : Z) (amount : float)
    (wallet withdraw_type : option string) (d : binary64.DB) :
  ∃ (d1 : binary64.DB) (r : binary64.reply),
    binary64.payments.save_withdraw_request user_id amount wallet withdraw_type d
    = binary64.Returned d1 r.
Proof.
  unfold binary64.payments.save_withdraw_request, binary64.create_withdraw_request,
    binary64.get_connection.
  destruct (binary64.fits_int64 user_id) eqn:Hfits; cbn [negb]; [|by eexists _, _].
  unfold binary64.select_balance.
  destruct (binary64.users d !! user_id) as [u|] eqn:Hu; simpl; [|by eexists _, _].
  destruct (binary64.balance u) as [b|] eqn:Hb; [|by eexists _, _].
  destruct (b <? amount)%float.
  { unfold binary64.get_user_balance, binary64.get_connection, binary64.select_balance.
    rewrite Hfits, Hu. simpl. rewrite Hb. by eexists _, _. }
  destruct (binary64.insert_withdraw_request _ _ _ _ _) as [e|[wid d1]] eqn:Hins;
    [|by eexists _, _].
  apply binary64_insert_withdraw_request_fails in Hins as [-> | ->]; by eexists _, _.
Qed.

Lemma validate_phone_number_accepted (text : string) :
  payments.validate_phone_number text = true →
  ∃ digits : list ascii,
    length digits = 9%nat ∧ forallb is_digit digits = true
    ∧ (remove_spaces (list_ascii_of_string text) = list_ascii_of_string "+998" ++ digits
       ∨ remove_spaces (list_ascii_of_string text)
         = list_ascii_of_string "+998" ++ digits ++ ["010"%char]).
Proof.
  unfold payments.validate_phone_number.
  set (cleaned := remove_spaces (list_ascii_of_string text)).
  intros Hv.
  destruct cleaned as [|c1 [|c2 [|c3 [|c4 rest]]]]; try done;
    try (by destruct c1 as [[] [] [] [] [] [] [] []]).
  - destruct c1 as [[] [] [] [] [] [] [] []]; try done.
    all: by destruct c2 as [[] [] [] [] [] [] [] []].
  - destruct c1 as [[] [] [] [] [] [] [] []]; try done.
    all: destruct c2 as [[] [] [] [] [] [] [] []]; try done.
    all: by destruct c3 as [[] [] [] [] [] [] [] []].
  - destruct c1 as [[] [] [] [] [] [] [] []]; try done.
    destruct c2 as [[] [] [] [] [] [] [] []]; try done.
    destruct c3 as [[] [] [] [] [] [] [] []]; try done.
    destruct c4 as [[] [] [] [] [] [] [] []]; try done.
    apply digits_then_end_spec in Hv as [digits [Hlen [Hdig Hrest]]].
    exists digits. split; [done|]. split; [done|].
    destruct Hrest as [-> | ->]; [by left | by right].
Qed.

(** For a text whose characters are below U+0100 (where the class \d is
    the digits 0 to 9): a text that [process_card_number] keeps as the
    wallet is, spaces aside, exactly 16 digits (the text is stripped first,
    so no newline can follow them), it is what [save_withdraw_request] is
    then given as the wallet, and its mask ends in the last four of these
    digits; a text that it refuses changes nothing in the database. *)
Theorem process_card_number_keeps_card_numbers (text : string) (user_id : Z)
    (amount : float) (withdraw_type : option string) (d : binary64.DB) :
  ∃ (d1 : binary64.DB) (answer : binary64.payments.wallet_reply),
    binary64.payments.process_card_number text user_id amount withdraw_type d
      = binary64.Returned d1 answer
    ∧ match answer with
      | binary64.payments.InvalidWallet => d1 = d
      | binary64.payments.Saved wallet r =>
          binary64.payments.save_withdraw_request user_id amount (Some wallet)
            withdraw_type d = binary64.Returned d1 r
          ∧ length (remove_spaces (list_ascii_of_string wallet)) = 16%nat
          ∧ forallb is_digit (remove_spaces (list_ascii_of_string wallet)) = true
          ∧ list_ascii_of_string (payments.mask_card_number wallet)
            = list_ascii_of_string "**** **** **** "
              ++ skipn 12 (remove_spaces (list_ascii_of_string wallet))
      end.
Proof.
  unfold binary64.payments.process_card_number.
  set (wallet := string_of_list_ascii (strip (list_ascii_of_string text))).
  destruct (payments.validate_card_number wallet) eqn:Hvalid.
  - destruct (binary64_save_withdraw_request_returns user_id amount (Some wallet)
                withdraw_type d) as [d1 [r Hsave]].
    rewrite Hsave. cbn [binary64.bind]. exists d1, (binary64.payments.Saved wallet r).
    split; [done|]. split; [done|].
    unfold payments.validate_card_number in Hvalid.
    apply digits_then_end_spec in Hvalid as [digits [Hlen [Hdig Hclean]]].
    assert (Hexact : remove_spaces (list_ascii_of_string wallet) = digits).
    { destruct Hclean as [Hc | Hc]; [done|]. exfalso.
      unfold wallet in Hc. rewrite list_ascii_of_string_of_list_ascii in Hc.
      by apply remove_spaces_strip_no_newline in Hc. }
    rewrite Hexact. split; [done|]. split; [done|].
    unfold payments.mask_card_number. rewrite Hexact.
    rewrite list_ascii_of_string_append, list_ascii_of_string_of_list_ascii.
    unfold last_chars. by rewrite Hlen.
  - by exists d, binary64.payments.InvalidWallet.
Qed.

(** For a text whose characters are below U+0100 (where the class \d is
    the digits 0 to 9): a text that [process_phone_number] keeps as the
    wallet is, spaces aside, exactly +998 followed by 9 digits, and it is
    what [save_withdraw_request] is then given as the wallet; a text that
    it refuses changes nothing in the database. *)
Theorem process_phone_number_keeps_phone_numbers (text : string) (user_id : Z)
    (amount : float) (withdraw_type : option string) (d : binary64.DB) :
  ∃ (d1 : binary64.DB) (answer : binary64.payments.wallet_reply),
    binary64.payments.process_phone_number text user_id amount withdraw_type d
      = binary64.Returned d1 answer
    ∧ match answer with
      | binary64.payments.InvalidWallet => d1 = d
      | binary64.payments.Saved wallet r =>
          binary64.payments.save_withdraw_request user_id amount (Some wallet)
            withdraw_type d = binary64.Returned d1 r
          ∧ ∃ digits : list ascii,
              length digits = 9%nat ∧ forallb is_digit digits = true
              ∧ remove_spaces (list_ascii_of_string wallet)
                = list_ascii_of_string "+998" ++ digits
      end.
Proof.
  unfold binary64.payments.process_phone_number.
  set (wallet := string_of_list_ascii (strip (list_ascii_of_string text))).
  destruct (payments.validate_phone_number wallet) eqn:Hvalid.
  - destruct (binary64_save_withdraw_request_returns user_id amount (Some wallet)
                withdraw_type d) as [d1 [r Hsave]].
    rewrite Hsave. cbn [binary64.bind]. exists d1, (binary64.payments.Saved wallet r).
    split; [done|]. split; [done|].
    apply validate_phone_number_accepted in Hvalid as [digits [Hlen [Hdig Hclean]]].
    exists digits. split; [done|]. split; [done|].
    destruct Hclean as [Hc | Hc]; [done|]. exfalso.
    unfold wallet in Hc. rewrite list_ascii_of_string_of_list_ascii in Hc.
    rewrite app_assoc in Hc. by apply remove_spaces_strip_no_newline in Hc.
  - by exists d, binary64.payments.InvalidWallet.
Qed.
